(** * PMC figure scraper: a Rocq model of [src/figure_scraper.py]

    The development follows the Python class [FigureScraper]:

    - [PyStr]   the string operations the scraper relies on
                ([in], [startswith], [strip], [lower], [re.sub(r'\s+', ' ', _)],
                [str(int)]);
    - [Soup]    the part of the parsed-document interface it calls
                ([select], [select_one], [find], [find_next_sibling],
                [get], [get_text]);
    - [Py]      requests, exceptions and [try]/[except] as a small monad over
                the log of issued requests;
    - [FigureScraper]  the methods of the class, one definition per method.

    Strings are sequences of code points below 256 (Rocq's [ascii]); the
    predicates on characters follow Python on that range.  A response body
    stands for its parse tree; [print] and [time.sleep] have no counterpart
    here. *)

From Stdlib Require Import String Ascii List Bool Arith Lia ZArith.
From Stdlib Require Import DecimalString DecimalNat.
Import ListNotations.

Local Set Warnings "-register-all".

Local Open Scope list_scope.
Local Open Scope nat_scope.
Local Open Scope string_scope.

(* ===================================================================== *)
(** ** Python string operations *)
(* ===================================================================== *)

Module PyStr.

(** [c.isspace()] for a code point below 256: TAB..CR, FS..US, SPACE,
    NEL (133) and NBSP (160).  [str.strip()] and the regex class [\s]
    on [str] patterns both use this predicate. *)
Definition is_space (c : ascii) : bool :=
  let n := nat_of_ascii c in
  (((9 <=? n) && (n <=? 13)) || ((28 <=? n) && (n <=? 32))
   || (n =? 133) || (n =? 160))%nat.

(** [c.lower()] for a code point below 256: A..Z and the Latin-1 capitals
    (192..222 without the multiplication sign 215) move up by 32. *)
Definition lower_char (c : ascii) : ascii :=
  let n := nat_of_ascii c in
  if (((65 <=? n) && (n <=? 90))
      || ((192 <=? n) && (n <=? 222) && negb (n =? 215)))%nat
  then ascii_of_nat (n + 32) else c.

(** [s.lower()] *)
Fixpoint lower (s : string) : string :=
  match s with
  | EmptyString => EmptyString
  | String c t => String (lower_char c) (lower t)
  end.

(** [s.startswith(p)] *)
Definition startswith (s p : string) : bool := String.prefix p s.

(** [p in s] *)
Fixpoint contains (p s : string) : bool :=
  String.prefix p s ||
  match s with
  | EmptyString => false
  | String _ t => contains p t
  end.

(** [s.lstrip()] *)
Fixpoint lstrip (s : string) : string :=
  match s with
  | EmptyString => EmptyString
  | String c t => if is_space c then lstrip t else s
  end.

Definition all_space (s : string) : bool :=
  match lstrip s with EmptyString => true | _ => false end.

(** [s.rstrip()] *)
Fixpoint rstrip (s : string) : string :=
  match s with
  | EmptyString => EmptyString
  | String c t => if all_space s then EmptyString else String c (rstrip t)
  end.

(** [s.strip()] *)
Definition strip (s : string) : string := rstrip (lstrip s).

(** [re.sub(r'\s+', ' ', s)]: every maximal run of white space becomes one
    space.  [in_run] tells whether the previous character was white. *)
Fixpoint collapse_from (in_run : bool) (s : string) : string :=
  match s with
  | EmptyString => EmptyString
  | String c t =>
      if is_space c
      then (if in_run then collapse_from true t
            else String " " (collapse_from true t))
      else String c (collapse_from false t)
  end.

Definition collapse_ws (s : string) : string := collapse_from false s.

(** [str(n)] for a non-negative [int] *)
Definition str_of_nat (n : nat) : string :=
  NilEmpty.string_of_uint (Nat.to_uint n).

(** Truthiness of a string: [if s:] *)
Definition truthy (s : string) : bool :=
  match s with EmptyString => false | _ => true end.

(** [any(p in s for p in ps)] *)
Definition any_in (ps : list string) (s : string) : bool :=
  existsb (fun p => contains p s) ps.

End PyStr.

(* ===================================================================== *)
(** ** The parsed document, as the scraper sees it *)
(* ===================================================================== *)

Module Soup.

(** What a start tag carries.  The parser keeps [class] as a list of
    names and every other attribute as a string. *)
Record tagdata : Type := mk_tag {
  name : string;
  classes : list string;
  attrs : list (string * string)
}.

Inductive node : Type :=
| Text (s : string)
| Elem (d : tagdata) (children : list node).

Definition document : Type := list node.

(** A tag handle: the tag together with its place in the document, i.e.
    its ancestors (nearest first) and the nodes that follow it under the
    same parent. *)
Record element : Type := mk_element {
  el_data : tagdata;
  el_children : list node;
  el_ancestors : list tagdata;
  el_following : list node
}.

Fixpoint assoc (k : string) (l : list (string * string)) : option string :=
  match l with
  | [] => None
  | (k', v) :: t => if k' =? k then Some v else assoc k t
  end.

(** [elem.get(key)] *)
Definition get (e : element) (key : string) : option string :=
  assoc key (attrs (el_data e)).

(** [a or b] where [a] is [None] or a string *)
Definition or_else (a : option string) (b : option string) : option string :=
  match a with
  | Some s => if PyStr.truthy s then Some s else b
  | None => b
  end.

(** [a or d] where [d] is a string *)
Definition or_default (a : option string) (d : string) : string :=
  match a with
  | Some s => if PyStr.truthy s then s else d
  | None => d
  end.

(** [elem.get_text()]: the strings below the tag, in document order. *)
Fixpoint text_of (n : node) : string :=
  match n with
  | Text s => s
  | Elem _ cs =>
      (fix go (l : list node) : string :=
         match l with
         | [] => EmptyString
         | c :: t => text_of c ++ go t
         end) cs
  end.

Fixpoint text_of_list (l : list node) : string :=
  match l with
  | [] => EmptyString
  | c :: t => text_of c ++ text_of_list t
  end.

Definition get_text (e : element) : string := text_of_list (el_children e).

(** The tags of a subtree in document order (a tag before its
    descendants), each with its context. *)
Fixpoint elements_in (ancs : list tagdata) (n : node) (following : list node)
  : list element :=
  match n with
  | Text _ => []
  | Elem d cs =>
      mk_element d cs ancs following ::
      (fix go (l : list node) : list element :=
         match l with
         | [] => []
         | c :: t => (elements_in (d :: ancs) c t ++ go t)%list
         end) cs
  end.

Fixpoint elements_of (ancs : list tagdata) (l : list node) : list element :=
  match l with
  | [] => []
  | c :: t => (elements_in ancs c t ++ elements_of ancs t)%list
  end.

Definition all_elements (soup : document) : list element :=
  elements_of [] soup.

Definition descendants (e : element) : list element :=
  elements_of (el_data e :: el_ancestors e) (el_children e).

(** *** The CSS selectors that occur in the scraper *)

Inductive attr_test : Type :=
| AttrContains (key value : string)   (* [key*="value"] *)
| AttrPrefix (key value : string).    (* [key^="value"] *)

(** A compound selector: optional type, class and attribute test. *)
Record compound : Type := mk_compound {
  c_tag : option string;
  c_class : option string;
  c_attr : option attr_test
}.

Inductive selector : Type :=
| Sel (c : compound)                          (* "c" *)
| Descendant (a : compound) (c : compound).   (* "a c" *)

Definition tag (t : string) : compound := mk_compound (Some t) None None.
Definition cls (c : string) : compound := mk_compound None (Some c) None.
Definition tag_cls (t c : string) : compound :=
  mk_compound (Some t) (Some c) None.
Definition tag_attr (t : string) (a : attr_test) : compound :=
  mk_compound (Some t) None (Some a).
Definition attr (a : attr_test) : compound := mk_compound None None (Some a).

Definition mem (x : string) (l : list string) : bool :=
  existsb (String.eqb x) l.

Definition test_attr (a : attr_test) (d : tagdata) : bool :=
  match a with
  | AttrContains k v =>
      match assoc k (attrs d) with
      | Some x => PyStr.contains v x
      | None => false
      end
  | AttrPrefix k v =>
      match assoc k (attrs d) with
      | Some x => PyStr.startswith x v
      | None => false
      end
  end.

Definition matches_compound (c : compound) (d : tagdata) : bool :=
  match c_tag c with Some t => name d =? t | None => true end
  && match c_class c with Some k => mem k (classes d) | None => true end
  && match c_attr c with Some a => test_attr a d | None => true end.

Definition matches (s : selector) (e : element) : bool :=
  match s with
  | Sel c => matches_compound c (el_data e)
  | Descendant a c =>
      matches_compound c (el_data e)
      && existsb (matches_compound a) (el_ancestors e)
  end.

(** [soup.select(selector)] *)
Definition select (soup : document) (s : selector) : list element :=
  filter (matches s) (all_elements soup).

(** [elem.select_one(selector)] *)
Definition select_one (e : element) (s : selector) : option element :=
  hd_error (filter (matches s) (descendants e)).

(** [elem.find(name)] *)
Definition find (e : element) (t : string) : option element :=
  hd_error (filter (fun x => name (el_data x) =? t) (descendants e)).

(** [elem.find_next_sibling()]: the next tag under the same parent. *)
Fixpoint first_tag (ancs : list tagdata) (l : list node) : option element :=
  match l with
  | [] => None
  | Text _ :: t => first_tag ancs t
  | Elem d cs :: t => Some (mk_element d cs ancs t)
  end.

Definition find_next_sibling (e : element) : option element :=
  first_tag (el_ancestors e) (el_following e).

End Soup.

(* ===================================================================== *)
(** ** Requests, exceptions and [try]/[except] *)
(* ===================================================================== *)

Module Py.

(** The exceptions that derive from [Exception], which is what the
    handlers of the scraper catch. *)
Inductive exn : Type :=
| ConnectionError
| Timeout
| HTTPError (status : Z)
| Exception (msg : string).

Inductive result (A : Type) : Type :=
| Ok (a : A)
| Raise (e : exn).
Arguments Ok {A} a.
Arguments Raise {A} e.

(** The response of a GET: status code and body, the body already
    parsed ([BeautifulSoup(response.content, 'html.parser')]). *)
Record response : Type := mk_response {
  status_code : Z;
  content : Soup.document
}.

Inductive outcome : Type :=
| Responds (r : response)
| Fails (e : exn).

(** The URLs requested so far, oldest first. *)
Definition log : Type := list string.

(** The outside world: what a GET of a URL yields, given the requests
    made before it. *)
Definition network : Type := log -> string -> outcome.

(** A computation reads and extends the request log and either returns
    or raises. *)
Definition M (A : Type) : Type := log -> result A * log.

Definition ret {A} (a : A) : M A := fun l => (Ok a, l).

Definition bind {A B} (c : M A) (k : A -> M B) : M B :=
  fun l =>
    match c l with
    | (Ok a, l') => k a l'
    | (Raise e, l') => (Raise e, l')
    end.

Definition raise {A} (e : exn) : M A := fun l => (Raise e, l).

(** [try: c  except Exception as e: h e] *)
Definition try_except {A} (c : M A) (h : exn -> M A) : M A :=
  fun l =>
    match c l with
    | (Ok a, l') => (Ok a, l')
    | (Raise e, l') => h e l'
    end.

(** [self.session.get(url, timeout=...)] *)
Definition session_get (net : network) (url : string) : M response :=
  fun l =>
    match net l url with
    | Responds r => (Ok r, (l ++ [url])%list)
    | Fails e => (Raise e, (l ++ [url])%list)
    end.

(** [response.raise_for_status()]: requests raises [HTTPError] for the
    client and server error codes, 400 to 599, and returns otherwise. *)
Definition raise_for_status (r : response) : M unit :=
  if ((400 <=? status_code r) && (status_code r <? 600))%Z
  then raise (HTTPError (status_code r))
  else ret tt.

End Py.

Notation "x <- c ;; k" := (Py.bind c (fun x => k))
  (at level 61, c at next level, right associativity).
Notation "c ;;; k" := (Py.bind c (fun _ => k))
  (at level 61, right associativity).

(* ===================================================================== *)
(** ** class FigureScraper *)
(* ===================================================================== *)

Module FigureScraper.

Import PyStr Soup Py.

(** The dictionary returned for one figure. *)
Record FigureRecord : Type := mk_record {
  figure_id : string;
  label : string;
  caption : string;
  image_url : string;
  figure_url : string
}.

Definition site_origin : string := "https://www.ncbi.nlm.nih.gov".

(** *** [_normalize_pmcid] *)
Definition _normalize_pmcid (pmcid : string) : string :=
  let pmcid := strip pmcid in
  if negb (startswith pmcid "PMC") then "PMC" ++ pmcid else pmcid.

(** *** [_is_cdn_url] *)
Definition cdn_patterns : list string :=
  [ "cdn.ncbi.nlm.nih.gov/pmc/blobs/";
    "ncbi.nlm.nih.gov/pmc/blobs/" ].

Definition image_extensions : list string :=
  [ ".jpg"; ".jpeg"; ".png"; ".gif"; ".webp" ].

Definition _is_cdn_url (url : string) : bool :=
  if negb (truthy url) then false
  else
    let has_cdn_pattern := any_in cdn_patterns url in
    let has_image_extension := any_in image_extensions (lower url) in
    has_cdn_pattern && has_image_extension.

(** *** [_normalize_url] *)
Definition _normalize_url (url : string) : string :=
  if negb (truthy url) then ""
  else
    let url := strip url in
    if startswith url "//" then "https:" ++ url
    else if startswith url "/" then site_origin ++ url
    else if startswith url "http" then url
    else site_origin ++ "/" ++ url.

(** The second test of the scan in [_scrape_cdn_url_from_figure_page]:
    ['ncbi.nlm.nih.gov' in u and any(ext in u.lower() for ext in
    ['.jpg', '.jpeg', '.png'])]. *)
Definition is_ncbi_image (normalized_url : string) : bool :=
  contains "ncbi.nlm.nih.gov" normalized_url
  && any_in [".jpg"; ".jpeg"; ".png"] (lower normalized_url).

(** The three classes of a candidate URL, read off the [if]/[elif] of the
    scan: the first test is [_is_cdn_url], the second [is_ncbi_image]. *)
Inductive CandidateUrl : Type :=
| DirectAsset
| GenericRepositoryImage
| Unusable.

Definition classify (url : string) : CandidateUrl :=
  if _is_cdn_url url then DirectAsset
  else if is_ncbi_image url then GenericRepositoryImage
  else Unusable.

(** *** [_find_figure_elements] *)
Definition figure_selectors : list selector :=
  [ Sel (tag_cls "div" "fig");                    (* div.fig *)
    Sel (tag "figure");                           (* figure *)
    Sel (cls "fig-panel");                        (* .fig-panel *)
    Descendant (cls "boxed-text") (tag "figure"); (* .boxed-text figure *)
    Sel (attr (AttrPrefix "id" "F")) ].           (* [id^="F"] *)

(** The body of the inner loop: [figures] and [seen_ids] before and after
    one matched element. *)
Definition accept_element (st : list element * list string) (elem : element)
  : list element * list string :=
  let '(figures, seen_ids) := st in
  let elem_id :=
    or_default (get elem "id")
               ("fig_" ++ str_of_nat (List.length figures)) in
  if negb (mem elem_id seen_ids)
  then ((figures ++ [elem])%list, elem_id :: seen_ids)
  else st.

Definition find_with (selectors : list selector) (soup : document)
  : list element * list string :=
  fold_left
    (fun st selector => fold_left accept_element (select soup selector) st)
    selectors ([], []).

Definition _find_figure_elements (soup : document) : list element :=
  fst (find_with figure_selectors soup).

(** *** [_extract_figure_label] *)
Definition label_selectors : list selector :=
  [ Sel (cls "fig-label"); Sel (cls "figure-title"); Sel (cls "fig-title");
    Sel (tag "strong"); Sel (cls "caption-title");
    Sel (tag "h3"); Sel (tag "h4") ].

Fixpoint label_loop (fig_elem : element) (selectors : list selector)
  : option string :=
  match selectors with
  | [] => None
  | selector :: rest =>
      match select_one fig_elem selector with
      | Some label_elem =>
          let text := strip (get_text label_elem) in
          if truthy text && (String.length text <? 200)%nat
          then Some text
          else label_loop fig_elem rest
      | None => label_loop fig_elem rest
      end
  end.

Definition _extract_figure_label (fig_elem : element) (fig_number : nat)
  : string :=
  match label_loop fig_elem label_selectors with
  | Some text => text
  | None => "Figure " ++ str_of_nat fig_number
  end.

(** *** [_extract_figure_caption] *)
Definition caption_selectors : list selector :=
  [ Sel (cls "fig-caption"); Sel (tag "figcaption"); Sel (cls "caption");
    Sel (cls "figure-caption"); Sel (cls "caption-text") ].

(** The loop over the caption selectors; [Some] is its [return]. *)
Fixpoint caption_loop (fig_elem : element) (selectors : list selector)
  : option string :=
  match selectors with
  | [] => None
  | selector :: rest =>
      match select_one fig_elem selector with
      | Some caption_elem =>
          let text := strip (get_text caption_elem) in
          if (10 <? String.length text)%nat
          then Some (collapse_ws text)
          else caption_loop fig_elem rest
      | None => caption_loop fig_elem rest
      end
  end.

Definition sibling_caption (fig_elem : element) : string :=
  match find_next_sibling fig_elem with
  | Some next_sibling =>
      let sibling_text := strip (get_text next_sibling) in
      if truthy sibling_text && (20 <? String.length sibling_text)%nat
      then collapse_ws sibling_text
      else ""
  | None => ""
  end.

Definition _extract_figure_caption (fig_elem : element) : string :=
  match caption_loop fig_elem caption_selectors with
  | Some text => text
  | None => sibling_caption fig_elem
  end.

(** *** [_scrape_cdn_url_from_figure_page] *)
Definition cdn_selectors : list selector :=
  [ (* img[src*="cdn.ncbi.nlm.nih.gov/pmc/blobs/"] *)
    Sel (tag_attr "img" (AttrContains "src" "cdn.ncbi.nlm.nih.gov/pmc/blobs/"));
    (* img[src*="/pmc/blobs/"] *)
    Sel (tag_attr "img" (AttrContains "src" "/pmc/blobs/"));
    Sel (tag_cls "img" "figure-image");              (* img.figure-image *)
    Descendant (cls "figure-viewer") (tag "img");    (* .figure-viewer img *)
    Descendant (cls "fig-panel") (tag "img");        (* .fig-panel img *)
    Descendant (cls "figure-content") (tag "img");   (* .figure-content img *)
    Descendant (cls "fig-main") (tag "img");         (* .fig-main img *)
    (* img[src*="blobs"] *)
    Sel (tag_attr "img" (AttrContains "src" "blobs"));
    (* img[src*="cdn.ncbi.nlm.nih.gov"] *)
    Sel (tag_attr "img" (AttrContains "src" "cdn.ncbi.nlm.nih.gov"));
    (* .fig img[src*=".jpg"] *)
    Descendant (cls "fig") (tag_attr "img" (AttrContains "src" ".jpg"));
    (* .fig img[src*=".png"] *)
    Descendant (cls "fig") (tag_attr "img" (AttrContains "src" ".png"));
    (* img[alt*="Figure"] *)
    Sel (tag_attr "img" (AttrContains "alt" "Figure"));
    (* img[alt*="Fig"] *)
    Sel (tag_attr "img" (AttrContains "alt" "Fig")) ].

(** The body of [for img_tag in img_tags]: [Some u] is [return u], [None]
    is falling out of the body. *)
Definition scan_tag (img_tag : element) : option string :=
  match get img_tag "src" with
  | Some src =>
      if truthy src then
        let normalized_url := _normalize_url src in
        if _is_cdn_url normalized_url then Some normalized_url
        else if is_ncbi_image normalized_url then Some normalized_url
        else None
      else None
  | None => None
  end.

Fixpoint scan_tags (img_tags : list element) : option string :=
  match img_tags with
  | [] => None
  | img_tag :: rest =>
      match scan_tag img_tag with
      | Some url => Some url
      | None => scan_tags rest
      end
  end.

Fixpoint scan_selectors (soup : document) (selectors : list selector)
  : option string :=
  match selectors with
  | [] => None
  | selector :: rest =>
      match scan_tags (select soup selector) with
      | Some url => Some url
      | None => scan_selectors soup rest
      end
  end.

Definition figure_page (pmcid fig_id : string) : string :=
  "https://www.ncbi.nlm.nih.gov/pmc/articles/" ++ pmcid
    ++ "/figure/" ++ fig_id ++ "/".

Definition _scrape_cdn_url_from_figure_page
    (net : network) (pmcid fig_id : string) : M string :=
  let figure_page_url := figure_page pmcid fig_id in
  try_except
    (response <- session_get net figure_page_url ;;
     if negb (status_code response =? 200)%Z then ret ""
     else
       let soup := content response in
       match scan_selectors soup cdn_selectors with
       | Some normalized_url => ret normalized_url
       | None => ret ""
       end)
    (fun _ => ret "").

(** *** [_get_cdn_image_url] *)
Definition inline_src (fig_elem : element) : option string :=
  match find fig_elem "img" with
  | Some img_elem => or_else (get img_elem "src") (get img_elem "data-src")
  | None => None
  end.

Definition _get_cdn_image_url
    (net : network) (fig_elem : element) (pmcid fig_id : string) : M string :=
  match inline_src fig_elem with
  | Some src =>
      if truthy src && _is_cdn_url src
      then ret (_normalize_url src)
      else _scrape_cdn_url_from_figure_page net pmcid fig_id
  | None => _scrape_cdn_url_from_figure_page net pmcid fig_id
  end.

(** *** [_extract_figure_info] *)

(** [fig_elem.get('id') or f"figure_{fig_number}"] *)
Definition fig_id_of (fig_elem : element) (fig_number : nat) : string :=
  or_default (get fig_elem "id") ("figure_" ++ str_of_nat fig_number).

Definition _extract_figure_info
    (net : network) (fig_elem : element) (pmcid : string) (fig_number : nat)
  : M (option FigureRecord) :=
  let fig_id := fig_id_of fig_elem fig_number in
  let label := _extract_figure_label fig_elem fig_number in
  let caption := _extract_figure_caption fig_elem in
  cdn_image_url <- _get_cdn_image_url net fig_elem pmcid fig_id ;;
  let pmc_figure_page_url := figure_page pmcid fig_id in
  if truthy caption || truthy cdn_image_url then
    ret (Some
      {| figure_id := fig_id;
         label := label;
         caption := caption;
         image_url :=
           if truthy cdn_image_url then cdn_image_url
           else pmc_figure_page_url;
         figure_url :=
           if truthy cdn_image_url then cdn_image_url
           else pmc_figure_page_url |})
  else ret None.

(** *** [scrape_figures] *)

(** What the loop calls for one figure: the method
    [self._extract_figure_info], which may return a record, return [None]
    or raise. *)
Definition extractor : Type :=
  element -> string -> nat -> M (option FigureRecord).

(** [for i, fig_elem in enumerate(figures, 1)], from position [i] on,
    with the list [figure_data] built so far. *)
Fixpoint process_figures
    (extract : extractor) (pmcid : string)
    (figures : list element) (i : nat) (figure_data : list FigureRecord)
  : M (list FigureRecord) :=
  match figures with
  | [] => ret figure_data
  | fig_elem :: rest =>
      figure_data' <-
        try_except
          (figure_info <- extract fig_elem pmcid i ;;
           match figure_info with
           | Some r => ret (figure_data ++ [r])%list
           | None => ret figure_data
           end)
          (fun _ => ret figure_data) ;;
      process_figures extract pmcid rest (S i) figure_data'
  end.

Definition paper_url (pmcid : string) : string :=
  "https://www.ncbi.nlm.nih.gov/pmc/articles/" ++ pmcid ++ "/".

Definition scrape_figures_with
    (extract : extractor) (net : network) (pmcid : string)
  : M (list FigureRecord) :=
  let pmcid := _normalize_pmcid pmcid in
  try_except
    (response <- session_get net (paper_url pmcid) ;;
     raise_for_status response ;;;
     let soup := content response in
     let figures := _find_figure_elements soup in
     process_figures extract pmcid figures 1 [])
    (fun _ => ret []).

Definition scrape_figures (net : network) (pmcid : string)
  : M (list FigureRecord) :=
  scrape_figures_with (_extract_figure_info net) net pmcid.

(** *** [get_figure_stats] *)




End FigureScraper.

(* ===================================================================== *)
(** ** Statements read off the specification, and sample documents *)
(* ===================================================================== *)

Module Spec.

Import PyStr Soup Py FigureScraper.

(** [p] occurs in [s]. *)
Definition Substring (p s : string) : Prop :=
  exists a b, s = a ++ p ++ b.

(** [p] occurs in [s] up to the case of letters. *)
Definition SubstringCI (p s : string) : Prop :=
  exists a x b, s = a ++ x ++ b /\ lower x = p.

(** No character of [p] is white space. *)
Fixpoint no_space (p : string) : bool :=
  match p with
  | EmptyString => true
  | String c t => negb (is_space c) && no_space t
  end.

(** A URI scheme followed by its colon: a letter, then letters, digits,
    [+], [-] or [.], then [:]. *)
Definition is_alpha (c : ascii) : bool :=
  let n := nat_of_ascii c in
  (((65 <=? n) && (n <=? 90)) || ((97 <=? n) && (n <=? 122)))%nat.

Definition is_scheme_char (c : ascii) : bool :=
  let n := nat_of_ascii c in
  (is_alpha c || ((48 <=? n) && (n <=? 57))
   || (n =? 43) || (n =? 45) || (n =? 46))%nat.

Fixpoint scheme_rest (s : string) : bool :=
  match s with
  | EmptyString => false
  | String c t =>
      if (nat_of_ascii c =? 58)%nat then true
      else if is_scheme_char c then scheme_rest t else false
  end.

Definition starts_with_scheme (s : string) : bool :=
  match s with
  | EmptyString => false
  | String c t => is_alpha c && scheme_rest t
  end.

(** The candidates of the secondary-page scan, in the order the scan
    meets them: selector by selector, each in document order. *)
Definition candidates (soup : document) : list element :=
  flat_map (select soup) cdn_selectors.

(** The normalized reference of a candidate, when it has one. *)
Definition candidate_url (img_tag : element) : list string :=
  match get img_tag "src" with
  | Some src => if truthy src then [_normalize_url src] else []
  | None => []
  end.

Definition candidate_urls (soup : document) : list string :=
  flat_map candidate_url (candidates soup).

Definition acceptable (url : string) : bool :=
  _is_cdn_url url || is_ncbi_image url.

(** The page scan as a value: one request, never an exception. *)
Definition page_scan (net : network) (l : log) (pmcid fig_id : string) : string :=
  match net l (figure_page pmcid fig_id) with
  | Responds r =>
      if (status_code r =? 200)%Z
      then match scan_selectors (content r) cdn_selectors with
           | Some url => url
           | None => ""
           end
      else ""
  | Fails _ => ""
  end.

(** Caption extraction as the specification words it: the length gate of
    the selector loop applied to the trimmed and collapsed text. *)
Fixpoint caption_loop_spec (fig_elem : element) (selectors : list selector)
  : option string :=
  match selectors with
  | [] => None
  | selector :: rest =>
      match select_one fig_elem selector with
      | Some caption_elem =>
          let text := collapse_ws (strip (get_text caption_elem)) in
          if (10 <? String.length text)%nat
          then Some text
          else caption_loop_spec fig_elem rest
      | None => caption_loop_spec fig_elem rest
      end
  end.

Definition caption_spec (fig_elem : element) : string :=
  match caption_loop_spec fig_elem caption_selectors with
  | Some text => text
  | None => sibling_caption fig_elem
  end.

(** The trimmed texts of the first match of each caption selector, in
    selector order. *)
Definition caption_texts (fig_elem : element) : list string :=
  flat_map
    (fun selector =>
       match select_one fig_elem selector with
       | Some caption_elem => [strip (get_text caption_elem)]
       | None => []
       end)
    caption_selectors.

(** Whether the first character is white space. *)
Definition head_space (s : string) : bool :=
  match s with
  | String c _ => is_space c
  | EmptyString => false
  end.

(** No white space but single spaces. *)
Fixpoint single_spaced (s : string) : bool :=
  match s with
  | EmptyString => true
  | String c t =>
      (negb (is_space c) || Ascii.eqb c " ")
      && match t with
         | String c' _ => negb (is_space c && is_space c')
         | EmptyString => true
         end
      && single_spaced t
  end.

(** The records of the figures from position [i] on: a figure whose
    extraction raises or returns [None] contributes nothing, and the
    request log is threaded through. *)
Fixpoint collect (extract : extractor) (pmcid : string)
    (figures : list element) (i : nat) (l : log)
  : list FigureRecord * log :=
  match figures with
  | [] => ([], l)
  | fig_elem :: rest =>
      match extract fig_elem pmcid i l with
      | (Ok (Some r), l') =>
          let '(rs, l'') := collect extract pmcid rest (S i) l' in
          (r :: rs, l'')
      | (Ok None, l') => collect extract pmcid rest (S i) l'
      | (Raise _, l') => collect extract pmcid rest (S i) l'
      end
  end.

(** The records of a run that returned, none for one that raised. *)
Definition records_of (x : result (list FigureRecord) * log)
  : list FigureRecord :=
  match fst x with
  | Ok rs => rs
  | Raise _ => []
  end.

(** Whether [raise_for_status] raises for a status code. *)
Definition error_status (status : Z) : bool :=
  ((400 <=? status) && (status <? 600))%Z.

(** An element without a usable [id]: the attribute is absent or empty. *)
Definition no_id (e : element) : bool :=
  match get e "id" with
  | Some s => negb (truthy s)
  | None => true
  end.

Definition synthesized_id (i : nat) : string := "figure_" ++ str_of_nat i.

(** *** Sample documents *)

Definition el (name : string) (classes : list string)
    (attrs : list (string * string)) (children : list node) : node :=
  Elem (mk_tag name classes attrs) children.

Definition root_of (d : tagdata) (children : list node) : element :=
  mk_element d children [] [].

(** <div class="fig"><img src="/pmc/blobs/abc/fig1.jpg"></div> *)
Definition fig_inline_blob : element :=
  root_of (mk_tag "div" ["fig"] [])
    [ el "img" [] [("src", "/pmc/blobs/abc/fig1.jpg")] [] ].

(** <div class="fig"><img src="https://cdn.ncbi.nlm.nih.gov/pmc/blobs/abc/fig1.jpg"></div> *)
Definition fig_inline_cdn : element :=
  root_of (mk_tag "div" ["fig"] [])
    [ el "img" [] [("src", "https://cdn.ncbi.nlm.nih.gov/pmc/blobs/abc/fig1.jpg")] [] ].

(** A caption with a run of eight spaces inside its one text node:
    <div class="fig"><div class="caption">Fig 1        CT</div></div> *)
Definition fig_spaced_caption : element :=
  root_of (mk_tag "div" ["fig"] [])
    [ el "div" ["caption"] [] [ Text "Fig 1        CT" ] ].

(** <figure><figcaption>   Panel A shows   focal  necrosis.   </figcaption></figure> *)
Definition fig_panel_a : element :=
  root_of (mk_tag "figure" [] [])
    [ el "figcaption" [] [] [ Text "   Panel A shows   focal  necrosis.   " ] ].

(** <div class="fig"></div> *)
Definition fig_bare : element := root_of (mk_tag "div" ["fig"] []) [].

(** <div class="fig" id="F1.jpg"></div>: an [id] that ends like the name of
    an image file *)
Definition fig_id_like_file : element :=
  root_of (mk_tag "div" ["fig"] [("id", "F1.jpg")]) [].

(** A figure page whose image refers to the figure page itself:
    <img class="figure-image" src="/pmc/articles/PMC1/figure/F1.jpg/"> *)
Definition page_self_image : document :=
  [ el "img" ["figure-image"]
      [("src", "/pmc/articles/PMC1/figure/F1.jpg/")] [] ].

(** The emission condition as the specification words it: a caption, or an
    image URL that is direct-asset and is not the figure page. *)
Definition emitted_spec (caption cdn_image_url figure_page_url : string)
  : bool :=
  truthy caption
  || (_is_cdn_url cdn_image_url && negb (cdn_image_url =? figure_page_url)).

(** A figure page with a plain repository image ahead of a blob image:
    <img class="figure-image" src="/pmc/articles/PMC1/bin/a.jpg">
    <img src="pmc/blobs/x.jpg"> *)
Definition page_lesser_first : document :=
  [ el "img" ["figure-image"] [("src", "/pmc/articles/PMC1/bin/a.jpg")] [];
    el "img" [] [("src", "pmc/blobs/x.jpg")] [] ].

(** A figure page matching the first selector and the last one with
    different images:
    <img alt="Fig 1" src="/pmc/articles/PMC1/bin/z.jpg">
    <img src="https://cdn.ncbi.nlm.nih.gov/pmc/blobs/ab/f1.jpg"> *)
Definition page_first_and_last : document :=
  [ el "img" [] [("alt", "Fig 1"); ("src", "/pmc/articles/PMC1/bin/z.jpg")] [];
    el "img" [] [("src", "https://cdn.ncbi.nlm.nih.gov/pmc/blobs/ab/f1.jpg")] [] ].

(** An article page with two figures without [id]:
    <div class="fig"><div class="caption">Axial CT of the chest.</div></div>
    <figure><figcaption>Histology of the resected mass.</figcaption></figure> *)
Definition article_two_figures : document :=
  [ el "div" ["fig"] []
      [ el "div" ["caption"] [] [ Text "Axial CT of the chest." ] ];
    el "figure" [] []
      [ el "figcaption" [] [] [ Text "Histology of the resected mass." ] ] ].

(** An article page whose first figure has neither caption nor image and
    whose two other figures have a caption, all without [id]; the elements
    follow each other without white space between them:
    <div class="fig"></div><hr>
    <div class="fig"><div class="caption">Coronal MRI of the pelvis.</div></div>
    <figure><figcaption>Histology of the resected mass.</figcaption></figure> *)
Definition article_bare_first : document :=
  [ el "div" ["fig"] [] [];
    el "hr" [] [] [];
    el "div" ["fig"] []
      [ el "div" ["caption"] [] [ Text "Coronal MRI of the pelvis." ] ];
    el "figure" [] []
      [ el "figcaption" [] [] [ Text "Histology of the resected mass." ] ] ].

(** An article page with three captioned figures without [id]. *)
Definition article_three_figures : document :=
  [ el "div" ["fig"] []
      [ el "div" ["caption"] [] [ Text "Axial CT of the chest." ] ];
    el "div" ["fig"] []
      [ el "div" ["caption"] [] [ Text "Coronal MRI of the pelvis." ] ];
    el "div" ["fig"] []
      [ el "div" ["caption"] [] [ Text "Histology of the resected mass." ] ] ].

(** An extraction that raises at the second figure and is
    [_extract_figure_info] elsewhere. *)
Definition flaky_extract (net : network) : extractor :=
  fun fig_elem pmcid i =>
    if (i =? 2)%nat then raise (Exception "boom")
    else _extract_figure_info net fig_elem pmcid i.

(** A network that is down. *)
Definition net_down : network := fun _ _ => Fails ConnectionError.

(** A network that answers every request with the given status and body. *)
Definition net_const (status : Z) (body : document) : network :=
  fun _ _ => Responds (mk_response status body).

(** A network that serves [article] at the article URL and nothing else. *)
Definition net_article (pmcid : string) (status : Z) (article : document)
  : network :=
  fun _ url =>
    if url =? paper_url pmcid
    then Responds (mk_response status article)
    else Fails Timeout.

End Spec.

(* ===================================================================== *)
(** ** Notions used to state what the scraper keeps *)
(* ===================================================================== *)

Module Shape.

Import PyStr Soup Py FigureScraper Spec.

(** The figure elements [scrape_figures] works on: those located on the
    article page when the request succeeds without an error status, none
    otherwise. *)
Definition located_on (net : network) (l : log) (pmcid : string)
  : list element :=
  match net l (paper_url pmcid) with
  | Responds r =>
      if error_status (status_code r) then []
      else _find_figure_elements (content r)
  | Fails _ => []
  end.

(** What every record of the scraper satisfies. *)
Definition well_formed (r : FigureRecord) : Prop :=
  figure_id r <> ""
  /\ label r <> ""
  /\ strip (label r) = label r
  /\ strip (caption r) = caption r
  /\ startswith (image_url r) "http" = true
  /\ figure_url r = image_url r
  /\ (caption r <> "" \/ classify (image_url r) <> Unusable).

(** [xs] is [ys] with some elements left out, the order kept. *)
Inductive subseq {A : Type} : list A -> list A -> Prop :=
| subseq_nil : subseq [] []
| subseq_skip (y : A) (xs ys : list A) : subseq xs ys -> subseq xs (y :: ys)
| subseq_keep (x : A) (xs ys : list A) : subseq xs ys -> subseq (x :: xs) (x :: ys).

(** The [id] of an element when it has a non-empty one. *)
Definition has_id (e : element) : option string :=
  match get e "id" with
  | Some x => if truthy x then Some x else None
  | None => None
  end.

Definition id_list (e : element) : list string :=
  match has_id e with
  | Some x => [x]
  | None => []
  end.

(** The de-duplication key of a located element: its [id], or a
    synthesized key, which starts with [fig_]. *)
Definition key_matches (e : element) (k : string) : Prop :=
  match has_id e with
  | Some x => k = x
  | None => startswith k "fig_" = true
  end.

(** What the locator keeps between two matches: [seen_ids] holds the keys
    of [figures], latest first, each once. *)
Definition locator_inv (st : list element * list string) : Prop :=
  exists keys,
    snd st = rev keys /\ NoDup keys /\ Forall2 key_matches (fst st) keys.

(** The matches of the figure selectors, selector by selector, each in
    document order. *)
Definition matched (soup : document) : list element :=
  flat_map (select soup) figure_selectors.

(** The figure ids of the elements of a list numbered from [i]. *)
Fixpoint ids_from (figures : list element) (i : nat) : list string :=
  match figures with
  | [] => []
  | fig_elem :: rest => fig_id_of fig_elem i :: ids_from rest (S i)
  end.

(** The 1-based positions, counted from [i], of the figures for which the
    extraction returns a record; the request log is threaded through as the
    loop does, and a figure without a record still takes its position. *)
Fixpoint emitting (extract : extractor) (pmcid : string)
    (figures : list element) (i : nat) (l : log) : list nat :=
  match figures with
  | [] => []
  | fig_elem :: rest =>
      match extract fig_elem pmcid i l with
      | (Ok (Some _), l') => i :: emitting extract pmcid rest (S i) l'
      | (Ok None, l') => emitting extract pmcid rest (S i) l'
      | (Raise _, l') => emitting extract pmcid rest (S i) l'
      end
  end.

(** The positions, in the located list, of the figures [scrape_figures]
    returns a record for. *)
Definition emitted_positions (net : network) (l : log) (pmcid : string)
  : list nat :=
  emitting (_extract_figure_info net) pmcid (located_on net l pmcid) 1
    (l ++ [paper_url pmcid])%list.

(** [r] is the record of the figure at the 1-based position [k] of
    [figures], with the synthesized id of that position. *)
Definition record_at (figures : list element) (k : nat) (r : FigureRecord)
  : Prop :=
  figure_id r = synthesized_id k
  /\ 1 <= k
  /\ exists fig_elem,
       nth_error figures (k - 1) = Some fig_elem
       /\ label r = _extract_figure_label fig_elem k
       /\ caption r = _extract_figure_caption fig_elem.

(** The trimmed texts of the first match of each label selector, in
    selector order. *)
Definition label_texts (fig_elem : element) : list string :=
  flat_map
    (fun selector =>
       match select_one fig_elem selector with
       | Some label_elem => [strip (get_text label_elem)]
       | None => []
       end)
    label_selectors.

(** <div class="fig" id="F1"> ... </div>, matched by [div.fig] and by
    [[id^="F"]], and a figure without [id]. *)
Definition article_with_ids : document :=
  [ Elem (mk_tag "div" ["fig"] [("id", "F1")])
      [ Elem (mk_tag "div" ["caption"] []) [ Text "Axial CT of the chest." ] ];
    Elem (mk_tag "figure" [] [("id", "F2")])
      [ Elem (mk_tag "figcaption" [] [])
          [ Text "Histology of the resected mass." ] ] ].

End Shape.

(* ===================================================================== *)
(** ** Python dictionaries *)
(* ===================================================================== *)

Module PyDict.

Import PyStr.

(** The values a row holds: strings, integers, and what a decoded JSON
    document may hold besides.  Of a float, a list or a nested dictionary
    only the truth value and the text [str] gives are kept. *)
Inductive value : Type :=
| VNone
| VBool (b : bool)
| VInt (z : Z)
| VStr (s : string)
| VOther (truth : bool) (shown : string).

(** A dictionary: its items in insertion order, every key once. *)
Definition dict : Type := list (string * value).

(** [str(z)] for an [int] *)
Definition str_of_Z (z : Z) : string :=
  if (z <? 0)%Z then "-" ++ str_of_nat (Z.to_nat (- z))
  else str_of_nat (Z.to_nat z).

(** [str(v)], as an f-string formats a value *)
Definition str_of_value (v : value) : string :=
  match v with
  | VNone => "None"
  | VBool true => "True"
  | VBool false => "False"
  | VInt z => str_of_Z z
  | VStr s => s
  | VOther _ shown => shown
  end.

(** Truth value of a value: [if v:] *)
Definition truth (v : value) : bool :=
  match v with
  | VNone => false
  | VBool b => b
  | VInt z => negb (z =? 0)%Z
  | VStr s => truthy s
  | VOther t _ => t
  end.

(** [d.get(k)] *)
Fixpoint lookup (k : string) (d : dict) : option value :=
  match d with
  | [] => None
  | (k', v) :: t => if k' =? k then Some v else lookup k t
  end.

(** [d.get(k, default)] *)
Definition get_default (k : string) (default : value) (d : dict) : value :=
  match lookup k d with
  | Some v => v
  | None => default
  end.

(** [d[k] = v]: a known key keeps its place, a new one goes last. *)
Fixpoint assign (k : string) (v : value) (d : dict) : dict :=
  match d with
  | [] => [(k, v)]
  | (k', v') :: t =>
      if k' =? k then (k', v) :: t else (k', v') :: assign k v t
  end.

(** [d.update(other)] *)
Definition update (d other : dict) : dict :=
  fold_left (fun acc kv => assign (fst kv) (snd kv) acc) other d.

(** [d.setdefault(k, v)] *)
Definition setdefault (k : string) (v : value) (d : dict) : dict :=
  match lookup k d with
  | Some _ => d
  | None => assign k v d
  end.

(** [list(d.keys())] *)
Definition keys (d : dict) : list string := map fst d.

End PyDict.

(* ===================================================================== *)
(** ** main.py: one row per figure *)
(* ===================================================================== *)

Module Pipeline.

Import PyStr Py FigureScraper PyDict.

(** What the loop reads of a case report: the retriever sets all five
    keys on every report it returns. *)
Record Paper : Type := mk_paper {
  p_pmcid : string;
  p_title : string;
  p_journal : string;
  p_abstract : string;
  p_pmc_url : string
}.

(** [mcq_gen.generate_mcq(abstract, caption, title)]: it catches what is
    raised inside and returns a dictionary.  The language model may answer
    differently at each call, so the generator is also given the number of
    rows built before the call. *)
Definition mcq_generator : Type := nat -> string -> string -> string -> dict.

(** The empty MCQ fields main.py adds when no MCQ is generated. *)
Definition empty_mcq_fields : dict :=
  [ ("mcq_question", VStr "");
    ("option_a", VStr ""); ("option_b", VStr ""); ("option_c", VStr "");
    ("option_d", VStr ""); ("option_e", VStr "");
    ("answer", VStr ""); ("commentary", VStr ""); ("subject", VStr "");
    ("hashtags", VStr ""); ("difficulty_level", VStr "") ].

(** The paper and figure fields of a row, before the MCQ fields. *)
Definition base_row (paper : Paper) (fig_num : nat) (figure : FigureRecord)
  : dict :=
  [ ("pmcid", VStr (p_pmcid paper));
    ("title", VStr (p_title paper));
    ("journal", VStr (p_journal paper));
    ("abstract", VStr (p_abstract paper));
    ("figure_number", VInt (Z.of_nat fig_num));
    ("figure_label", VStr (label figure));
    ("paper_link", VStr (p_pmc_url paper));
    ("figure_link", VStr (figure_url figure));
    ("caption", VStr (caption figure));
    ("image_url", VStr (image_url figure)) ].

(** The body of [for fig_num, figure in enumerate(figures, 1)], with
    [built] the length of [figure_data] so far. *)
Definition combine (mcq_gen : option mcq_generator) (built : nat)
    (paper : Paper) (fig_num : nat) (figure : FigureRecord) : dict :=
  let combined_data := base_row paper fig_num figure in
  match mcq_gen with
  | Some gen =>
      if truthy (caption figure)
      then update combined_data
             (gen built (p_abstract paper) (caption figure) (p_title paper))
      else update combined_data empty_mcq_fields
  | None => update combined_data empty_mcq_fields
  end.

Fixpoint figures_loop (mcq_gen : option mcq_generator) (paper : Paper)
    (figures : list FigureRecord) (fig_num : nat) (figure_data : list dict)
  : list dict :=
  match figures with
  | [] => figure_data
  | figure :: rest =>
      figures_loop mcq_gen paper rest (S fig_num)
        (figure_data
         ++ [combine mcq_gen (List.length figure_data) paper fig_num figure])%list
  end.

(** [for i, paper in enumerate(case_reports, 1)]: scrape, then one row per
    figure. *)
Fixpoint papers_loop (net : network) (mcq_gen : option mcq_generator)
    (case_reports : list Paper) (figure_data : list dict) : M (list dict) :=
  match case_reports with
  | [] => ret figure_data
  | paper :: rest =>
      figures <- scrape_figures net (p_pmcid paper) ;;
      papers_loop net mcq_gen rest
        (figures_loop mcq_gen paper figures 1 figure_data)
  end.

(** [figure_data] at the end of step 2. *)
Definition collect_figure_data (net : network) (mcq_gen : option mcq_generator)
    (case_reports : list Paper) : M (list dict) :=
  papers_loop net mcq_gen case_reports [].

End Pipeline.

(* ===================================================================== *)
(** ** utils.py *)
(* ===================================================================== *)

Module Utils.

Import PyStr PyDict.

(** *** [save_results_csv]: the rows handed to the CSV writer *)

Definition columns : list string :=
  [ "pmcid"; "title"; "journal"; "abstract"; "figure_number";
    "paper_link"; "figure_link"; "caption"; "mcq_question";
    "option_a"; "option_b"; "option_c"; "option_d"; "option_e";
    "answer"; "commentary"; "subject"; "hashtags"; "difficulty_level" ].

Definition fieldnames : list string :=
  [ "pmcid"; "title"; "journal"; "abstract"; "Figure";
    "link to paper"; "link to figure"; "caption"; "MCQ";
    "optionA"; "optionB"; "optionC"; "optionD"; "optionE";
    "answer"; "commentary"; "subject"; "hashtags"; "difficulty_level" ].

(** The body of [for col in columns]: one assignment to [processed_row]. *)
Definition process_column (row : dict) (processed_row : dict) (col : string)
  : dict :=
  if col =? "figure_number" then
    let fig_num := get_default "figure_number" (VInt 1) row in
    let fig_label :=
      get_default "figure_label" (VStr ("Figure " ++ str_of_value fig_num)) row in
    assign "Figure" fig_label processed_row
  else if col =? "mcq_question" then
    assign "MCQ" (get_default "mcq_question" (VStr "") row) processed_row
  else if col =? "option_a" then
    assign "optionA" (get_default "option_a" (VStr "") row) processed_row
  else if col =? "option_b" then
    assign "optionB" (get_default "option_b" (VStr "") row) processed_row
  else if col =? "option_c" then
    assign "optionC" (get_default "option_c" (VStr "") row) processed_row
  else if col =? "option_d" then
    assign "optionD" (get_default "option_d" (VStr "") row) processed_row
  else if col =? "option_e" then
    assign "optionE" (get_default "option_e" (VStr "") row) processed_row
  else if col =? "paper_link" then
    assign "link to paper" (get_default "paper_link" (VStr "") row) processed_row
  else if col =? "figure_link" then
    assign "link to figure" (get_default "figure_link" (VStr "") row)
      processed_row
  else
    assign col (get_default col (VStr "") row) processed_row.

Definition process_row (row : dict) : dict :=
  fold_left (process_column row) columns [].

Inductive save_result : Type :=
| ValueError (msg : string)
| Written (processed_data : list dict).

(** [save_results_csv] up to the file it writes: the error for an empty
    list, or the rows given to [csv.DictWriter.writerows]. *)
Definition save_results_csv (figure_data : list dict) : save_result :=
  match figure_data with
  | [] => ValueError "No figure data to save"
  | _ => Written (map process_row figure_data)
  end.

(** *** [clean_text] *)

(** [s.split()]: the maximal runs of characters that are not white space;
    [word] is the run being read. *)
Fixpoint split_from (word : string) (s : string) : list string :=
  match s with
  | EmptyString => if truthy word then [word] else []
  | String c t =>
      if is_space c
      then (if truthy word then word :: split_from "" t else split_from "" t)
      else split_from (word ++ String c "") t
  end.

Definition split (s : string) : list string := split_from "" s.

(** [sep.join(words)] *)
Fixpoint join (sep : string) (words : list string) : string :=
  match words with
  | [] => ""
  | [w] => w
  | w :: rest => w ++ sep ++ join sep rest
  end.

(** [s.replace(old, new)] for a single character [old] *)
Fixpoint replace_char (old : ascii) (new : string) (s : string) : string :=
  match s with
  | EmptyString => EmptyString
  | String c t =>
      if Ascii.eqb c old then new ++ replace_char old new t
      else String c (replace_char old new t)
  end.

(** The first [n] characters *)
Fixpoint take (n : nat) (s : string) : string :=
  match n, s with
  | S n', String c t => String c (take n' t)
  | _, _ => EmptyString
  end.

(** [s[:k]] for an [int] [k]: a negative [k] counts from the end. *)
Definition slice_to (k : Z) (s : string) : string :=
  if (k <? 0)%Z
  then take (String.length s - Z.to_nat (- k)) s
  else take (Z.to_nat k) s.

Definition clean_text (text : string) (max_length : option Z) : string :=
  if negb (truthy text) then ""
  else
    let text := join " " (split text) in
    let text :=
      replace_char "009" " " (replace_char "013" " "
        (replace_char "010" " " text)) in
    match max_length with
    | Some m =>
        if negb (m =? 0)%Z && (m <? Z.of_nat (String.length text))%Z
        then slice_to (m - 3) text ++ "..."
        else text
    | None => text
    end.

End Utils.

(* ===================================================================== *)
(** ** mcq_generator.py *)
(* ===================================================================== *)

Module MCQGenerator.

Import PyStr PyDict.

(** An exception caught by [generate_mcq]: whether it is a
    [json.JSONDecodeError], and the name of its class. *)
Record exc : Type := mk_exc {
  is_json_decode_error : bool;
  type_name : string
}.

Inductive attempt (A : Type) : Type :=
| Done (a : A)
| Failed (e : exc).
Arguments Done {A} a.
Arguments Failed {A} e.

Definition AttributeError : exc := mk_exc false "AttributeError".
Definition KeyError : exc := mk_exc false "KeyError".

(** *** [_get_empty_mcq] *)
Definition _get_empty_mcq (reason : string) : dict :=
  [ ("mcq_question", VStr reason);
    ("option_a", VStr ""); ("option_b", VStr ""); ("option_c", VStr "");
    ("option_d", VStr ""); ("option_e", VStr "");
    ("answer", VStr ""); ("commentary", VStr ""); ("hashtags", VStr "");
    ("subject", VStr ""); ("difficulty_level", VStr "") ].

(** *** [_enhance_based_on_content] *)

(** [v in words] for a list of strings: only a string can be in it. *)
Definition is_one_of (v : value) (words : list string) : bool :=
  match v with
  | VStr s => existsb (String.eqb s) words
  | _ => false
  end.

Definition subject_for (caption_lower : string) : string :=
  if any_in ["ct"; "mri"; "ultrasound"; "radiograph"; "imaging"; "scan"]
            caption_lower
  then "Radiology"
  else if any_in ["pathology"; "biopsy"; "histology"; "tissue"] caption_lower
  then "Pathology"
  else if any_in ["surgery"; "surgical"; "operative"] caption_lower
  then "Surgery"
  else if any_in ["pediatric"; "child"; "infant"] caption_lower
  then "Pediatrics"
  else "Internal Medicine".

Definition difficulty_levels : list string :=
  [ "easy"; "intermediate"; "difficult" ].

Definition difficulty_for (caption_lower : string) : string :=
  if any_in ["rare"; "unusual"; "novel"] caption_lower then "difficult"
  else if any_in ["management"; "treatment"; "intervention"] caption_lower
  then "intermediate"
  else "easy".

(** [d[k]], which raises [KeyError] for a missing key *)
Definition item (k : string) (d : dict) : attempt value :=
  match lookup k d with
  | Some v => Done v
  | None => Failed KeyError
  end.

(** [extract_medical_tags] stands for the method [_extract_medical_tags],
    a search with regular expressions that returns a string for every
    caption; nothing below depends on which. *)
Definition _enhance_based_on_content
    (extract_medical_tags : string -> string) (mcq : dict) (caption : string)
  : attempt dict :=
  let caption_lower := lower caption in
  match item "subject" mcq with
  | Failed e => Failed e
  | Done subject =>
      let mcq :=
        if negb (truth subject)
        then assign "subject" (VStr (subject_for caption_lower)) mcq
        else mcq in
      match item "difficulty_level" mcq with
      | Failed e => Failed e
      | Done difficulty =>
          let mcq :=
            if negb (is_one_of difficulty difficulty_levels)
            then assign "difficulty_level"
                   (VStr (difficulty_for caption_lower)) mcq
            else mcq in
          match item "hashtags" mcq with
          | Failed e => Failed e
          | Done hashtags =>
              Done (if negb (truth hashtags)
                    then assign "hashtags"
                           (VStr (extract_medical_tags caption)) mcq
                    else mcq)
          end
      end
  end.

(** *** [_validate_mcq] *)

Definition required_fields : list string :=
  [ "mcq_question"; "option_a"; "option_b"; "option_c"; "option_d";
    "option_e"; "answer"; "commentary"; "hashtags"; "subject";
    "difficulty_level" ].

Definition answer_letters : list string := [ "A"; "B"; "C"; "D"; "E" ].

(** [s.upper()] on the letters a to z.  The result serves only to be
    compared with the one-letter strings A to E, which no other character
    yields in upper case. *)
Definition upper_char (c : ascii) : ascii :=
  let n := nat_of_ascii c in
  if ((97 <=? n) && (n <=? 122))%nat then ascii_of_nat (n - 32) else c.

Fixpoint upper (s : string) : string :=
  match s with
  | EmptyString => EmptyString
  | String c t => String (upper_char c) (upper t)
  end.

Definition set_defaults (mcq : dict) : dict :=
  fold_left (fun d field => setdefault field (VStr "") d) required_fields mcq.

Definition _validate_mcq
    (extract_medical_tags : string -> string) (mcq : dict) (caption : string)
  : attempt dict :=
  let mcq := set_defaults mcq in
  match get_default "answer" (VStr "") mcq with
  | VStr a =>
      let answer := upper a in
      let mcq :=
        if negb (existsb (String.eqb answer) answer_letters)
        then assign "answer" (VStr "A") mcq
        else mcq in
      _enhance_based_on_content extract_medical_tags mcq caption
  | _ => Failed AttributeError
  end.

(** *** [generate_mcq] *)

(** [s.find(c)] and [s.rfind(c)] for a character, [-1] when absent *)
Fixpoint find_char (c : ascii) (s : string) : option nat :=
  match s with
  | EmptyString => None
  | String d t =>
      if Ascii.eqb d c then Some 0 else option_map S (find_char c t)
  end.

Fixpoint rfind_char (c : ascii) (s : string) : option nat :=
  match s with
  | EmptyString => None
  | String d t =>
      match rfind_char c t with
      | Some i => Some (S i)
      | None => if Ascii.eqb d c then Some 0 else None
      end
  end.

Definition index_or_minus_one (o : option nat) : Z :=
  match o with
  | Some i => Z.of_nat i
  | None => (-1)%Z
  end.

(** The JSON text inside an answer: from the first opening brace to the
    last closing one, or the whole answer. *)
Definition extract_payload (text : string) : string :=
  let start := index_or_minus_one (find_char "{" text) in
  let end_ := (index_or_minus_one (rfind_char "}" text) + 1)%Z in
  if ((0 <=? start) && (start <? end_))%Z
  then String.substring (Z.to_nat start) (Z.to_nat (end_ - start)) text
  else text.

(** What the call of the language model yields: the text of the first
    choice, or an exception (of the client, or of reading the answer). *)
Inductive llm_reply : Type :=
| Replied (content : string)
| LlmFailed (e : exc).

Definition JSONDecodeError : exc := mk_exc true "JSONDecodeError".

(** What [json.loads] yields: an exception, a dictionary, or a value of
    another type. *)
Inductive json_reply : Type :=
| JsonRaised (e : exc)
| DecodedDict (d : dict)
| DecodedOther.

(** The generator and its surroundings: whether the client was created,
    the configured minimum caption length, the language model (given the
    number of the call, since it need not answer the same twice), the JSON
    decoder and the tag extraction. *)
Record Generator : Type := mk_generator {
  client : bool;
  min_caption_length : Z;
  llm : nat -> string -> string -> string -> llm_reply;
  json_loads : string -> json_reply;
  _extract_medical_tags : string -> string
}.

Definition handle (e : exc) : dict :=
  if is_json_decode_error e then _get_empty_mcq "JSON parsing failed"
  else _get_empty_mcq ("Error: " ++ type_name e).

Definition generate_mcq (g : Generator) (call : nat)
    (abstract caption title : string) : dict :=
  if negb (client g) || negb (truthy caption)
     || (Z.of_nat (String.length caption) <? min_caption_length g)%Z
  then _get_empty_mcq "MCQ generation skipped"
  else
    match llm g call abstract caption title with
    | LlmFailed e => handle e
    | Replied content =>
        let text := strip content in
        let payload := extract_payload text in
        match json_loads g payload with
        | JsonRaised e => handle e
        | DecodedOther => handle AttributeError
        | DecodedDict mcq_data =>
            match _validate_mcq (_extract_medical_tags g) mcq_data caption with
            | Done mcq_data => mcq_data
            | Failed e => handle e
            end
        end
    end.

End MCQGenerator.

Module McqShape.

Import PyStr PyDict MCQGenerator.

(** One dictionary continues another: no key is lost, and the keys that
    are not MCQ fields keep their values. *)
Definition continues (d d' : dict) : Prop :=
  (forall k, lookup k d <> None -> lookup k d' <> None)
  /\ (forall k, ~ In k required_fields -> lookup k d' = lookup k d).

(** What a validated MCQ satisfies, for the tag extraction [tags] and the
    caption it was validated with. *)
Definition validated (tags : string -> string) (caption : string) (d : dict)
  : Prop :=
  (forall f, In f required_fields -> lookup f d <> None)
  /\ (exists a, lookup "answer" d = Some (VStr a)
                /\ In (upper a) answer_letters)
  /\ (exists s, lookup "difficulty_level" d = Some (VStr s)
                /\ In s difficulty_levels)
  /\ (exists v, lookup "subject" d = Some v /\ truth v = true)
  /\ (exists v, lookup "hashtags" d = Some v
                /\ (truth v = true \/ v = VStr (tags caption))).


(** A generator whose language model answers with MCQ fields only. *)
Definition plain : Generator :=
  mk_generator true 40
    (fun _ _ _ _ => Replied "{...}")
    (fun _ =>
       DecodedDict
         [ ("mcq_question", VStr "What does the image show?");
           ("answer", VStr "c") ])
    (fun _ => "").

End McqShape.

(* ===================================================================== *)
(** ** case_reports_retriever.py *)
(* ===================================================================== *)

Module Retriever.

Import PyStr PyDict Pipeline.

(** *** [_extract_year_from_date] *)

Definition is_digit (c : ascii) : bool :=
  let n := nat_of_ascii c in ((48 <=? n) && (n <=? 57))%nat.

Fixpoint all_digits (s : string) : bool :=
  match s with
  | EmptyString => true
  | String c t => is_digit c && all_digits t
  end.

(** [int(s)] for a string of digits *)
Fixpoint int_from (acc : Z) (s : string) : Z :=
  match s with
  | EmptyString => acc
  | String c t => int_from (10 * acc + Z.of_nat (nat_of_ascii c - 48)) t
  end.

Definition int_of_digits (s : string) : Z := int_from 0 s.

(** [re.search(r'(\d{4})', s)]: the leftmost four digits in a row *)
Fixpoint search_four_digits (s : string) : option string :=
  match s with
  | EmptyString => None
  | String _ t =>
      let head := String.substring 0 4 s in
      if (String.length head =? 4)%nat && all_digits head then Some head
      else search_four_digits t
  end.

Definition _extract_year_from_date (pub_date : string) : option Z :=
  if negb (truthy pub_date) then None
  else option_map int_of_digits (search_four_digits pub_date).

(** *** [_extract_abstract] *)

Definition abstract_patterns : list string :=
  [ ".//abstract"; ".//Abstract"; ".//sec[@sec-type='abstract']";
    ".//abstract-group" ].

(** The XML document as [_extract_abstract] reads it: for a path, the
    texts [''.join(e.itertext())] of the elements [findall] returns, in
    document order. *)
Definition xml_root : Type := string -> list string.

Fixpoint abstracts_loop (abstracts : list string) : option string :=
  match abstracts with
  | [] => None
  | abstract :: rest =>
      let abstract_text := strip abstract in
      if truthy abstract_text && (50 <? String.length abstract_text)%nat
      then Some (collapse_ws abstract_text)
      else abstracts_loop rest
  end.

Fixpoint patterns_loop (root : xml_root) (patterns : list string) : string :=
  match patterns with
  | [] => "Abstract not available"
  | pattern :: rest =>
      match abstracts_loop (root pattern) with
      | Some abstract_text => abstract_text
      | None => patterns_loop root rest
      end
  end.

Definition _extract_abstract (root : xml_root) : string :=
  patterns_loop root abstract_patterns.

(** *** [_get_summary_metadata] and [_get_paper_metadata] *)

(** What [_get_summary_metadata] reads in the summary document: the four
    texts (empty when absent) and the PMID, if one was found. *)
Record summary : Type := mk_summary {
  s_title : string;
  s_source : string;
  s_full_journal : string;
  s_pub_date : string;
  s_pmid : option string
}.

Definition or_empty (o : option string) : string :=
  match o with
  | Some s => s
  | None => ""
  end.

(** The dictionary [_get_summary_metadata] returns for a document it
    could fetch and parse. *)
Definition summary_data (pmcid : string) (s : summary) : dict :=
  [ ("pmcid", VStr ("PMC" ++ pmcid));
    ("pmid", VStr (or_empty (s_pmid s)));
    ("title", VStr (s_title s));
    ("journal",
     VStr (if truthy (s_full_journal s) then s_full_journal s
           else s_source s));
    ("pub_date", VStr (s_pub_date s));
    ("year",
     match _extract_year_from_date (s_pub_date s) with
     | Some y => VInt y
     | None => VNone
     end);
    ("pmc_url",
     VStr ("https://www.ncbi.nlm.nih.gov/pmc/articles/PMC" ++ pmcid ++ "/"));
    ("pubmed_url",
     VStr (if truthy (or_empty (s_pmid s))
           then "https://pubmed.ncbi.nlm.nih.gov/" ++ or_empty (s_pmid s)
                ++ "/"
           else "")) ].

(** [_get_paper_metadata], given what its two calls returned. *)
Definition _get_paper_metadata
    (summary_data : option dict) (detailed_data : dict) : option dict :=
  match summary_data with
  | Some (item :: items) => Some (update (item :: items) detailed_data)
  | _ => None
  end.

(** The five fields main.py reads of a case report, [paper[key]] for each:
    none when a key is missing or does not hold a string. *)
Definition string_item (k : string) (d : dict) : option string :=
  match lookup k d with
  | Some (VStr s) => Some s
  | _ => None
  end.

Definition paper_of (d : dict) : option Paper :=
  match string_item "pmcid" d, string_item "title" d,
        string_item "journal" d, string_item "abstract" d,
        string_item "pmc_url" d with
  | Some pmcid, Some title, Some journal, Some abstract, Some pmc_url =>
      Some (mk_paper pmcid title journal abstract pmc_url)
  | _, _, _, _, _ => None
  end.

(** An abstract qualifies when, trimmed, it has more than 50 characters. *)
Definition qualifies (abstract : string) : bool :=
  (50 <? String.length (strip abstract))%nat.

End Retriever.

(* ===================================================================== *)
(** ** Notions used to state what the pipeline keeps *)
(* ===================================================================== *)

Module RowShape.

Import PyStr Py FigureScraper PyDict Pipeline Utils.

(** Where a row comes from: a paper, the 1-based number of the figure
    among the records of that paper, and the record. *)
Definition source : Type := (Paper * nat * FigureRecord)%type.

Fixpoint number_from (paper : Paper) (fig_num : nat)
    (figures : list FigureRecord) : list source :=
  match figures with
  | [] => []
  | figure :: rest =>
      (paper, fig_num, figure) :: number_from paper (S fig_num) rest
  end.

(** The sources of all rows: the papers in order, each scraped in turn
    with the request log of the ones before it. *)
Fixpoint sources (net : network) (case_reports : list Paper) (l : log)
  : list source * log :=
  match case_reports with
  | [] => ([], l)
  | paper :: rest =>
      match scrape_figures net (p_pmcid paper) l with
      | (Ok figures, l') =>
          let '(more, l'') := sources net rest l' in
          ((number_from paper 1 figures ++ more)%list, l'')
      | (Raise _, l') => ([], l')
      end
  end.

(** The rows of a list of sources, the first of them being row [built]. *)
Fixpoint rows_from (mcq_gen : option mcq_generator) (built : nat)
    (srcs : list source) : list dict :=
  match srcs with
  | [] => []
  | (paper, fig_num, figure) :: rest =>
      combine mcq_gen built paper fig_num figure
      :: rows_from mcq_gen (S built) rest
  end.

(** The keys main.py sets from the paper and the figure. *)
Definition base_keys : list string :=
  [ "pmcid"; "title"; "journal"; "abstract"; "figure_number";
    "figure_label"; "paper_link"; "figure_link"; "caption"; "image_url" ].

(** A generator that leaves the paper and figure fields alone. *)
Definition keeps_base_keys (mcq_gen : option mcq_generator) : Prop :=
  match mcq_gen with
  | Some gen =>
      forall built abstract caption title k,
        In k base_keys -> lookup k (gen built abstract caption title) = None
  | None => True
  end.

(** What a CSV row shows of its source. *)
Definition row_shows (src : source) (row : dict) : Prop :=
  let '(paper, fig_num, figure) := src in
  lookup "pmcid" (process_row row) = Some (VStr (p_pmcid paper))
  /\ lookup "link to paper" (process_row row) = Some (VStr (p_pmc_url paper))
  /\ lookup "Figure" (process_row row) = Some (VStr (label figure))
  /\ lookup "link to figure" (process_row row)
     = Some (VStr (figure_url figure))
  /\ lookup "caption" (process_row row) = Some (VStr (caption figure)).

(** The rows of a run that returned, none for one that raised. *)
Definition rows_of (x : result (list dict) * log) : list dict :=
  match fst x with
  | Ok rows => rows
  | Raise _ => []
  end.

(** One case report, for the article served by [Spec.net_article]. *)
Definition paper_one : Paper :=
  mk_paper "PMC1" "A case report" "Journal of Cases" "An abstract."
    "https://www.ncbi.nlm.nih.gov/pmc/articles/PMC1/".

(** A generator that answers with the empty MCQ of [_get_empty_mcq]. *)
Definition skipping_generator : mcq_generator :=
  fun _ _ _ _ =>
    [ ("mcq_question", VStr "MCQ generation skipped");
      ("option_a", VStr ""); ("option_b", VStr ""); ("option_c", VStr "");
      ("option_d", VStr ""); ("option_e", VStr "");
      ("answer", VStr ""); ("commentary", VStr ""); ("hashtags", VStr "");
      ("subject", VStr ""); ("difficulty_level", VStr "") ].


End RowShape.

Import PyStr Soup Py FigureScraper Spec Shape.

(* ===================================================================== *)
(** ** The model at the samples *)
(* ===================================================================== *)

Example strip_sample : strip "   Panel A   " = "Panel A".
Proof. reflexivity. Qed.

Example collapse_sample : collapse_ws "a  b" = "a b".
Proof. reflexivity. Qed.

Example str_of_nat_sample : str_of_nat 12 = "12" /\ str_of_nat 0 = "0".
Proof. split; reflexivity. Qed.

Example lower_sample : contains ".jpg" (lower "a/b.JPG") = true.
Proof. reflexivity. Qed.

(** Without a label element the label is synthesized from the ordinal. *)
Example label_sample : _extract_figure_label fig_bare 3 = "Figure 3".
Proof. reflexivity. Qed.

(** An inline reference that carries the marker itself needs no request. *)
Example inline_cdn_sample :
  _get_cdn_image_url net_down fig_inline_cdn "PMC1" "F1" []
  = (Ok "https://cdn.ncbi.nlm.nih.gov/pmc/blobs/abc/fig1.jpg", []).
Proof. reflexivity. Qed.

(** A page without figures: nothing located, nothing scraped. *)
Example empty_page_sample :
  _find_figure_elements [] = []
  /\ scrape_figures (net_const 200 []) "PMC1" []
     = (Ok [], ["https://www.ncbi.nlm.nih.gov/pmc/articles/PMC1/"]).
Proof. split; reflexivity. Qed.

(** The second of three figures raises; the first and the third are kept. *)
Example flaky_sample :
  map figure_id
    (records_of
       (scrape_figures_with
          (flaky_extract (net_article "PMC1" 200 article_three_figures))
          (net_article "PMC1" 200 article_three_figures) "PMC1" []))
  = ["figure_1"; "figure_3"].
Proof. reflexivity. Qed.

(* ===================================================================== *)
(** ** Facts about the string operations *)
(* ===================================================================== *)

Section StringFacts.

Lemma append_nil_r (s : string) : s ++ "" = s.
Proof. induction s as [|c s IH]; simpl; [reflexivity | now rewrite IH]. Qed.

Lemma append_assoc (a b c : string) : (a ++ b) ++ c = a ++ (b ++ c).
Proof. induction a as [|x a IH]; simpl; [reflexivity | now rewrite IH]. Qed.

Lemma prefix_spec (p s : string) :
  String.prefix p s = true <-> exists b, s = p ++ b.
Proof.
  revert s. induction p as [|c p IH]; intros s; simpl.
  - split; [intros _; now exists s | now destruct s].
  - destruct s as [|d s].
    + split; [discriminate | intros [b Hb]; discriminate].
    + simpl. destruct (Ascii.ascii_dec c d) as [->|Hne].
      * rewrite IH. split; intros [b Hb]; exists b.
        -- now rewrite Hb.
        -- now injection Hb.
      * split; [discriminate | intros [b Hb]; injection Hb; congruence].
Qed.

Lemma contains_nil (p : string) : contains p "" = String.prefix p "".
Proof. simpl. apply orb_false_r. Qed.

Lemma contains_cons (p : string) (c : ascii) (s : string) :
  contains p (String c s) = String.prefix p (String c s) || contains p s.
Proof. reflexivity. Qed.

Lemma contains_spec (p s : string) :
  contains p s = true <-> Substring p s.
Proof.
  unfold Substring. induction s as [|c s IH].
  - rewrite contains_nil, prefix_spec. split.
    + intros [b Hb]. now exists "", b.
    + intros [a [b Hab]]. destruct a; simpl in Hab.
      * now exists b.
      * discriminate.
  - rewrite contains_cons, orb_true_iff, prefix_spec, IH. split.
    + intros [[b Hb] | [a [b Hab]]].
      * now exists "", b.
      * exists (String c a), b. simpl. now rewrite Hab.
    + intros [a [b Hab]]. destruct a as [|x a]; simpl in Hab.
      * left. now exists b.
      * right. injection Hab as _ Hs. now exists a, b.
Qed.

Lemma lower_app (a b : string) : lower (a ++ b) = lower a ++ lower b.
Proof. induction a as [|c a IH]; simpl; [reflexivity | now rewrite IH]. Qed.

Lemma lower_split (x y s : string) :
  lower s = x ++ y ->
  exists s1 s2, s = s1 ++ s2 /\ lower s1 = x /\ lower s2 = y.
Proof.
  revert s. induction x as [|c x IH]; intros s H; simpl in H.
  - now exists "", s.
  - destruct s as [|d s]; [discriminate|].
    simpl in H. injection H as Hc Hs.
    destruct (IH s Hs) as (s1 & s2 & -> & H1 & H2).
    exists (String d s1), s2. simpl. now rewrite Hc, H1.
Qed.

Lemma contains_lower_spec (e s : string) :
  contains e (lower s) = true <-> SubstringCI e s.
Proof.
  rewrite contains_spec. unfold Substring, SubstringCI. split.
  - intros (a & b & H).
    destruct (lower_split _ _ _ H) as (s1 & s2 & -> & _ & H2).
    destruct (lower_split _ _ _ H2) as (x & s3 & -> & Hx & _).
    now exists s1, x, s3.
  - intros (a & x & b & -> & Hx).
    exists (lower a), (lower b). now rewrite !lower_app, Hx.
Qed.

Lemma any_in_spec (ps : list string) (s : string) :
  any_in ps s = true <-> exists p, In p ps /\ contains p s = true.
Proof. unfold any_in. apply existsb_exists. Qed.

End StringFacts.

Section StripFacts.

Lemma all_space_cons (c : ascii) (t : string) :
  all_space (String c t) = if is_space c then all_space t else false.
Proof. unfold all_space. simpl. now destruct (is_space c). Qed.

Lemma rstrip_cons (c : ascii) (t : string) :
  rstrip (String c t)
  = if all_space (String c t) then "" else String c (rstrip t).
Proof. reflexivity. Qed.

Lemma rstrip_cons_nonspace (c : ascii) (t : string) :
  is_space c = false -> rstrip (String c t) = String c (rstrip t).
Proof. intros H. now rewrite rstrip_cons, all_space_cons, H. Qed.

Lemma all_space_rstrip (s : string) : all_space (rstrip s) = all_space s.
Proof.
  induction s as [|c t IH]; [reflexivity|].
  rewrite rstrip_cons. destruct (all_space (String c t)) eqn:E.
  - reflexivity.
  - rewrite all_space_cons in *. now rewrite IH.
Qed.

Lemma rstrip_idem (s : string) : rstrip (rstrip s) = rstrip s.
Proof.
  induction s as [|c t IH]; [reflexivity|].
  rewrite rstrip_cons. destruct (all_space (String c t)) eqn:E.
  - reflexivity.
  - rewrite rstrip_cons, all_space_cons, all_space_rstrip,
      <- all_space_cons, E.
    now rewrite IH.
Qed.

Lemma lstrip_head (s : string) :
  lstrip s = "" \/ exists c t, lstrip s = String c t /\ is_space c = false.
Proof.
  induction s as [|c t IH]; [now left|].
  simpl. destruct (is_space c) eqn:E; [exact IH|].
  right. now exists c, t.
Qed.

Lemma lstrip_nonspace (c : ascii) (t : string) :
  is_space c = false -> lstrip (String c t) = String c t.
Proof. intros H. simpl. now rewrite H. Qed.

Lemma lstrip_strip (s : string) : lstrip (strip s) = strip s.
Proof.
  unfold strip. destruct (lstrip_head s) as [-> | (c & t & -> & Hc)].
  - reflexivity.
  - rewrite rstrip_cons_nonspace by exact Hc.
    now apply lstrip_nonspace.
Qed.

Lemma rstrip_strip (s : string) : rstrip (strip s) = strip s.
Proof. unfold strip. apply rstrip_idem. Qed.

Lemma strip_idem (s : string) : strip (strip s) = strip s.
Proof.
  unfold strip at 1. rewrite lstrip_strip. apply rstrip_strip.
Qed.

(** A prefix without white space in front of a trimmed string leaves it
    trimmed. *)
Lemma strip_cons_nonspace (c : ascii) (t : string) :
  is_space c = false -> rstrip t = t -> strip (String c t) = String c t.
Proof.
  intros Hc Ht. unfold strip.
  rewrite lstrip_nonspace, rstrip_cons_nonspace by exact Hc.
  now rewrite Ht.
Qed.

Lemma rstrip_cons_fixed (c : ascii) (t : string) :
  is_space c = false -> rstrip t = t -> rstrip (String c t) = String c t.
Proof. intros Hc Ht. rewrite rstrip_cons_nonspace by exact Hc. now rewrite Ht. Qed.

Lemma is_space_lower (c : ascii) : is_space (lower_char c) = is_space c.
Proof. destruct c as [[] [] [] [] [] [] [] []]; vm_compute; reflexivity. Qed.

Lemma lower_lstrip (s : string) : lower (lstrip s) = lstrip (lower s).
Proof.
  induction s as [|c t IH]; [reflexivity|].
  simpl. rewrite is_space_lower. now destruct (is_space c).
Qed.

Lemma all_space_lower (s : string) : all_space (lower s) = all_space s.
Proof.
  unfold all_space. rewrite <- lower_lstrip. now destruct (lstrip s).
Qed.

Lemma lower_rstrip (s : string) : lower (rstrip s) = rstrip (lower s).
Proof.
  induction s as [|c t IH]; [reflexivity|].
  change (lower (String c t)) with (String (lower_char c) (lower t)).
  rewrite !rstrip_cons.
  change (String (lower_char c) (lower t)) with (lower (String c t)).
  rewrite all_space_lower.
  destruct (all_space (String c t)); [reflexivity|].
  simpl. now rewrite IH.
Qed.

Lemma lower_strip (s : string) : lower (strip s) = strip (lower s).
Proof. unfold strip. now rewrite lower_rstrip, lower_lstrip. Qed.

(** *** Trimming keeps every occurrence of a pattern without white space *)

Lemma contains_empty (s : string) : contains "" s = true.
Proof. destruct s; reflexivity. Qed.

Lemma contains_lstrip (p s : string) :
  no_space p = true -> contains p s = true -> contains p (lstrip s) = true.
Proof.
  intros Hp. destruct p as [|a p]; [intros _; apply contains_empty|].
  simpl in Hp. apply andb_true_iff in Hp as [Ha _].
  apply negb_true_iff in Ha.
  induction s as [|c t IH]; [trivial|].
  simpl lstrip. destruct (is_space c) eqn:E; [|trivial].
  rewrite contains_cons. intros H. apply orb_true_iff in H as [H|H].
  - simpl in H. destruct (ascii_dec a c); [congruence | discriminate].
  - now apply IH.
Qed.

Lemma prefix_rstrip (p t : string) :
  no_space p = true -> String.prefix p t = true ->
  String.prefix p (rstrip t) = true.
Proof.
  revert t. induction p as [|a p IH]; intros t Hp H.
  - now destruct (rstrip t).
  - simpl in Hp. apply andb_true_iff in Hp as [Ha Hp].
    apply negb_true_iff in Ha.
    destruct t as [|c t]; [discriminate|].
    simpl in H. destruct (ascii_dec a c) as [<-|]; [|discriminate].
    rewrite rstrip_cons_nonspace by exact Ha.
    simpl. destruct (ascii_dec a a); [|congruence]. now apply IH.
Qed.

Lemma contains_all_space (a : ascii) (p s : string) :
  all_space s = true -> contains (String a p) s = true -> is_space a = true.
Proof.
  induction s as [|c t IH]; intros Hs H.
  - discriminate.
  - rewrite all_space_cons in Hs. destruct (is_space c) eqn:E; [|discriminate].
    rewrite contains_cons in H. apply orb_true_iff in H as [H|H].
    + simpl in H. destruct (ascii_dec a c); [congruence | discriminate].
    + now apply IH.
Qed.

Lemma contains_rstrip (p s : string) :
  no_space p = true -> contains p s = true -> contains p (rstrip s) = true.
Proof.
  intros Hp. induction s as [|c t IH]; [trivial|].
  intros H. rewrite rstrip_cons. destruct (all_space (String c t)) eqn:E.
  - destruct p as [|a p]; [reflexivity|].
    pose proof (contains_all_space _ _ _ E H) as Ha.
    simpl in Hp. now rewrite Ha in Hp.
  - rewrite contains_cons in *. apply orb_true_iff in H as [H|H].
    + apply (prefix_rstrip _ _ Hp) in H.
      rewrite rstrip_cons, E in H. now rewrite H.
    + rewrite (IH H). apply orb_true_r.
Qed.

Lemma contains_strip (p s : string) :
  no_space p = true -> contains p s = true -> contains p (strip s) = true.
Proof.
  intros Hp H. unfold strip. now apply contains_rstrip, contains_lstrip.
Qed.

Lemma contains_app_l (p a s : string) :
  contains p s = true -> contains p (a ++ s) = true.
Proof.
  rewrite !contains_spec. intros (x & y & ->).
  exists (a ++ x), y. now rewrite append_assoc.
Qed.

End StripFacts.

(* ===================================================================== *)
(** ** [_normalize_url] and [_is_cdn_url] *)
(* ===================================================================== *)

Section UrlFacts.

Lemma truthy_spec (s : string) : truthy s = true <-> s <> "".
Proof. destruct s; simpl; split; congruence. Qed.

Lemma truthy_false (s : string) : truthy s = false <-> s = "".
Proof. destruct s; simpl; split; congruence. Qed.

(** What [_normalize_url] returns, branch by branch. *)
Lemma normalize_url_cases (url : string) :
  url <> "" ->
  let s := strip url in
  (startswith s "//" = true /\ _normalize_url url = "https:" ++ s)
  \/ (startswith s "//" = false /\ startswith s "/" = true
      /\ _normalize_url url = site_origin ++ s)
  \/ (startswith s "//" = false /\ startswith s "/" = false
      /\ startswith s "http" = true /\ _normalize_url url = s)
  \/ (startswith s "//" = false /\ startswith s "/" = false
      /\ startswith s "http" = false
      /\ _normalize_url url = site_origin ++ "/" ++ s).
Proof.
  intros Hne s. apply truthy_spec in Hne.
  unfold _normalize_url. rewrite Hne. cbn [negb]. fold s.
  destruct (startswith s "//") eqn:E1; [now left|].
  destruct (startswith s "/") eqn:E2; [right; now left|].
  destruct (startswith s "http") eqn:E3.
  - right; right; now left.
  - right; right; now right.
Qed.

(** The result is the trimmed input behind a prefix without white
    space. *)
Lemma normalize_url_shape (url : string) :
  url <> "" ->
  exists a, _normalize_url url = a ++ strip url
            /\ (a = "" \/ a = "https:" \/ a = site_origin
                \/ a = site_origin ++ "/").
Proof.
  intros Hne.
  destruct (normalize_url_cases url Hne)
    as [(_ & H) | [(_ & _ & H) | [(_ & _ & _ & H) | (_ & _ & _ & H)]]];
    rewrite H.
  - exists "https:". auto.
  - exists site_origin. auto.
  - exists "". auto.
  - exists (site_origin ++ "/"). split; [|auto].
    now rewrite append_assoc.
Qed.

Lemma is_cdn_url_spec (url : string) :
  _is_cdn_url url = true <->
  any_in cdn_patterns url = true
  /\ any_in image_extensions (lower url) = true.
Proof.
  unfold _is_cdn_url. destruct url as [|c t].
  - simpl. split; [discriminate | intros [H _]; discriminate].
  - cbn [truthy negb]. apply andb_true_iff.
Qed.

Lemma any_in_strip_app (ps : list string) (a s : string) :
  forallb no_space ps = true ->
  any_in ps s = true -> any_in ps (a ++ strip s) = true.
Proof.
  intros Hps. rewrite !any_in_spec. intros (p & Hin & Hp).
  exists p. split; [exact Hin|].
  apply contains_app_l, contains_strip; [|exact Hp].
  rewrite forallb_forall in Hps. now apply Hps.
Qed.

(** Normalizing keeps a direct-asset reference direct-asset. *)
Lemma is_cdn_url_normalize (src : string) :
  _is_cdn_url src = true -> _is_cdn_url (_normalize_url src) = true.
Proof.
  intros H. assert (Hne : src <> "") by (intros ->; discriminate).
  destruct (normalize_url_shape src Hne) as (a & -> & _).
  apply is_cdn_url_spec in H as [Hm He].
  apply is_cdn_url_spec. split.
  - now apply any_in_strip_app.
  - rewrite lower_app, lower_strip. now apply any_in_strip_app.
Qed.

Lemma normalize_url_fixed (r : string) :
  strip r = r -> startswith r "http" = true -> _normalize_url r = r.
Proof.
  intros Hs Hp. unfold _normalize_url. rewrite Hs.
  unfold startswith in *. rewrite Hp.
  apply prefix_spec in Hp as [b ->]. reflexivity.
Qed.

Ltac trimmed :=
  unfold site_origin; cbn [append];
  first
    [ apply strip_cons_nonspace; [reflexivity|]
    | idtac ];
  repeat (apply rstrip_cons_fixed; [reflexivity|]);
  try apply rstrip_strip.

Lemma normalize_url_idem (url : string) :
  _normalize_url (_normalize_url url) = _normalize_url url.
Proof.
  destruct (string_dec url "") as [->|Hne]; [reflexivity|].
  destruct (normalize_url_cases url Hne)
    as [(_ & H) | [(_ & _ & H) | [(_ & _ & Hp & H) | (_ & _ & _ & H)]]];
    rewrite H; apply normalize_url_fixed;
    solve [ reflexivity | apply strip_idem | exact Hp | now trimmed ].
Qed.

(** The article id: normalizing twice is normalizing once. *)
Lemma normalize_pmcid_idem (pmcid : string) :
  _normalize_pmcid (_normalize_pmcid pmcid) = _normalize_pmcid pmcid.
Proof.
  unfold _normalize_pmcid.
  destruct (startswith (strip pmcid) "PMC") eqn:E; cbn [negb].
  - now rewrite strip_idem, E.
  - assert (Hs : strip ("PMC" ++ strip pmcid) = "PMC" ++ strip pmcid)
      by now trimmed.
    rewrite Hs.
    assert (Hp : startswith ("PMC" ++ strip pmcid) "PMC" = true)
      by (apply prefix_spec; now exists (strip pmcid)).
    now rewrite Hp.
Qed.

End UrlFacts.

(* ===================================================================== *)
(** ** The image URL resolver *)
(* ===================================================================== *)

Section ResolverFacts.

Variable net : network.

Lemma find_app {A} (f : A -> bool) (l1 l2 : list A) :
  List.find f (l1 ++ l2)
  = match List.find f l1 with
    | Some x => Some x
    | None => List.find f l2
    end.
Proof.
  induction l1 as [|x l1 IH]; simpl; [reflexivity|].
  now destruct (f x).
Qed.

Lemma scan_tag_find (img_tag : element) :
  scan_tag img_tag = List.find acceptable (candidate_url img_tag).
Proof.
  unfold scan_tag, candidate_url, acceptable.
  destruct (get img_tag "src") as [src|]; [|reflexivity].
  destruct (truthy src); [|reflexivity].
  simpl. destruct (_is_cdn_url (_normalize_url src)); [reflexivity|].
  simpl. now destruct (is_ncbi_image (_normalize_url src)).
Qed.

Lemma scan_tags_find (img_tags : list element) :
  scan_tags img_tags
  = List.find acceptable (flat_map candidate_url img_tags).
Proof.
  induction img_tags as [|t ts IH]; [reflexivity|].
  simpl. rewrite find_app, <- scan_tag_find, IH. reflexivity.
Qed.

Lemma scan_selectors_find (soup : document) (selectors : list selector) :
  scan_selectors soup selectors
  = List.find acceptable
      (flat_map candidate_url (flat_map (select soup) selectors)).
Proof.
  induction selectors as [|s ss IH]; [reflexivity|].
  simpl. rewrite flat_map_app, find_app, <- scan_tags_find, IH.
  reflexivity.
Qed.

(** What the first element satisfying [f] is. *)
Lemma find_first {A} (f : A -> bool) (l : list A) (x : A) :
  List.find f l = Some x ->
  exists before after,
    l = (before ++ x :: after)%list
    /\ forallb (fun y => negb (f y)) before = true
    /\ f x = true.
Proof.
  induction l as [|y l IH]; [discriminate|].
  simpl. destruct (f y) eqn:E.
  - intros [= ->]. now exists [], l.
  - intros H. destruct (IH H) as (b & a & -> & Hb & Hx).
    exists (y :: b), a. simpl. now rewrite E, Hb.
Qed.

Lemma acceptable_classify (url : string) :
  acceptable url = true <-> classify url <> Unusable.
Proof.
  unfold acceptable, classify.
  destruct (_is_cdn_url url); [simpl; split; [discriminate | reflexivity]|].
  destruct (is_ncbi_image url); simpl; split; congruence.
Qed.

Lemma scrape_cdn_url_run (pmcid fig_id : string) (l : log) :
  _scrape_cdn_url_from_figure_page net pmcid fig_id l
  = (Ok (page_scan net l pmcid fig_id), (l ++ [figure_page pmcid fig_id])%list).
Proof.
  unfold _scrape_cdn_url_from_figure_page, page_scan, try_except, bind,
    session_get.
  destruct (net l (figure_page pmcid fig_id)) as [r|e]; [|reflexivity].
  destruct (status_code r =? 200)%Z; [|reflexivity].
  cbn [negb].
  destruct (scan_selectors (content r) cdn_selectors); reflexivity.
Qed.

Lemma page_scan_acceptable (l : log) (pmcid fig_id : string) :
  page_scan net l pmcid fig_id = ""
  \/ acceptable (page_scan net l pmcid fig_id) = true.
Proof.
  unfold page_scan.
  destruct (net l (figure_page pmcid fig_id)) as [r|e]; [|now left].
  destruct (status_code r =? 200)%Z; [|now left].
  destruct (scan_selectors (content r) cdn_selectors) as [u|] eqn:E;
    [|now left].
  right. rewrite scan_selectors_find in E.
  now apply find_some in E.
Qed.

(** An inline reference that passes [_is_cdn_url] as written is returned
    normalized, and nothing is requested. *)
Lemma get_cdn_image_url_inline
    (fig_elem : element) (pmcid fig_id src : string) (l : log) :
  inline_src fig_elem = Some src ->
  _is_cdn_url src = true ->
  _get_cdn_image_url net fig_elem pmcid fig_id l
  = (Ok (_normalize_url src), l).
Proof.
  intros Hsrc Hcdn. unfold _get_cdn_image_url. rewrite Hsrc, Hcdn.
  destruct src; [discriminate|]. reflexivity.
Qed.

(** Otherwise the figure page is requested. *)
Lemma get_cdn_image_url_fetches
    (fig_elem : element) (pmcid fig_id : string) (l : log) :
  match inline_src fig_elem with
  | Some src => _is_cdn_url src = false
  | None => True
  end ->
  _get_cdn_image_url net fig_elem pmcid fig_id l
  = (Ok (page_scan net l pmcid fig_id), (l ++ [figure_page pmcid fig_id])%list).
Proof.
  intros H. unfold _get_cdn_image_url.
  destruct (inline_src fig_elem) as [src|].
  - rewrite H, andb_false_r. apply scrape_cdn_url_run.
  - apply scrape_cdn_url_run.
Qed.

(** The resolver never raises, and what it returns is empty or a URL of
    one of the two usable classes. *)
Lemma get_cdn_image_url_total
    (fig_elem : element) (pmcid fig_id : string) (l : log) :
  exists url l',
    _get_cdn_image_url net fig_elem pmcid fig_id l = (Ok url, l')
    /\ (url = "" \/ acceptable url = true).
Proof.
  destruct (inline_src fig_elem) as [src|] eqn:Hsrc.
  - destruct (_is_cdn_url src) eqn:Hcdn.
    + exists (_normalize_url src), l. split.
      * now apply get_cdn_image_url_inline.
      * right. unfold acceptable.
        now rewrite is_cdn_url_normalize.
    + eexists _, _. split.
      * apply get_cdn_image_url_fetches. now rewrite Hsrc.
      * apply page_scan_acceptable.
  - eexists _, _. split.
    + apply get_cdn_image_url_fetches. now rewrite Hsrc.
    + apply page_scan_acceptable.
Qed.

End ResolverFacts.

(* ===================================================================== *)
(** ** One figure, and the loop over the figures *)
(* ===================================================================== *)

Section ScraperFacts.

Variable net : network.

(** [_extract_figure_info] in one step, given what the resolver did. *)
Lemma extract_figure_info_run
    (fig_elem : element) (pmcid : string) (n : nat)
    (l l' : log) (cdn_image_url : string) :
  _get_cdn_image_url net fig_elem pmcid (fig_id_of fig_elem n) l
    = (Ok cdn_image_url, l') ->
  _extract_figure_info net fig_elem pmcid n l
  = (Ok (if truthy (_extract_figure_caption fig_elem) || truthy cdn_image_url
         then Some
           {| figure_id := fig_id_of fig_elem n;
              label := _extract_figure_label fig_elem n;
              caption := _extract_figure_caption fig_elem;
              image_url :=
                if truthy cdn_image_url then cdn_image_url
                else figure_page pmcid (fig_id_of fig_elem n);
              figure_url :=
                if truthy cdn_image_url then cdn_image_url
                else figure_page pmcid (fig_id_of fig_elem n) |}
         else None), l').
Proof.
  intros H. unfold _extract_figure_info, bind. rewrite H.
  destruct (truthy (_extract_figure_caption fig_elem) || truthy cdn_image_url);
    reflexivity.
Qed.

Lemma figure_page_nonempty (pmcid fig_id : string) :
  figure_page pmcid fig_id <> "".
Proof. unfold figure_page. simpl. discriminate. Qed.

(** The loop with its accumulator and its [try]/[except] is [collect]. *)
Lemma process_figures_collect
    (extract : extractor) (pmcid : string) (figures : list element) :
  forall (i : nat) (figure_data : list FigureRecord) (l : log),
    process_figures extract pmcid figures i figure_data l
    = (Ok (figure_data ++ fst (collect extract pmcid figures i l))%list,
       snd (collect extract pmcid figures i l)).
Proof.
  induction figures as [|fig_elem rest IH]; intros i figure_data l.
  - simpl. unfold ret. now rewrite app_nil_r.
  - simpl. unfold bind at 1. unfold try_except, bind.
    destruct (extract fig_elem pmcid i l) as [[[r|]|e] l1]; simpl.
    + rewrite IH.
      destruct (collect extract pmcid rest (S i) l1) as [rs l2]; simpl.
      now rewrite <- app_assoc.
    + now rewrite IH.
    + now rewrite IH.
Qed.

(** [scrape_figures] in one step. *)
Lemma scrape_figures_with_run
    (extract : extractor) (pmcid : string) (l : log) :
  let pmcid' := _normalize_pmcid pmcid in
  let l1 := (l ++ [paper_url pmcid'])%list in
  scrape_figures_with extract net pmcid l
  = match net l (paper_url pmcid') with
    | Fails _ => (Ok [], l1)
    | Responds r =>
        if error_status (status_code r) then (Ok [], l1)
        else
          (Ok (fst (collect extract pmcid'
                      (_find_figure_elements (content r)) 1 l1)),
           snd (collect extract pmcid'
                      (_find_figure_elements (content r)) 1 l1))
    end.
Proof.
  intros pmcid' l1. unfold scrape_figures_with. fold pmcid'.
  unfold try_except, bind, session_get.
  destruct (net l (paper_url pmcid')) as [r|e]; [|reflexivity].
  unfold raise_for_status, error_status.
  destruct ((400 <=? status_code r)%Z && (status_code r <? 600)%Z);
    [reflexivity|].
  unfold ret at 1. rewrite process_figures_collect. reflexivity.
Qed.

End ScraperFacts.

(* ===================================================================== *)
(** ** URL classification and normalization *)
(* ===================================================================== *)

(** C3.  Classification is a function of the string alone and returns one
    of the three classes.  A string is direct-asset exactly when one of the
    path markers of [cdn_patterns] occurs in it and one of the
    [image_extensions] occurs in it up to letter case; a marker alone and an
    extension alone are not direct-asset, an upper-case extension counts,
    and ["not a url"] is unusable. *)
Theorem classify_direct_asset_iff :
  (forall url,
      classify url = DirectAsset
      \/ classify url = GenericRepositoryImage
      \/ classify url = Unusable)
  /\ (forall url,
         classify url = DirectAsset <->
         (exists marker, In marker cdn_patterns /\ Substring marker url)
         /\ (exists ext, In ext image_extensions /\ SubstringCI ext url))
  /\ classify "https://cdn.ncbi.nlm.nih.gov/pmc/blobs/abc/fig1" <> DirectAsset
  /\ classify "https://example.org/images/fig1.jpg" <> DirectAsset
  /\ classify "https://cdn.ncbi.nlm.nih.gov/pmc/blobs/abc/FIG1.JPG" = DirectAsset
  /\ classify "not a url" = Unusable.
Proof.
  split; [|split; [|repeat split; try reflexivity; vm_compute; discriminate]].
  - intros url. unfold classify.
    destruct (_is_cdn_url url); [now left|].
    destruct (is_ncbi_image url); [right; now left | right; now right].
  - intros url.
    assert (Hc : classify url = DirectAsset <-> _is_cdn_url url = true).
    { unfold classify. destruct (_is_cdn_url url); [easy|].
      destruct (is_ncbi_image url); split; discriminate. }
    rewrite Hc, is_cdn_url_spec, !any_in_spec.
    split; intros [(m & Hm & Hcm) (e & He & Hce)]; split.
    + exists m. split; [exact Hm | now apply contains_spec].
    + exists e. split; [exact He | now apply contains_lower_spec].
    + exists m. split; [exact Hm | now apply contains_spec].
    + exists e. split; [exact He | now apply contains_lower_spec].
Qed.

(** C7, as the code has it.  After trimming, a protocol-relative reference
    gets the scheme [https:], a root-relative one gets the site origin, a
    reference that starts with [http] is returned as trimmed, and any other
    non-empty reference gets the site origin and a slash;
    [//host/path.jpg] becomes [https://host/path.jpg]; normalizing twice is
    normalizing once, for every input. *)
Theorem normalize_url_spec (url : string) :
  (startswith (strip url) "//" = true ->
   _normalize_url url = "https:" ++ strip url)
  /\ (startswith (strip url) "/" = true ->
      startswith (strip url) "//" = false ->
      _normalize_url url = site_origin ++ strip url)
  /\ (startswith (strip url) "http" = true ->
      _normalize_url url = strip url)
  /\ (url <> "" ->
      startswith (strip url) "/" = false ->
      startswith (strip url) "http" = false ->
      _normalize_url url = site_origin ++ "/" ++ strip url)
  /\ _normalize_url "//host/path.jpg" = "https://host/path.jpg"
  /\ _normalize_url (_normalize_url url) = _normalize_url url.
Proof.
  assert (Hslash : startswith (strip url) "//" = true ->
                   startswith (strip url) "/" = true).
  { unfold startswith. rewrite !prefix_spec. intros [b ->]. now exists ("/" ++ b). }
  assert (Hhttp : startswith (strip url) "http" = true ->
                  startswith (strip url) "/" = false).
  { unfold startswith. rewrite prefix_spec. intros [b ->]. reflexivity. }
  assert (Hempty : url = "" -> startswith (strip url) "/" = false
                               /\ startswith (strip url) "http" = false).
  { intros ->. now split. }
  repeat split; try reflexivity; try apply normalize_url_idem.
  - intros H. destruct (string_dec url "") as [E|Hne];
      [apply Hempty in E as [E _]; apply Hslash in H; congruence|].
    destruct (normalize_url_cases url Hne)
      as [(_ & R) | [(F & _) | [(F & _) | (F & _)]]]; congruence.
  - intros H1 H2. destruct (string_dec url "") as [E|Hne];
      [apply Hempty in E as [E _]; congruence|].
    destruct (normalize_url_cases url Hne)
      as [(F & _) | [(_ & _ & R) | [(_ & F & _) | (_ & F & _)]]]; congruence.
  - intros H. destruct (string_dec url "") as [E|Hne];
      [apply Hempty in E as [_ E]; congruence|].
    pose proof (Hhttp H) as H1.
    destruct (normalize_url_cases url Hne)
      as [(F & _) | [(_ & F & _) | [(_ & _ & _ & R) | (_ & _ & F & _)]]];
      try congruence.
    apply Hslash in F. congruence.
  - intros Hne H1 H2.
    destruct (normalize_url_cases url Hne)
      as [(F & _) | [(_ & F & _) | [(_ & _ & F & _) | (_ & _ & _ & R)]]];
      try congruence.
    apply Hslash in F. congruence.
Qed.

(** The branches of [normalize_url_spec] at three references. *)
Lemma normalize_url_spec_witness :
  _normalize_url "//host/path.jpg " = "https:" ++ strip "//host/path.jpg "
  /\ _normalize_url "/pmc/a.png" = site_origin ++ strip "/pmc/a.png"
  /\ _normalize_url " https://host/a.png" = strip " https://host/a.png".
Proof.
  split; [|split].
  - apply (proj1 (normalize_url_spec "//host/path.jpg ")). reflexivity.
  - apply (proj1 (proj2 (normalize_url_spec "/pmc/a.png"))); reflexivity.
  - apply (proj1 (proj2 (proj2 (normalize_url_spec " https://host/a.png")))).
    reflexivity.
Defined.

(** C7 as stated fails: a reference that starts with a scheme other than
    [http], such as the [data:] reference of a placeholder image, is not
    passed through but prefixed with the site origin. *)
Lemma normalize_url_scheme_counterexample :
  starts_with_scheme "data:image/gif;base64,R0lGODlhAQABAAAAACw=" = true
  /\ _normalize_url "data:image/gif;base64,R0lGODlhAQABAAAAACw="
     = "https://www.ncbi.nlm.nih.gov/data:image/gif;base64,R0lGODlhAQABAAAAACw="
  /\ _normalize_url "data:image/gif;base64,R0lGODlhAQABAAAAACw="
     <> "data:image/gif;base64,R0lGODlhAQABAAAAACw="
  /\ starts_with_scheme "ftp://host/path.jpg" = true
  /\ _normalize_url "ftp://host/path.jpg"
     = "https://www.ncbi.nlm.nih.gov/ftp://host/path.jpg".
Proof. repeat split; try reflexivity. vm_compute. discriminate. Qed.

(* ===================================================================== *)
(** ** Resolving the image URL of a figure *)
(* ===================================================================== *)

(** C1, at the reference of the specification.  The figure holds the inline
    reference [/pmc/blobs/abc/fig1.jpg], whose normalized form is
    direct-asset; [_get_cdn_image_url] tests the reference before
    normalizing it, finds no path marker, and requests the figure page
    whatever the network is.  With the network down it returns the empty
    string instead of the normalized reference. *)
Theorem inline_root_relative_blob_refetched :
  forall (net : network) (pmcid fig_id : string) (l : log),
    inline_src fig_inline_blob = Some "/pmc/blobs/abc/fig1.jpg"
    /\ _normalize_url "/pmc/blobs/abc/fig1.jpg"
       = "https://www.ncbi.nlm.nih.gov/pmc/blobs/abc/fig1.jpg"
    /\ classify (_normalize_url "/pmc/blobs/abc/fig1.jpg") = DirectAsset
    /\ _is_cdn_url "/pmc/blobs/abc/fig1.jpg" = false
    /\ snd (_get_cdn_image_url net fig_inline_blob pmcid fig_id l)
       = (l ++ [figure_page pmcid fig_id])%list
    /\ _get_cdn_image_url net_down fig_inline_blob "PMC1" "figure_1" []
       = (Ok "", ["https://www.ncbi.nlm.nih.gov/pmc/articles/PMC1/figure/figure_1/"]).
Proof.
  intros net pmcid fig_id l. repeat split; try reflexivity.
  rewrite get_cdn_image_url_fetches; reflexivity.
Qed.

(** C2, as the code has it.  The scan of the figure page returns the first
    candidate, selectors in priority order and matches in document order,
    whose normalized URL is direct-asset or a repository image: every
    candidate before it is unusable, nothing is remembered for later, and
    the result is empty when no candidate is usable, when the status is not
    200 and when the request fails.  The page is requested once.  On
    [page_first_and_last], where the first selector and the last one match
    different images, the image of the first selector is returned. *)
Theorem scan_returns_first_usable :
  forall (net : network) (pmcid fig_id : string) (l : log),
    (forall soup,
        scan_selectors soup cdn_selectors
        = List.find acceptable (candidate_urls soup))
    /\ (forall soup url,
           scan_selectors soup cdn_selectors = Some url ->
           classify url <> Unusable
           /\ exists before after,
               candidate_urls soup = (before ++ url :: after)%list
               /\ Forall (fun u => classify u = Unusable) before)
    /\ (forall soup,
           scan_selectors soup cdn_selectors = None ->
           Forall (fun u => classify u = Unusable) (candidate_urls soup))
    /\ _scrape_cdn_url_from_figure_page net pmcid fig_id l
       = (Ok match net l (figure_page pmcid fig_id) with
             | Responds r =>
                 if (status_code r =? 200)%Z
                 then match List.find acceptable (candidate_urls (content r)) with
                      | Some url => url
                      | None => ""
                      end
                 else ""
             | Fails _ => ""
             end,
          (l ++ [figure_page pmcid fig_id])%list)
    /\ scan_selectors page_first_and_last cdn_selectors
       = Some "https://cdn.ncbi.nlm.nih.gov/pmc/blobs/ab/f1.jpg".
Proof.
  intros net pmcid fig_id l.
  assert (Hun : forall u, acceptable u = false -> classify u = Unusable).
  { intros u Hu. destruct (classify u) eqn:E; [| |reflexivity];
      assert (A : acceptable u = true)
        by (apply acceptable_classify; rewrite E; discriminate);
      congruence. }
  split; [|split; [|split; [|split; [|reflexivity]]]].
  - intros soup. apply scan_selectors_find.
  - intros soup url H. rewrite scan_selectors_find in H.
    destruct (find_first _ _ _ H) as (b & a & Hl & Hb & Hu).
    split; [now apply acceptable_classify|].
    exists b, a. split; [exact Hl|].
    apply Forall_forall. intros u Hin. apply Hun.
    rewrite forallb_forall in Hb. apply negb_true_iff. now apply Hb.
  - intros soup H. rewrite scan_selectors_find in H.
    apply Forall_forall. intros u Hin. apply Hun.
    now apply (find_none _ _ H).
  - rewrite scrape_cdn_url_run. unfold page_scan.
    destruct (net l (figure_page pmcid fig_id)) as [r|e]; [|reflexivity].
    now rewrite scan_selectors_find.
Qed.

(** C2 as stated fails: on [page_lesser_first] the scan returns the plain
    repository image met first although a later candidate is direct-asset. *)
Lemma lesser_candidate_returned_at_once :
  scan_selectors page_lesser_first cdn_selectors
  = Some "https://www.ncbi.nlm.nih.gov/pmc/articles/PMC1/bin/a.jpg"
  /\ classify "https://www.ncbi.nlm.nih.gov/pmc/articles/PMC1/bin/a.jpg"
     = GenericRepositoryImage
  /\ In "https://www.ncbi.nlm.nih.gov/pmc/blobs/x.jpg"
        (candidate_urls page_lesser_first)
  /\ classify "https://www.ncbi.nlm.nih.gov/pmc/blobs/x.jpg" = DirectAsset
  /\ _scrape_cdn_url_from_figure_page
       (net_const 200 page_lesser_first) "PMC1" "F1" []
     = (Ok "https://www.ncbi.nlm.nih.gov/pmc/articles/PMC1/bin/a.jpg",
        ["https://www.ncbi.nlm.nih.gov/pmc/articles/PMC1/figure/F1/"]).
Proof.
  repeat split; try reflexivity.
  vm_compute. right. now left.
Qed.

(* ===================================================================== *)
(** ** The record of one figure *)
(* ===================================================================== *)

(** C4, as the code has it.  For a figure element, with [cdn_image_url]
    what the resolver returned: a record is emitted exactly when the caption
    is not empty or the resolver returned a URL; with both empty there is no
    record; and a URL the resolver returned is direct-asset or a generic
    repository image and is what the record carries. *)
Theorem record_emitted_iff :
  forall (net : network) (fig_elem : element) (pmcid : string) (n : nat)
         (l : log),
  exists cdn_image_url out l',
    _get_cdn_image_url net fig_elem pmcid (fig_id_of fig_elem n) l
      = (Ok cdn_image_url, l')
    /\ _extract_figure_info net fig_elem pmcid n l = (Ok out, l')
    /\ (out <> None <->
        _extract_figure_caption fig_elem <> "" \/ cdn_image_url <> "")
    /\ (_extract_figure_caption fig_elem = "" -> cdn_image_url = "" ->
        out = None)
    /\ (cdn_image_url <> "" ->
        classify cdn_image_url <> Unusable
        /\ exists r, out = Some r /\ image_url r = cdn_image_url).
Proof.
  intros net fig_elem pmcid n l.
  destruct (get_cdn_image_url_total net fig_elem pmcid (fig_id_of fig_elem n) l)
    as (u & l' & Hu & Hacc).
  exists u. eexists. exists l'.
  split; [exact Hu|].
  split; [exact (extract_figure_info_run net _ _ _ _ _ _ Hu)|].
  assert (Hcls : String.length u <> 0 -> classify u <> Unusable).
  { destruct Hacc as [->|Hacc]; [simpl; congruence|].
    intros _. now apply acceptable_classify. }
  destruct (_extract_figure_caption fig_elem) as [|c t];
    destruct u as [|d u]; cbn [truthy orb].
  - split; [|split].
    + split; [congruence | intros [H|H]; congruence].
    + reflexivity.
    + congruence.
  - split; [|split].
    + split; [intros _; right; discriminate | discriminate].
    + discriminate.
    + intros _. split; [apply Hcls; discriminate|].
      eexists. split; reflexivity.
  - split; [|split].
    + split; [intros _; left; discriminate | discriminate].
    + discriminate.
    + congruence.
  - split; [|split].
    + split; [intros _; left; discriminate | discriminate].
    + discriminate.
    + intros _. split; [apply Hcls; discriminate|].
      eexists. split; reflexivity.
Qed.

(** C4 as stated fails.  The bare figure has no caption and the page scan
    resolves its image to a generic repository image, which is not
    direct-asset: the condition of the specification does not hold, and the
    record is emitted.  And for a figure whose [id] ends in [.jpg] the scan
    can resolve to the URL of the figure page itself: the record is emitted
    with the very URL the fallback would give. *)
Lemma generic_image_record_emitted :
  _extract_figure_caption fig_bare = ""
  /\ _get_cdn_image_url (net_const 200 page_lesser_first) fig_bare "PMC1"
       (fig_id_of fig_bare 1) []
     = (Ok "https://www.ncbi.nlm.nih.gov/pmc/articles/PMC1/bin/a.jpg",
        ["https://www.ncbi.nlm.nih.gov/pmc/articles/PMC1/figure/figure_1/"])
  /\ classify "https://www.ncbi.nlm.nih.gov/pmc/articles/PMC1/bin/a.jpg"
     = GenericRepositoryImage
  /\ emitted_spec ""
       "https://www.ncbi.nlm.nih.gov/pmc/articles/PMC1/bin/a.jpg"
       (figure_page "PMC1" (fig_id_of fig_bare 1)) = false
  /\ _extract_figure_info (net_const 200 page_lesser_first) fig_bare "PMC1"
       1 []
     = (Ok (Some
              {| figure_id := "figure_1";
                 label := "Figure 1";
                 caption := "";
                 image_url :=
                   "https://www.ncbi.nlm.nih.gov/pmc/articles/PMC1/bin/a.jpg";
                 figure_url :=
                   "https://www.ncbi.nlm.nih.gov/pmc/articles/PMC1/bin/a.jpg"
              |}),
        ["https://www.ncbi.nlm.nih.gov/pmc/articles/PMC1/figure/figure_1/"])
  /\ _extract_figure_caption fig_id_like_file = ""
  /\ fig_id_of fig_id_like_file 1 = "F1.jpg"
  /\ _get_cdn_image_url (net_const 200 page_self_image) fig_id_like_file
       "PMC1" "F1.jpg" []
     = (Ok (figure_page "PMC1" "F1.jpg"), [figure_page "PMC1" "F1.jpg"])
  /\ emitted_spec "" (figure_page "PMC1" "F1.jpg")
       (figure_page "PMC1" "F1.jpg") = false
  /\ _extract_figure_info (net_const 200 page_self_image) fig_id_like_file
       "PMC1" 1 []
     = (Ok (Some
              {| figure_id := "F1.jpg";
                 label := "Figure 1";
                 caption := "";
                 image_url := figure_page "PMC1" "F1.jpg";
                 figure_url := figure_page "PMC1" "F1.jpg" |}),
        [figure_page "PMC1" "F1.jpg"]).
Proof. repeat split. Qed.

(** C5, as the code has it.  With [cdn_image_url] what the resolver
    returned: the record is dropped exactly when the caption and
    [cdn_image_url] are both empty, so an empty caption with an empty
    resolution emits nothing; the figure page is substituted only in a
    record whose caption is not empty. *)
Theorem record_dropped_iff
    (net : network) (fig_elem : element) (pmcid : string) (n : nat)
    (l l' : log) (cdn_image_url : string) :
  _get_cdn_image_url net fig_elem pmcid (fig_id_of fig_elem n) l
    = (Ok cdn_image_url, l') ->
  (_extract_figure_info net fig_elem pmcid n l = (Ok None, l') <->
   _extract_figure_caption fig_elem = "" /\ cdn_image_url = "")
  /\ (forall r,
         _extract_figure_info net fig_elem pmcid n l = (Ok (Some r), l') ->
         cdn_image_url = "" ->
         _extract_figure_caption fig_elem <> ""
         /\ image_url r = figure_page pmcid (fig_id_of fig_elem n)).
Proof.
  intros Hu. rewrite (extract_figure_info_run _ _ _ _ _ _ _ Hu).
  destruct (_extract_figure_caption fig_elem) as [|c t];
    destruct cdn_image_url as [|d u]; simpl; split;
    try (split; [discriminate | intros [? ?]; discriminate]);
    try (split; [now split | reflexivity]);
    try discriminate;
    try (intros r _ H; discriminate).
  intros r [= <-] _. simpl. split; [discriminate | reflexivity].
Qed.

(** [record_dropped_iff] at the bare figure with the network down. *)
Lemma record_dropped_iff_witness :
  (_extract_figure_info net_down fig_bare "PMC1" 1 []
   = (Ok None, [figure_page "PMC1" (fig_id_of fig_bare 1)]) <->
   _extract_figure_caption fig_bare = "" /\ "" = "")
  /\ (forall r,
         _extract_figure_info net_down fig_bare "PMC1" 1 []
         = (Ok (Some r), [figure_page "PMC1" (fig_id_of fig_bare 1)]) ->
         "" = "" ->
         _extract_figure_caption fig_bare <> ""
         /\ image_url r = figure_page "PMC1" (fig_id_of fig_bare 1)).
Proof.
  apply (record_dropped_iff net_down fig_bare "PMC1" 1 []). reflexivity.
Defined.

(** C5 as stated fails: the bare figure has an empty caption, the resolver
    returns the empty string, and no record is emitted. *)
Lemma empty_caption_empty_url_dropped :
  _extract_figure_caption fig_bare = ""
  /\ _get_cdn_image_url net_down fig_bare "PMC1" (fig_id_of fig_bare 1) []
     = (Ok "", ["https://www.ncbi.nlm.nih.gov/pmc/articles/PMC1/figure/figure_1/"])
  /\ _extract_figure_info net_down fig_bare "PMC1" 1 []
     = (Ok None, ["https://www.ncbi.nlm.nih.gov/pmc/articles/PMC1/figure/figure_1/"]).
Proof. repeat split. Qed.

Section CollectFacts.

Variable extract : extractor.
Variable P : FigureRecord -> Prop.
Hypothesis extract_P :
  forall fig_elem pmcid i l r l',
    extract fig_elem pmcid i l = (Ok (Some r), l') -> P r.

(** What holds of every record an extraction returns holds of every
    record of the loop. *)
Lemma collect_Forall (pmcid : string) (figures : list element) :
  forall (i : nat) (l : log),
    Forall P (fst (collect extract pmcid figures i l)).
Proof.
  induction figures as [|fig_elem rest IH]; intros i l; simpl.
  - constructor.
  - destruct (extract fig_elem pmcid i l) as [[[r|]|e] l1] eqn:E.
    + specialize (IH (S i) l1).
      destruct (collect extract pmcid rest (S i) l1) as [rs l2].
      constructor; [now apply (extract_P _ _ _ _ _ _ E) | exact IH].
    + apply IH.
    + apply IH.
Qed.

End CollectFacts.

(** What [_extract_figure_info] puts in the two link fields. *)
Lemma extracted_links
    (net : network) (fig_elem : element) (pmcid : string) (n : nat)
    (l l' : log) (r : FigureRecord) :
  _extract_figure_info net fig_elem pmcid n l = (Ok (Some r), l') ->
  exists cdn_image_url,
    _get_cdn_image_url net fig_elem pmcid (fig_id_of fig_elem n) l
      = (Ok cdn_image_url, l')
    /\ image_url r
       = (if truthy cdn_image_url then cdn_image_url
          else figure_page pmcid (fig_id_of fig_elem n))
    /\ figure_url r = image_url r
    /\ figure_id r = fig_id_of fig_elem n.
Proof.
  intros H.
  destruct (get_cdn_image_url_total net fig_elem pmcid (fig_id_of fig_elem n) l)
    as (u & l1 & Hu & _).
  rewrite (extract_figure_info_run net _ _ _ _ _ _ Hu) in H.
  destruct (truthy (_extract_figure_caption fig_elem) || truthy u);
    [|discriminate].
  injection H as <- <-. exists u. now repeat split.
Qed.

(** C6.  In a record emitted for a figure the image field and the
    figure-link field are equal: both are the resolved URL when the
    resolver returned one and the figure-page URL otherwise, and neither is
    empty; the same holds of every record [scrape_figures] returns. *)
Theorem record_links_agree (net : network) :
  (forall fig_elem pmcid n l l' r,
      _extract_figure_info net fig_elem pmcid n l = (Ok (Some r), l') ->
      exists cdn_image_url,
        _get_cdn_image_url net fig_elem pmcid (fig_id_of fig_elem n) l
          = (Ok cdn_image_url, l')
        /\ image_url r
           = (if truthy cdn_image_url then cdn_image_url
              else figure_page pmcid (fig_id_of fig_elem n))
        /\ figure_url r = image_url r
        /\ image_url r <> "" /\ figure_url r <> "")
  /\ (forall pmcid l r,
         In r (records_of (scrape_figures net pmcid l)) ->
         image_url r = figure_url r
         /\ image_url r <> "" /\ figure_url r <> "").
Proof.
  assert (Hone : forall fig_elem pmcid n l l' r,
      _extract_figure_info net fig_elem pmcid n l = (Ok (Some r), l') ->
      figure_url r = image_url r /\ image_url r <> "").
  { intros fig_elem pmcid n l l' r H.
    destruct (extracted_links _ _ _ _ _ _ _ H) as (u & _ & Hi & Hf & _).
    split; [exact Hf|]. rewrite Hi. destruct u; simpl.
    - apply figure_page_nonempty.
    - discriminate. }
  split.
  - intros fig_elem pmcid n l l' r H.
    destruct (Hone _ _ _ _ _ _ H) as [Hf Hn].
    destruct (extracted_links _ _ _ _ _ _ _ H) as (u & Hu & Hi & _).
    exists u. repeat split; try assumption. now rewrite Hf.
  - intros pmcid l r Hin.
    assert (Hall : Forall (fun r => figure_url r = image_url r
                                    /\ image_url r <> "")
                          (records_of (scrape_figures net pmcid l))).
    { unfold records_of, scrape_figures.
      rewrite scrape_figures_with_run.
      destruct (net l (paper_url (_normalize_pmcid pmcid))) as [resp|e];
        [|constructor].
      destruct (error_status (status_code resp)); [constructor|].
      simpl. apply collect_Forall. intros. eapply Hone; eassumption. }
    rewrite Forall_forall in Hall. destruct (Hall r Hin) as [Hf Hn].
    repeat split; try congruence.
Qed.

(** [record_links_agree] at the article with two captioned figures. *)
Lemma record_links_agree_witness :
  Forall
    (fun r => image_url r = figure_url r
              /\ image_url r <> "" /\ figure_url r <> "")
    (records_of
       (scrape_figures (net_article "PMC1" 200 article_two_figures)
          "PMC1" [])).
Proof.
  apply Forall_forall.
  exact (proj2 (record_links_agree
                  (net_article "PMC1" 200 article_two_figures)) "PMC1" []).
Defined.

(* ===================================================================== *)
(** ** Caption extraction *)
(* ===================================================================== *)

Section CaptionFacts.

Lemma head_collapse_in_run (s : string) :
  head_space (collapse_from true s) = false.
Proof.
  induction s as [|c t IH]; [reflexivity|].
  simpl. destruct (is_space c) eqn:E; [exact IH | exact E].
Qed.

Lemma single_spaced_collapse (s : string) :
  forall b, single_spaced (collapse_from b s) = true.
Proof.
  induction s as [|c t IH]; intros b; [reflexivity|].
  simpl. destruct (is_space c) eqn:E.
  - destruct b; [apply IH|].
    pose proof (head_collapse_in_run t) as Hh.
    pose proof (IH true) as Ht.
    destruct (collapse_from true t) as [|c' t'] eqn:Ec.
    + reflexivity.
    + simpl in Hh.
      change (single_spaced (String " " (String c' t')))
        with ((negb (is_space " ") || Ascii.eqb " " " ")
              && negb (is_space " " && is_space c')
              && single_spaced (String c' t')).
      rewrite Hh, Ht. reflexivity.
  - change (single_spaced (String c (collapse_from false t)))
      with ((negb (is_space c) || Ascii.eqb c " ")
            && match collapse_from false t with
               | String c' _ => negb (is_space c && is_space c')
               | EmptyString => true
               end
            && single_spaced (collapse_from false t)).
    rewrite E, IH. simpl. now destruct (collapse_from false t).
Qed.

Lemma all_space_collapse (s : string) :
  forall b, all_space (collapse_from b s) = all_space s.
Proof.
  induction s as [|c t IH]; intros b; [reflexivity|].
  simpl collapse_from. rewrite all_space_cons.
  destruct (is_space c) eqn:E.
  - destruct b; [apply IH|].
    rewrite all_space_cons. simpl. apply IH.
  - rewrite all_space_cons, E. reflexivity.
Qed.

Lemma rstrip_collapse (s : string) :
  forall b, rstrip s = s ->
            rstrip (collapse_from b s) = collapse_from b s.
Proof.
  induction s as [|c t IH]; intros b H; [reflexivity|].
  rewrite rstrip_cons in H.
  destruct (all_space (String c t)) eqn:Ea; [discriminate|].
  injection H as Ht.
  simpl collapse_from. destruct (is_space c) eqn:E.
  - rewrite all_space_cons, E in Ea.
    destruct b; [now apply IH|].
    rewrite rstrip_cons, all_space_cons. simpl.
    rewrite all_space_collapse, Ea. now rewrite IH.
  - rewrite rstrip_cons_nonspace by exact E. now rewrite IH.
Qed.

(** Collapsing a trimmed text leaves it trimmed. *)
Lemma strip_collapse_strip (s : string) :
  strip (collapse_ws (strip s)) = collapse_ws (strip s).
Proof.
  unfold collapse_ws.
  pose proof (rstrip_collapse (strip s) false (rstrip_strip s)) as Hr.
  unfold strip at 1.
  assert (Hl : lstrip (collapse_from false (strip s))
               = collapse_from false (strip s)).
  { pose proof (lstrip_strip s) as Hs.
    destruct (strip s) as [|c t]; [reflexivity|].
    simpl in Hs. simpl collapse_from.
    destruct (is_space c) eqn:E.
    - exfalso. destruct (lstrip_head t) as [Hn | (c' & t' & Hn & _)];
        rewrite Hn in Hs.
      + discriminate.
      + assert (Hlen : String.length (lstrip t) <= String.length t).
        { clear. induction t as [|x t IH]; simpl; [lia|].
          destruct (is_space x); simpl; lia. }
        rewrite Hn, Hs in Hlen. simpl in Hlen. lia.
    - apply lstrip_nonspace. exact E. }
  now rewrite Hl.
Qed.

Lemma caption_loop_find (fig_elem : element) (selectors : list selector) :
  caption_loop fig_elem selectors
  = option_map collapse_ws
      (List.find (fun text => (10 <? String.length text)%nat)
         (flat_map
            (fun selector =>
               match select_one fig_elem selector with
               | Some caption_elem => [strip (get_text caption_elem)]
               | None => []
               end)
            selectors)).
Proof.
  induction selectors as [|s ss IH]; [reflexivity|].
  simpl. destruct (select_one fig_elem s) as [e|]; [|exact IH].
  simpl. destruct (10 <? String.length (strip (get_text e)))%nat;
    [reflexivity | exact IH].
Qed.

Lemma caption_loop_shape (fig_elem : element) (selectors : list selector)
    (text : string) :
  caption_loop fig_elem selectors = Some text ->
  exists t, text = collapse_ws (strip t).
Proof.
  induction selectors as [|s ss IH]; [discriminate|].
  simpl. destruct (select_one fig_elem s) as [e|]; [|exact IH].
  destruct (10 <? String.length (strip (get_text e)))%nat; [|exact IH].
  intros [= <-]. now exists (get_text e).
Qed.

Lemma caption_shape (fig_elem : element) :
  _extract_figure_caption fig_elem = ""
  \/ exists t, _extract_figure_caption fig_elem = collapse_ws (strip t).
Proof.
  unfold _extract_figure_caption.
  destruct (caption_loop fig_elem caption_selectors) as [text|] eqn:E.
  - right. now apply caption_loop_shape in E.
  - unfold sibling_caption.
    destruct (find_next_sibling fig_elem) as [sib|]; [|now left].
    destruct (truthy (strip (get_text sib))
              && (20 <? String.length (strip (get_text sib)))%nat);
      [right; now exists (get_text sib) | now left].
Qed.

End CaptionFacts.

(** C8, as the code has it.  Caption extraction returns the collapsed text
    of the first caption-selector match whose trimmed text, before
    collapsing, is longer than 10 characters; without such a match it
    returns the collapsed text of the next sibling when its trimmed text is
    longer than 20 characters, and the empty string otherwise.  The result
    has no white space other than single spaces and none at its ends; for
    the caption text of the specification it is
    ["Panel A shows focal necrosis."]. *)
Theorem caption_extraction_spec :
  forall fig_elem : element,
    _extract_figure_caption fig_elem
    = match List.find (fun text => (10 <? String.length text)%nat)
              (caption_texts fig_elem) with
      | Some text => collapse_ws text
      | None =>
          match find_next_sibling fig_elem with
          | Some next_sibling =>
              if (20 <? String.length (strip (get_text next_sibling)))%nat
              then collapse_ws (strip (get_text next_sibling))
              else ""
          | None => ""
          end
      end
    /\ single_spaced (_extract_figure_caption fig_elem) = true
    /\ strip (_extract_figure_caption fig_elem)
       = _extract_figure_caption fig_elem
    /\ get_text fig_panel_a = "   Panel A shows   focal  necrosis.   "
    /\ _extract_figure_caption fig_panel_a = "Panel A shows focal necrosis.".
Proof.
  intros fig_elem. split; [|split; [|split; [|split; reflexivity]]].
  - unfold _extract_figure_caption, caption_texts.
    rewrite caption_loop_find.
    destruct (List.find _ _); [reflexivity|]. simpl.
    unfold sibling_caption.
    destruct (find_next_sibling fig_elem) as [sib|]; [|reflexivity].
    destruct (strip (get_text sib)) as [|c t] eqn:E; reflexivity.
  - destruct (caption_shape fig_elem) as [-> | [t ->]]; [reflexivity|].
    apply single_spaced_collapse.
  - destruct (caption_shape fig_elem) as [-> | [t ->]]; [reflexivity|].
    apply strip_collapse_strip.
Qed.

(** C8 as stated fails: the caption of [fig_spaced_caption], one text
    node, is 15 characters long when trimmed and 8 when collapsed; the code
    returns it, the gate on the collapsed text would not. *)
Lemma caption_gate_counterexample :
  get_text fig_spaced_caption = "Fig 1        CT"
  /\ caption_texts fig_spaced_caption = ["Fig 1        CT"]
  /\ String.length "Fig 1        CT" = 15
  /\ _extract_figure_caption fig_spaced_caption = "Fig 1 CT"
  /\ String.length "Fig 1 CT" = 8
  /\ caption_spec fig_spaced_caption = "".
Proof. repeat split. Qed.

(* ===================================================================== *)
(** ** [scrape_figures] *)
(* ===================================================================== *)

(** C9, as the code has it.  [scrape_figures] always returns: the empty
    list when the request of the article page fails (time-out, network
    error) or answers with an error status, 400 to 599, for which
    [raise_for_status] raises; otherwise the records of the located
    figures, where a figure whose extraction raises is skipped like one
    that yields no record and the figures after it are still processed. *)
Theorem scrape_figures_never_raises :
  forall (extract : extractor) (net : network) (pmcid : string) (l : log),
    (exists recs l', scrape_figures_with extract net pmcid l = (Ok recs, l'))
    /\ (forall e,
           net l (paper_url (_normalize_pmcid pmcid)) = Fails e ->
           fst (scrape_figures_with extract net pmcid l) = Ok [])
    /\ (forall r,
           net l (paper_url (_normalize_pmcid pmcid)) = Responds r ->
           (400 <= status_code r < 600)%Z ->
           fst (scrape_figures_with extract net pmcid l) = Ok [])
    /\ (forall r,
           net l (paper_url (_normalize_pmcid pmcid)) = Responds r ->
           ~ (400 <= status_code r < 600)%Z ->
           fst (scrape_figures_with extract net pmcid l)
           = Ok (fst (collect extract (_normalize_pmcid pmcid)
                        (_find_figure_elements (content r)) 1
                        (l ++ [paper_url (_normalize_pmcid pmcid)])%list)))
    /\ (forall fig_elem rest i figure_data l0 e l1,
           extract fig_elem pmcid i l0 = (Raise e, l1) ->
           process_figures extract pmcid (fig_elem :: rest) i figure_data l0
           = process_figures extract pmcid rest (S i) figure_data l1)
    /\ (forall figures i figure_data l0,
           process_figures extract pmcid figures i figure_data l0
           = (Ok (figure_data ++ fst (collect extract pmcid figures i l0))%list,
              snd (collect extract pmcid figures i l0))).
Proof.
  intros extract net pmcid l.
  assert (Hst : forall s, error_status s = true <-> (400 <= s < 600)%Z).
  { intros s. unfold error_status.
    rewrite andb_true_iff, Z.leb_le, Z.ltb_lt. reflexivity. }
  pose proof (scrape_figures_with_run net extract pmcid l) as Hrun.
  cbv zeta in Hrun.
  split; [|split; [|split; [|split; [|split]]]].
  - rewrite Hrun.
    destruct (net l (paper_url (_normalize_pmcid pmcid))) as [r|e];
      [|now eexists _, _].
    destruct (error_status (status_code r)); now eexists _, _.
  - intros e He. now rewrite Hrun, He.
  - intros r Hr Hs. apply Hst in Hs. now rewrite Hrun, Hr, Hs.
  - intros r Hr Hs. rewrite Hrun, Hr.
    destruct (error_status (status_code r)) eqn:E; [|reflexivity].
    now apply Hst in E.
  - intros fig_elem rest i figure_data l0 e l1 H.
    simpl. unfold bind at 1. unfold try_except, bind. now rewrite H.
  - intros. apply process_figures_collect.
Qed.

(** [scrape_figures_never_raises] at a network that is down, at one that
    answers 404, and at an extraction that raises. *)
Lemma scrape_figures_never_raises_witness :
  fst (scrape_figures net_down "PMC1" []) = Ok []
  /\ fst (scrape_figures (net_article "PMC1" 404 article_two_figures) "PMC1" [])
     = Ok []
  /\ process_figures (flaky_extract net_down) "PMC1"
       [fig_bare; fig_panel_a] 2 [] []
     = process_figures (flaky_extract net_down) "PMC1" [fig_panel_a] 3 [] [].
Proof.
  split; [|split].
  - apply (proj1 (proj2 (scrape_figures_never_raises
                           (_extract_figure_info net_down) net_down "PMC1" []))
             ConnectionError).
    reflexivity.
  - apply (proj1 (proj2 (proj2 (scrape_figures_never_raises
             (_extract_figure_info
                (net_article "PMC1" 404 article_two_figures))
             (net_article "PMC1" 404 article_two_figures) "PMC1" [])))
             (mk_response 404 article_two_figures)).
    + reflexivity.
    + simpl. lia.
  - apply (proj1 (proj2 (proj2 (proj2 (proj2 (scrape_figures_never_raises
             (flaky_extract net_down) net_down "PMC1" [])))))
             fig_bare [fig_panel_a] 2 [] [] (Exception "boom") []).
    reflexivity.
Defined.

(** C9 as stated fails: a status other than 200 that is not an error
    status does not empty the result; the article answered with 203 is
    scraped. *)
Lemma non_error_status_is_scraped :
  net_article "PMC1" 203 article_two_figures []
    (paper_url (_normalize_pmcid "1"))
  = Responds (mk_response 203 article_two_figures)
  /\ (203 =? 200)%Z = false
  /\ map figure_id
       (records_of
          (scrape_figures (net_article "PMC1" 203 article_two_figures) "1" []))
     = ["figure_1"; "figure_2"].
Proof. repeat split. Qed.

(* ===================================================================== *)
(** ** Synthesized figure ids *)
(* ===================================================================== *)

Section FigureIds.

Lemma str_of_nat_inj (a b : nat) : str_of_nat a = str_of_nat b -> a = b.
Proof.
  unfold str_of_nat. intros H.
  apply (f_equal NilEmpty.uint_of_string) in H.
  rewrite !NilEmpty.usu in H. injection H as H.
  apply (f_equal Nat.of_uint) in H.
  now rewrite !DecimalNat.Unsigned.of_to in H.
Qed.

Lemma synthesized_id_inj (a b : nat) :
  synthesized_id a = synthesized_id b -> a = b.
Proof.
  unfold synthesized_id. intros H. apply str_of_nat_inj.
  simpl in H. now injection H.
Qed.

Lemma fig_id_of_no_id (fig_elem : element) (n : nat) :
  no_id fig_elem = true -> fig_id_of fig_elem n = synthesized_id n.
Proof.
  unfold no_id, fig_id_of, or_default, synthesized_id.
  destruct (get fig_elem "id") as [s|]; [|reflexivity].
  destruct (truthy s); [discriminate | reflexivity].
Qed.

Lemma NoDup_map_synthesized (ns : list nat) :
  NoDup ns -> NoDup (map synthesized_id ns).
Proof.
  induction 1 as [|n ns Hn Hnd IH]; simpl; constructor; [|exact IH].
  intros Hin. apply in_map_iff in Hin as (m & Hm & Hin).
  apply synthesized_id_inj in Hm. congruence.
Qed.

Variable net : network.

(** The loop numbers the figures by their position: the record of the
    figure at a position has the synthesized id of that position, whatever
    became of the figures before it. *)
Lemma collect_emitting (pmcid : string) (figures : list element) :
  forallb no_id figures = true ->
  forall (i : nat) (l : log),
    map figure_id (fst (collect (_extract_figure_info net) pmcid figures i l))
    = map synthesized_id (emitting (_extract_figure_info net) pmcid figures i l)
    /\ subseq (emitting (_extract_figure_info net) pmcid figures i l)
              (seq i (List.length figures))
    /\ NoDup (emitting (_extract_figure_info net) pmcid figures i l)
    /\ Forall (fun k => i <= k)
              (emitting (_extract_figure_info net) pmcid figures i l)
    /\ Forall2
         (fun k r =>
            figure_id r = synthesized_id k
            /\ i <= k
            /\ exists fig_elem,
                 nth_error figures (k - i) = Some fig_elem
                 /\ label r = _extract_figure_label fig_elem k
                 /\ caption r = _extract_figure_caption fig_elem)
         (emitting (_extract_figure_info net) pmcid figures i l)
         (fst (collect (_extract_figure_info net) pmcid figures i l))
    /\ (forall k fig_elem,
           nth_error figures k = Some fig_elem ->
           _extract_figure_caption fig_elem <> "" ->
           In (i + k) (emitting (_extract_figure_info net) pmcid figures i l)).
Proof.
  induction figures as [|fig_elem rest IH]; intros Hno i l.
  - simpl. repeat split; try constructor.
    intros k e Hk. now destruct k.
  - simpl in Hno. apply andb_true_iff in Hno as [Hf Hrest].
    destruct (get_cdn_image_url_total net fig_elem pmcid
                (fig_id_of fig_elem i) l) as (u & l1 & Hu & _).
    pose proof (extract_figure_info_run net fig_elem pmcid i l l1 u Hu) as Hrun.
    destruct (IH Hrest (S i) l1) as (Hids & Hsub & Hnd & Hge & Hat & Hcap).
    assert (Hshift :
      Forall2
        (fun k r =>
           figure_id r = synthesized_id k
           /\ i <= k
           /\ exists e,
                nth_error (fig_elem :: rest) (k - i) = Some e
                /\ label r = _extract_figure_label e k
                /\ caption r = _extract_figure_caption e)
        (emitting (_extract_figure_info net) pmcid rest (S i) l1)
        (fst (collect (_extract_figure_info net) pmcid rest (S i) l1))).
    { revert Hat. apply Forall2_impl.
      intros k r (Hid & Hle & e & Hnth & Hlab & Hc).
      split; [exact Hid|]. split; [lia|]. exists e.
      replace (k - i) with (S (k - S i)) by lia. now repeat split. }
    assert (Hlater : forall k e,
               nth_error (fig_elem :: rest) (S k) = Some e ->
               _extract_figure_caption e <> "" ->
               In (i + S k)
                  (emitting (_extract_figure_info net) pmcid rest (S i) l1)).
    { intros k e Hk Hc. replace (i + S k) with (S i + k) by lia.
      exact (Hcap k e Hk Hc). }
    cbn [collect emitting]. rewrite Hrun.
    destruct (truthy (_extract_figure_caption fig_elem) || truthy u) eqn:E.
    + destruct (collect (_extract_figure_info net) pmcid rest (S i) l1)
        as [rs l2] eqn:Ec.
      cbn [fst map figure_id] in *.
      split; [now rewrite Hids, fig_id_of_no_id by exact Hf|].
      split; [cbn [List.length seq]; now constructor|].
      split.
      { constructor; [|exact Hnd]. intros Hin.
        rewrite Forall_forall in Hge. specialize (Hge _ Hin). lia. }
      split.
      { constructor; [lia|]. revert Hge. apply Forall_impl. intros; lia. }
      split.
      { constructor; [|exact Hshift].
        split; [now apply fig_id_of_no_id|]. split; [lia|].
        exists fig_elem. rewrite Nat.sub_diag. now repeat split. }
      intros [|k] e Hk Hc.
      * rewrite Nat.add_0_r. now left.
      * right. exact (Hlater k e Hk Hc).
    + split; [exact Hids|].
      split; [cbn [List.length seq]; now constructor|].
      split; [exact Hnd|].
      split; [revert Hge; apply Forall_impl; intros; lia|].
      split; [exact Hshift|].
      intros [|k] e Hk Hc.
      * exfalso. injection Hk as <-.
        apply orb_false_iff in E as [E _]. apply truthy_false in E.
        contradiction.
      * exact (Hlater k e Hk Hc).
Qed.

Lemma mem_spec (x : string) (l : list string) :
  mem x l = true <-> In x l.
Proof.
  unfold mem. rewrite existsb_exists. split.
  - intros (y & Hin & Heq). apply String.eqb_eq in Heq. now subst.
  - intros Hin. exists x. split; [exact Hin | apply String.eqb_refl].
Qed.

(** The two nested loops of the locator are one loop over the matches of
    all selectors in order. *)
Lemma find_with_flat (selectors : list selector) (soup : document) :
  find_with selectors soup
  = fold_left accept_element (flat_map (select soup) selectors) ([], []).
Proof.
  unfold find_with. generalize (@nil element, @nil string).
  induction selectors as [|s ss IH]; intros st; [reflexivity|].
  simpl. now rewrite fold_left_app, IH.
Qed.

Lemma accept_element_no_id
    (elem : element) (figures : list element) (seen_ids : list string) :
  no_id elem = true ->
  accept_element (figures, seen_ids) elem
  = if negb (mem ("fig_" ++ str_of_nat (List.length figures)) seen_ids)
    then ((figures ++ [elem])%list,
          ("fig_" ++ str_of_nat (List.length figures)) :: seen_ids)
    else (figures, seen_ids).
Proof.
  intros He. unfold accept_element, no_id, or_default in *.
  destruct (get elem "id") as [x|]; [|reflexivity].
  destruct (truthy x); [discriminate | reflexivity].
Qed.

(** Matches without [id] are all accepted: the key [fig_<count>] of each is
    new. *)
Lemma accept_all_no_id (matched : list element) :
  forallb no_id matched = true ->
  forall figures seen_ids,
    (forall x, In x seen_ids ->
               exists k, k < List.length figures
                         /\ x = "fig_" ++ str_of_nat k) ->
    fst (fold_left accept_element matched (figures, seen_ids))
    = (figures ++ matched)%list.
Proof.
  induction matched as [|elem rest IH]; intros Hno figures seen_ids Hseen.
  - simpl. now rewrite app_nil_r.
  - simpl in Hno. apply andb_true_iff in Hno as [He Hrest].
    cbn [fold_left]. rewrite (accept_element_no_id _ _ _ He).
    destruct (mem ("fig_" ++ str_of_nat (List.length figures)) seen_ids)
      eqn:Em.
    + exfalso. apply mem_spec in Em. destruct (Hseen _ Em) as (k & Hk & Heq).
      simpl in Heq. injection Heq as Heq. apply str_of_nat_inj in Heq. lia.
    + cbn [negb]. rewrite IH; [now rewrite <- app_assoc | exact Hrest |].
      intros x [<-|Hin].
      * exists (List.length figures). split; [|reflexivity].
        rewrite length_app. simpl. lia.
      * destruct (Hseen _ Hin) as (k & Hk & ->). exists k.
        split; [|reflexivity]. rewrite length_app. simpl. lia.
Qed.

Lemma find_figure_elements_no_id (soup : document) :
  forallb no_id (flat_map (select soup) figure_selectors) = true ->
  _find_figure_elements soup = flat_map (select soup) figure_selectors.
Proof.
  intros Hno. unfold _find_figure_elements. rewrite find_with_flat.
  rewrite accept_all_no_id; [reflexivity | exact Hno |].
  intros x [].
Qed.

End FigureIds.

(** C10.  When none of the figure elements located on the article page has
    an [id], every record [scrape_figures] returns carries the id
    [figure_<k>] of the 1-based position [k] its figure has in the located
    list, with the label and the caption of that figure: a figure that
    yields no record still takes its position, and a figure with a caption
    at position [k] always yields [figure_<k>].  The positions that yield a
    record come in increasing order, so the ids are pairwise distinct.  The
    id of the element at a position is [figure_<position>] whatever the
    element is, and when no matched element has an [id] the located list is
    the list of matches, selector by selector, in document order. *)
Theorem synthesized_ids_distinct
    (net : network) (pmcid : string) (l : log) (r : response) :
  net l (paper_url (_normalize_pmcid pmcid)) = Responds r ->
  forallb no_id (_find_figure_elements (content r)) = true ->
  NoDup (map figure_id (records_of (scrape_figures net pmcid l)))
  /\ map figure_id (records_of (scrape_figures net pmcid l))
     = map synthesized_id
         (emitted_positions net l (_normalize_pmcid pmcid))
  /\ subseq (emitted_positions net l (_normalize_pmcid pmcid))
            (seq 1 (List.length (_find_figure_elements (content r))))
  /\ Forall2 (record_at (_find_figure_elements (content r)))
       (emitted_positions net l (_normalize_pmcid pmcid))
       (records_of (scrape_figures net pmcid l))
  /\ (error_status (status_code r) = false ->
      forall k fig_elem,
        nth_error (_find_figure_elements (content r)) k = Some fig_elem ->
        _extract_figure_caption fig_elem <> "" ->
        In (S k) (emitted_positions net l (_normalize_pmcid pmcid)))
  /\ (forall k fig_elem,
         nth_error (_find_figure_elements (content r)) k = Some fig_elem ->
         fig_id_of fig_elem (S k) = synthesized_id (S k))
  /\ (forallb no_id (flat_map (select (content r)) figure_selectors) = true ->
      _find_figure_elements (content r)
      = flat_map (select (content r)) figure_selectors).
Proof.
  intros Hnet Hno.
  assert (Hloc : located_on net l (_normalize_pmcid pmcid)
                 = if error_status (status_code r) then []
                   else _find_figure_elements (content r)).
  { unfold located_on. now rewrite Hnet. }
  assert (Hrecs :
    records_of (scrape_figures net pmcid l)
    = fst (collect (_extract_figure_info net) (_normalize_pmcid pmcid)
             (located_on net l (_normalize_pmcid pmcid)) 1
             (l ++ [paper_url (_normalize_pmcid pmcid)])%list)).
  { unfold records_of, scrape_figures, located_on.
    rewrite scrape_figures_with_run, Hnet.
    now destruct (error_status (status_code r)). }
  assert (Htail :
    (forall k fig_elem,
        nth_error (_find_figure_elements (content r)) k = Some fig_elem ->
        fig_id_of fig_elem (S k) = synthesized_id (S k))
    /\ (forallb no_id (flat_map (select (content r)) figure_selectors) = true ->
        _find_figure_elements (content r)
        = flat_map (select (content r)) figure_selectors)).
  { split; [|apply find_figure_elements_no_id].
    intros k fig_elem Hnth. apply fig_id_of_no_id.
    rewrite forallb_forall in Hno. apply Hno.
    now apply nth_error_In in Hnth. }
  unfold emitted_positions. rewrite Hrecs, Hloc.
  destruct (error_status (status_code r)) eqn:Herr.
  - cbn [collect emitting fst map].
    assert (Hnil : forall ns : list nat, subseq [] ns)
      by (induction ns; constructor; assumption).
    split; [constructor|]. split; [reflexivity|]. split; [apply Hnil|].
    split; [constructor|]. split; [discriminate | exact Htail].
  - destruct (collect_emitting net (_normalize_pmcid pmcid)
                (_find_figure_elements (content r)) Hno 1
                (l ++ [paper_url (_normalize_pmcid pmcid)])%list)
      as (Hids & Hsub & Hnd & _ & Hat & Hcap).
    split; [rewrite Hids; now apply NoDup_map_synthesized|].
    split; [exact Hids|]. split; [exact Hsub|].
    split; [|split; [|exact Htail]].
    + revert Hat. apply Forall2_impl.
      intros k rec (Hid & Hle & e & Hnth & Hlab & Hc).
      split; [exact Hid|]. split; [exact Hle|]. now exists e.
    + intros _ k e Hk Hc. exact (Hcap k e Hk Hc).
Qed.

(** [synthesized_ids_distinct] at the article whose first figure yields no
    record: the two records are those of positions 2 and 3. *)
Lemma synthesized_ids_distinct_witness :
  NoDup (map figure_id
           (records_of
              (scrape_figures (net_article "PMC1" 200 article_bare_first)
                 "PMC1" [])))
  /\ map figure_id
       (records_of
          (scrape_figures (net_article "PMC1" 200 article_bare_first)
             "PMC1" []))
     = map synthesized_id
         (emitted_positions (net_article "PMC1" 200 article_bare_first) []
            (_normalize_pmcid "PMC1"))
  /\ subseq
       (emitted_positions (net_article "PMC1" 200 article_bare_first) []
          (_normalize_pmcid "PMC1"))
       (seq 1 (List.length (_find_figure_elements article_bare_first)))
  /\ Forall2 (record_at (_find_figure_elements article_bare_first))
       (emitted_positions (net_article "PMC1" 200 article_bare_first) []
          (_normalize_pmcid "PMC1"))
       (records_of
          (scrape_figures (net_article "PMC1" 200 article_bare_first)
             "PMC1" []))
  /\ (error_status 200 = false ->
      forall k fig_elem,
        nth_error (_find_figure_elements article_bare_first) k
        = Some fig_elem ->
        _extract_figure_caption fig_elem <> "" ->
        In (S k)
           (emitted_positions (net_article "PMC1" 200 article_bare_first) []
              (_normalize_pmcid "PMC1")))
  /\ (forall k fig_elem,
         nth_error (_find_figure_elements article_bare_first) k
         = Some fig_elem ->
         fig_id_of fig_elem (S k) = synthesized_id (S k))
  /\ (forallb no_id (flat_map (select article_bare_first) figure_selectors)
      = true ->
      _find_figure_elements article_bare_first
      = flat_map (select article_bare_first) figure_selectors).
Proof.
  apply (synthesized_ids_distinct
           (net_article "PMC1" 200 article_bare_first) "PMC1" []
           (mk_response 200 article_bare_first)); reflexivity.
Defined.

(** The sample behind it: the bare figure takes position 1 and yields no
    record, and the records of the two others are numbered 2 and 3. *)
Example bare_first_ids :
  emitted_positions (net_article "PMC1" 200 article_bare_first) []
    (_normalize_pmcid "PMC1") = [2; 3]
  /\ map figure_id
       (records_of
          (scrape_figures (net_article "PMC1" 200 article_bare_first)
             "PMC1" []))
     = ["figure_2"; "figure_3"].
Proof. split; reflexivity. Qed.

(* ===================================================================== *)
(** ** Further properties of the scraper *)
(* ===================================================================== *)

(** *** The article id *)

(** X1.  [_normalize_pmcid] returns a trimmed id that starts with [PMC]:
    the trimmed input itself when that already starts with [PMC]
    (upper case), and [PMC] followed by the trimmed input otherwise;
    applying it twice is applying it once. *)
Theorem normalize_pmcid_canonical :
  forall pmcid : string,
    startswith (_normalize_pmcid pmcid) "PMC" = true
    /\ strip (_normalize_pmcid pmcid) = _normalize_pmcid pmcid
    /\ _normalize_pmcid pmcid
       = (if startswith (strip pmcid) "PMC" then strip pmcid
          else "PMC" ++ strip pmcid)
    /\ _normalize_pmcid (_normalize_pmcid pmcid) = _normalize_pmcid pmcid.
Proof.
  intros pmcid.
  assert (Heq : _normalize_pmcid pmcid
                = (if startswith (strip pmcid) "PMC" then strip pmcid
                   else "PMC" ++ strip pmcid)).
  { unfold _normalize_pmcid. now destruct (startswith (strip pmcid) "PMC"). }
  repeat split; try exact Heq; try apply normalize_pmcid_idem.
  - rewrite Heq. destruct (startswith (strip pmcid) "PMC") eqn:E; [exact E|].
    apply prefix_spec. now exists (strip pmcid).
  - rewrite Heq. destruct (startswith (strip pmcid) "PMC"); [apply strip_idem|].
    cbn [append]. apply strip_cons_nonspace; [reflexivity|].
    repeat (apply rstrip_cons_fixed; [reflexivity|]). apply rstrip_strip.
Qed.

(** *** The figure locator *)

Section LocatorFacts.

Lemma or_default_has_id (e : element) (d : string) :
  or_default (get e "id") d
  = match has_id e with Some x => x | None => d end.
Proof.
  unfold or_default, has_id. destruct (get e "id") as [x|]; [|reflexivity].
  now destruct (truthy x).
Qed.

(** One match either changes nothing or is appended with a new key. *)
Lemma accept_element_cases
    (figures : list element) (seen_ids : list string) (e : element) :
  accept_element (figures, seen_ids) e = (figures, seen_ids)
  \/ exists k,
       accept_element (figures, seen_ids) e
       = ((figures ++ [e])%list, k :: seen_ids)
       /\ ~ In k seen_ids /\ key_matches e k.
Proof.
  unfold accept_element. rewrite or_default_has_id.
  set (k := match has_id e with
            | Some x => x
            | None => "fig_" ++ str_of_nat (List.length figures)
            end).
  destruct (mem k seen_ids) eqn:Em; [now left|].
  right. exists k. split; [reflexivity|]. split.
  - intros Hin. apply mem_spec in Hin. congruence.
  - unfold key_matches, k. destruct (has_id e); [reflexivity|].
    apply prefix_spec. now eexists.
Qed.

Lemma accept_element_inv (st : list element * list string) (e : element) :
  locator_inv st -> locator_inv (accept_element st e).
Proof.
  destruct st as [figures seen_ids]. intros (keys & Hseen & Hnd & Hk).
  simpl in Hseen, Hk.
  destruct (accept_element_cases figures seen_ids e)
    as [-> | (k & -> & Hnew & Hkey)].
  - now exists keys.
  - exists (keys ++ [k])%list. simpl. repeat split.
    + now rewrite rev_app_distr, Hseen.
    + apply NoDup_app; [exact Hnd | repeat constructor; intros [] | ].
      intros x Hx [<-|[]]. apply Hnew. rewrite Hseen. now apply in_rev in Hx.
    + apply Forall2_app; [exact Hk | now repeat constructor].
Qed.

Lemma fold_accept_inv (ms : list element) :
  forall st, locator_inv st -> locator_inv (fold_left accept_element ms st).
Proof.
  induction ms as [|m ms IH]; intros st H; [exact H|].
  simpl. now apply IH, accept_element_inv.
Qed.

Lemma find_figure_elements_inv (soup : document) :
  locator_inv (find_with figure_selectors soup).
Proof.
  rewrite find_with_flat. apply fold_accept_inv.
  exists []. simpl. repeat split; constructor.
Qed.

Lemma keyed_ids_incl (figures : list element) (keys : list string) :
  Forall2 key_matches figures keys ->
  incl (flat_map id_list figures) keys.
Proof.
  induction 1 as [|f k fs ks Hfk _ IH]; [intros x []|].
  simpl. intros x Hx. apply in_app_or in Hx as [Hx|Hx].
  - left. unfold id_list, key_matches in *.
    destruct (has_id f); [|destruct Hx].
    destruct Hx as [<-|[]]. exact Hfk.
  - right. now apply IH.
Qed.

Lemma keyed_ids_NoDup (figures : list element) (keys : list string) :
  Forall2 key_matches figures keys -> NoDup keys ->
  NoDup (flat_map id_list figures).
Proof.
  induction 1 as [|f k fs ks Hfk Hrest IH]; intros Hnd; [constructor|].
  inversion Hnd as [|? ? Hnotin Hnd']; subst.
  simpl. unfold key_matches in Hfk. unfold id_list at 1.
  destruct (has_id f) as [x|]; [|now apply IH].
  subst k. simpl. constructor; [|now apply IH].
  intros Hin. apply Hnotin. now apply (keyed_ids_incl fs ks).
Qed.

(** What the loop adds to [figures] is a sub-sequence of the matches. *)
Lemma fold_accept_subseq (ms : list element) :
  forall figures seen_ids,
  exists extra,
    fst (fold_left accept_element ms (figures, seen_ids))
    = (figures ++ extra)%list
    /\ subseq extra ms.
Proof.
  induction ms as [|m ms IH]; intros figures seen_ids.
  - exists []. simpl. split; [now rewrite app_nil_r | constructor].
  - cbn [fold_left].
    destruct (accept_element_cases figures seen_ids m)
      as [-> | (k & -> & _ & _)].
    + destruct (IH figures seen_ids) as (extra & He & Hs).
      exists extra. split; [exact He | now constructor].
    + destruct (IH (figures ++ [m])%list (k :: seen_ids)) as (extra & He & Hs).
      exists (m :: extra). split; [|now constructor].
      now rewrite He, <- app_assoc.
Qed.

Lemma subseq_length {A : Type} (xs ys : list A) :
  subseq xs ys -> List.length xs <= List.length ys.
Proof. induction 1; simpl; lia. Qed.

Lemma subseq_In {A : Type} (xs ys : list A) (x : A) :
  subseq xs ys -> In x xs -> In x ys.
Proof.
  induction 1 as [|y xs ys _ IH|z xs ys _ IH]; intros Hin.
  - exact Hin.
  - right. now apply IH.
  - destruct Hin as [->|Hin]; [now left | right; now apply IH].
Qed.

Lemma subseq_NoDup {A : Type} (xs ys : list A) :
  subseq xs ys -> NoDup ys -> NoDup xs.
Proof.
  induction 1 as [|y xs ys _ IH|z xs ys Hs IH]; intros Hnd.
  - constructor.
  - inversion Hnd; subst. now apply IH.
  - inversion Hnd as [|? ? Hnotin Hnd']; subst. constructor.
    + intros Hin. apply Hnotin. now apply (subseq_In xs ys).
    + now apply IH.
Qed.

(** Keys are never forgotten, and the key of a match with an [id] is known
    once the match has been met. *)
Lemma fold_accept_seen_mono (ms : list element) :
  forall st k, In k (snd st) -> In k (snd (fold_left accept_element ms st)).
Proof.
  induction ms as [|m ms IH]; intros [figures seen_ids] k Hin; [exact Hin|].
  cbn [fold_left]. apply IH.
  destruct (accept_element_cases figures seen_ids m)
    as [-> | (k' & -> & _ & _)]; simpl; auto.
Qed.

Lemma fold_accept_seen_id (ms : list element) :
  forall st m x,
    In m ms -> has_id m = Some x ->
    In x (snd (fold_left accept_element ms st)).
Proof.
  induction ms as [|m' ms IH]; intros [figures seen_ids] m x Hin Hid;
    [destruct Hin|].
  cbn [fold_left]. destruct Hin as [->|Hin]; [|now apply (IH _ m)].
  apply fold_accept_seen_mono.
  unfold accept_element. rewrite or_default_has_id, Hid.
  destruct (mem x seen_ids) eqn:Em; simpl.
  - now apply mem_spec.
  - now left.
Qed.

End LocatorFacts.

(** X2.  No two of the located figure elements carry the same non-empty
    [id]: the non-empty ids of the located elements, in order, are pairwise
    distinct. *)
Theorem located_ids_distinct :
  forall soup : document,
    NoDup (flat_map id_list (_find_figure_elements soup)).
Proof.
  intros soup. destruct (find_figure_elements_inv soup) as (keys & _ & Hnd & Hk).
  now apply (keyed_ids_NoDup _ keys).
Qed.

(** X3.  The located figure elements are matches of the figure selectors
    and come in the order of the matches (selector by selector, each in
    document order), none of them added by the locator; the first match is
    always located, and a page without matches has no figures. *)
Theorem located_subseq_of_matched :
  forall soup : document,
    subseq (_find_figure_elements soup) (matched soup)
    /\ List.length (_find_figure_elements soup) <= List.length (matched soup)
    /\ hd_error (_find_figure_elements soup) = hd_error (matched soup)
    /\ (matched soup = [] <-> _find_figure_elements soup = []).
Proof.
  intros soup.
  assert (Hs : subseq (_find_figure_elements soup) (matched soup)).
  { unfold _find_figure_elements, matched. rewrite find_with_flat.
    destruct (fold_accept_subseq
                (flat_map (select soup) figure_selectors) [] [])
      as (extra & -> & Hs).
    exact Hs. }
  assert (Hhd : hd_error (_find_figure_elements soup) = hd_error (matched soup)).
  { unfold _find_figure_elements, matched. rewrite find_with_flat.
    destruct (flat_map (select soup) figure_selectors) as [|m ms];
      [reflexivity|].
    cbn [fold_left].
    destruct (accept_element_cases [] [] m) as [E | (k & -> & _ & _)].
    - exfalso. unfold accept_element in E.
      destruct (negb _) eqn:En in E; [discriminate|].
      now rewrite or_default_has_id in En.
    - destruct (fold_accept_subseq ms ([] ++ [m])%list [k]) as (extra & -> & _).
      reflexivity. }
  repeat split; try assumption.
  - now apply subseq_length.
  - intros E. rewrite E in Hs. inversion Hs. reflexivity.
  - intros E. rewrite E in Hhd. destruct (matched soup); [reflexivity|].
    discriminate.
Qed.

(** X4.  A matched element with a non-empty [id] that does not start with
    [fig_] is represented in the result: some located element has that
    [id]. *)
Theorem matched_id_is_located
    (soup : document) (m : element) (x : string) :
  In m (matched soup) ->
  has_id m = Some x ->
  startswith x "fig_" = false ->
  exists e, In e (_find_figure_elements soup) /\ has_id e = Some x.
Proof.
  intros Hin Hid Hfig.
  destruct (find_figure_elements_inv soup) as (keys & Hseen & _ & Hk).
  assert (Hx : In x keys).
  { apply in_rev. rewrite <- Hseen. rewrite find_with_flat.
    now apply (fold_accept_seen_id _ _ m). }
  clear Hin Hseen.
  unfold _find_figure_elements.
  revert Hx Hk. generalize (fst (find_with figure_selectors soup)).
  intros figures Hx Hk. induction Hk as [|f k fs ks Hfk _ IH]; [destruct Hx|].
  destruct Hx as [->|Hx].
  - exists f. split; [now left|]. unfold key_matches in Hfk.
    destruct (has_id f) as [y|]; [now subst | congruence].
  - destruct (IH Hx) as (e & He & Hide). exists e. split; [now right | exact Hide].
Qed.

(** [matched_id_is_located] at the first figure of [article_with_ids]. *)
Lemma matched_id_is_located_witness :
  exists e, In e (_find_figure_elements article_with_ids)
            /\ has_id e = Some "F1".
Proof.
  destruct (hd_error (matched article_with_ids)) as [m|] eqn:E;
    [|discriminate].
  apply (matched_id_is_located article_with_ids m "F1").
  - vm_compute in E. injection E as <-. vm_compute. now left.
  - vm_compute in E. injection E as <-. reflexivity.
  - reflexivity.
Defined.

(** *** The figure label *)

Section LabelFacts.

Lemma string_of_uint_no_space (d : Decimal.uint) :
  no_space (NilEmpty.string_of_uint d) = true.
Proof. induction d; simpl; [reflexivity | exact IHd ..]. Qed.

Lemma str_of_nat_no_space (n : nat) : no_space (str_of_nat n) = true.
Proof. apply string_of_uint_no_space. Qed.

Lemma str_of_nat_nonempty (n : nat) : str_of_nat n <> "".
Proof.
  intros H. assert (E : n = 0).
  { apply str_of_nat_inj. unfold str_of_nat in *.
    apply (f_equal NilEmpty.uint_of_string) in H.
    rewrite NilEmpty.usu in H. simpl in H. injection H as H.
    apply (f_equal Nat.of_uint) in H.
    rewrite DecimalNat.Unsigned.of_to in H. simpl in H. now subst. }
  subst n. discriminate.
Qed.

Lemma rstrip_no_space (s : string) : no_space s = true -> rstrip s = s.
Proof.
  induction s as [|c t IH]; [reflexivity|].
  simpl no_space. intros H. apply andb_true_iff in H as [Hc Ht].
  apply negb_true_iff in Hc. apply rstrip_cons_fixed; auto.
Qed.

Lemma all_space_app_no_space (a s : string) :
  no_space s = true -> s <> "" -> all_space (a ++ s) = false.
Proof.
  intros Hs Hne. induction a as [|c a IH].
  - destruct s as [|d s]; [congruence|]. simpl in Hs.
    apply andb_true_iff in Hs as [Hd _]. apply negb_true_iff in Hd.
    simpl append. now rewrite all_space_cons, Hd.
  - simpl append. rewrite all_space_cons. now destruct (is_space c).
Qed.

Lemma rstrip_app_no_space (a s : string) :
  no_space s = true -> s <> "" -> rstrip (a ++ s) = a ++ s.
Proof.
  intros Hs Hne. induction a as [|c a IH].
  - now apply rstrip_no_space.
  - change (String c a ++ s) with (String c (a ++ s)).
    rewrite rstrip_cons.
    change (String c (a ++ s)) with (String c a ++ s).
    rewrite all_space_app_no_space by assumption.
    simpl. now rewrite IH.
Qed.

Lemma label_loop_find (fig_elem : element) (selectors : list selector) :
  label_loop fig_elem selectors
  = List.find (fun text => truthy text && (String.length text <? 200)%nat)
      (flat_map
         (fun selector =>
            match select_one fig_elem selector with
            | Some label_elem => [strip (get_text label_elem)]
            | None => []
            end)
         selectors).
Proof.
  induction selectors as [|s ss IH]; [reflexivity|].
  simpl. destruct (select_one fig_elem s) as [e|]; [|exact IH].
  simpl.
  destruct (truthy (strip (get_text e))
            && (String.length (strip (get_text e)) <? 200)%nat);
    [reflexivity | exact IH].
Qed.

Lemma label_loop_shape (fig_elem : element) (selectors : list selector)
    (text : string) :
  label_loop fig_elem selectors = Some text ->
  text <> "" /\ String.length text < 200 /\ strip text = text.
Proof.
  induction selectors as [|s ss IH]; [discriminate|].
  simpl. destruct (select_one fig_elem s) as [e|]; [|exact IH].
  destruct (truthy (strip (get_text e))
            && (String.length (strip (get_text e)) <? 200)%nat) eqn:E;
    [|exact IH].
  intros [= <-]. apply andb_true_iff in E as [Ht Hl].
  repeat split.
  - now apply truthy_spec.
  - now apply Nat.ltb_lt.
  - apply strip_idem.
Qed.

End LabelFacts.

(** X5.  The label of a figure is the trimmed text of the first label
    selector whose first match has a non-empty trimmed text shorter than 200
    characters, and [Figure <ordinal>] when there is none; it is never
    empty, carries no white space at its ends, and is shorter than 200
    characters unless it is the synthesized one. *)
Theorem figure_label_spec :
  forall (fig_elem : element) (fig_number : nat),
    _extract_figure_label fig_elem fig_number
    = match List.find
              (fun text => truthy text && (String.length text <? 200)%nat)
              (label_texts fig_elem) with
      | Some text => text
      | None => "Figure " ++ str_of_nat fig_number
      end
    /\ _extract_figure_label fig_elem fig_number <> ""
    /\ strip (_extract_figure_label fig_elem fig_number)
       = _extract_figure_label fig_elem fig_number
    /\ (_extract_figure_label fig_elem fig_number
          = "Figure " ++ str_of_nat fig_number
        \/ String.length (_extract_figure_label fig_elem fig_number) < 200).
Proof.
  intros fig_elem fig_number. unfold _extract_figure_label.
  split; [unfold label_texts; now rewrite label_loop_find|].
  destruct (label_loop fig_elem label_selectors) as [text|] eqn:E.
  - destruct (label_loop_shape _ _ _ E) as (Hne & Hlen & Hs).
    repeat split; auto.
  - repeat split; [discriminate | | now left].
    unfold strip. change (lstrip ("Figure " ++ str_of_nat fig_number))
      with ("Figure " ++ str_of_nat fig_number).
    apply rstrip_app_no_space;
      [apply str_of_nat_no_space | apply str_of_nat_nonempty].
Qed.

(** *** What the resolver returns and requests *)

Section ResolverShape.

Variable net : network.

Lemma normalize_url_http (url : string) :
  url <> "" -> startswith (_normalize_url url) "http" = true.
Proof.
  intros Hne.
  destruct (normalize_url_cases url Hne)
    as [(_ & H) | [(_ & _ & H) | [(_ & _ & Hp & H) | (_ & _ & _ & H)]]];
    rewrite H; try reflexivity. exact Hp.
Qed.

Lemma candidate_urls_normalized (soup : document) (u : string) :
  In u (candidate_urls soup) ->
  exists src, src <> "" /\ u = _normalize_url src.
Proof.
  unfold candidate_urls. intros Hin.
  apply in_flat_map in Hin as (t & _ & Hu).
  unfold candidate_url in Hu.
  destruct (get t "src") as [src|]; [|destruct Hu].
  destruct (truthy src) eqn:E; [|destruct Hu].
  destruct Hu as [<-|[]]. exists src. split; [now apply truthy_spec | reflexivity].
Qed.

Lemma page_scan_normalized (l : log) (pmcid fig_id : string) :
  page_scan net l pmcid fig_id = ""
  \/ exists src, src <> "" /\ page_scan net l pmcid fig_id = _normalize_url src.
Proof.
  unfold page_scan.
  destruct (net l (figure_page pmcid fig_id)) as [r|e]; [|now left].
  destruct (status_code r =? 200)%Z; [|now left].
  destruct (scan_selectors (content r) cdn_selectors) as [u|] eqn:E;
    [|now left].
  right. rewrite scan_selectors_find in E. apply find_some in E as [Hin _].
  now apply (candidate_urls_normalized (content r)).
Qed.

Lemma app_one_neq {A : Type} (l : list A) (x : A) : (l ++ [x])%list <> l.
Proof.
  intros H. apply (f_equal (@List.length A)) in H.
  rewrite length_app in H. simpl in H. lia.
Qed.

End ResolverShape.

(** X6.  The resolver never raises and issues at most one request, to the
    page of the figure.  A URL it returns is absolute (it starts with
    [http]), is left unchanged by [_normalize_url], and is direct-asset or a
    repository image; when nothing was requested the URL is direct-asset. *)
Theorem resolved_url_shape :
  forall (net : network) (fig_elem : element) (pmcid fig_id : string)
         (l : log),
  exists url l',
    _get_cdn_image_url net fig_elem pmcid fig_id l = (Ok url, l')
    /\ (l' = l \/ l' = (l ++ [figure_page pmcid fig_id])%list)
    /\ (url = ""
        \/ (startswith url "http" = true
            /\ _normalize_url url = url
            /\ classify url <> Unusable))
    /\ (l' = l -> classify url = DirectAsset).
Proof.
  intros net fig_elem pmcid fig_id l.
  assert (Hfetch :
    match inline_src fig_elem with
    | Some src => _is_cdn_url src = false
    | None => True
    end ->
    exists url l',
      _get_cdn_image_url net fig_elem pmcid fig_id l = (Ok url, l')
      /\ (l' = l \/ l' = (l ++ [figure_page pmcid fig_id])%list)
      /\ (url = ""
          \/ (startswith url "http" = true
              /\ _normalize_url url = url
              /\ classify url <> Unusable))
      /\ (l' = l -> classify url = DirectAsset)).
  { intros H. eexists _, _. split; [now apply get_cdn_image_url_fetches|].
    split; [now right|]. split.
    - destruct (page_scan_normalized net l pmcid fig_id)
        as [E | (src & Hne & E)]; [now left|].
      right. rewrite E. repeat split.
      + now apply normalize_url_http.
      + apply normalize_url_idem.
      + rewrite <- E. apply acceptable_classify.
        destruct (page_scan_acceptable net l pmcid fig_id) as [F|F];
          [|exact F].
        rewrite E in F. pose proof (normalize_url_http src Hne) as Hh.
        rewrite F in Hh. discriminate.
    - intros E. now apply app_one_neq in E. }
  destruct (inline_src fig_elem) as [src|] eqn:Hsrc; [|now apply Hfetch].
  destruct (_is_cdn_url src) eqn:Hcdn; [|now apply Hfetch].
  assert (Hne : src <> "") by (intros ->; discriminate).
  exists (_normalize_url src), l.
  split; [now apply get_cdn_image_url_inline|].
  split; [now left|].
  assert (Hd : _is_cdn_url (_normalize_url src) = true)
    by now apply is_cdn_url_normalize.
  assert (Hc : classify (_normalize_url src) = DirectAsset)
    by (unfold classify; now rewrite Hd).
  split; [|intros _; exact Hc].
  right. repeat split.
  - now apply normalize_url_http.
  - apply normalize_url_idem.
  - rewrite Hc. discriminate.
Qed.

(** *** The records of an article, and its requests *)

Section RecordFacts.

Variable net : network.

Lemma figure_label_nonempty (fig_elem : element) (n : nat) :
  _extract_figure_label fig_elem n <> ""
  /\ strip (_extract_figure_label fig_elem n) = _extract_figure_label fig_elem n.
Proof.
  unfold _extract_figure_label.
  destruct (label_loop fig_elem label_selectors) as [text|] eqn:E.
  - destruct (label_loop_shape _ _ _ E) as (Hne & _ & Hs). now split.
  - split; [discriminate|].
    unfold strip. change (lstrip ("Figure " ++ str_of_nat n))
      with ("Figure " ++ str_of_nat n).
    apply rstrip_app_no_space;
      [apply str_of_nat_no_space | apply str_of_nat_nonempty].
Qed.

Lemma caption_trimmed (fig_elem : element) :
  strip (_extract_figure_caption fig_elem) = _extract_figure_caption fig_elem.
Proof.
  destruct (caption_shape fig_elem) as [-> | [t ->]]; [reflexivity|].
  apply strip_collapse_strip.
Qed.

Lemma fig_id_of_nonempty (fig_elem : element) (n : nat) :
  fig_id_of fig_elem n <> "".
Proof.
  unfold fig_id_of, or_default.
  destruct (get fig_elem "id") as [x|]; [|discriminate].
  destruct (truthy x) eqn:E; [now apply truthy_spec | discriminate].
Qed.

Lemma figure_page_split (pmcid fig_id : string) :
  figure_page pmcid fig_id = (paper_url pmcid ++ "figure/") ++ fig_id ++ "/".
Proof.
  unfold figure_page, paper_url. rewrite !append_assoc. reflexivity.
Qed.

Lemma figure_page_under_article (pmcid fig_id : string) :
  startswith (figure_page pmcid fig_id) (paper_url pmcid ++ "figure/") = true.
Proof.
  apply prefix_spec. exists (fig_id ++ "/"). apply figure_page_split.
Qed.

(** The resolver: one step, with what it returns and requests. *)
Lemma get_cdn_image_url_step
    (fig_elem : element) (pmcid fig_id : string) (l : log) :
  exists url l',
    _get_cdn_image_url net fig_elem pmcid fig_id l = (Ok url, l')
    /\ (l' = l \/ l' = (l ++ [figure_page pmcid fig_id])%list)
    /\ (url = ""
        \/ (startswith url "http" = true /\ acceptable url = true)).
Proof.
  assert (Hfetch :
    match inline_src fig_elem with
    | Some src => _is_cdn_url src = false
    | None => True
    end ->
    exists url l',
      _get_cdn_image_url net fig_elem pmcid fig_id l = (Ok url, l')
      /\ (l' = l \/ l' = (l ++ [figure_page pmcid fig_id])%list)
      /\ (url = ""
          \/ (startswith url "http" = true /\ acceptable url = true))).
  { intros H. eexists _, _. split; [now apply get_cdn_image_url_fetches|].
    split; [now right|].
    destruct (page_scan_normalized net l pmcid fig_id)
      as [E | (src & Hne & E)]; [now left|].
    right. split; [rewrite E; now apply normalize_url_http|].
    destruct (page_scan_acceptable net l pmcid fig_id) as [F|F]; [|exact F].
    rewrite E in F. pose proof (normalize_url_http src Hne) as Hh.
    rewrite F in Hh. discriminate. }
  destruct (inline_src fig_elem) as [src|] eqn:Hsrc; [|now apply Hfetch].
  destruct (_is_cdn_url src) eqn:Hcdn; [|now apply Hfetch].
  assert (Hne : src <> "") by (intros ->; discriminate).
  exists (_normalize_url src), l.
  split; [now apply get_cdn_image_url_inline|].
  split; [now left|]. right. split; [now apply normalize_url_http|].
  unfold acceptable. now rewrite is_cdn_url_normalize.
Qed.

(** One figure: never an exception, at most one request, and a record
    that is well formed and carries the id of its position. *)
Lemma extract_figure_info_step
    (fig_elem : element) (pmcid : string) (n : nat) (l : log) :
  exists out l',
    _extract_figure_info net fig_elem pmcid n l = (Ok out, l')
    /\ (l' = l
        \/ l' = (l ++ [figure_page pmcid (fig_id_of fig_elem n)])%list)
    /\ (forall r, out = Some r ->
                  well_formed r /\ figure_id r = fig_id_of fig_elem n).
Proof.
  destruct (get_cdn_image_url_step fig_elem pmcid (fig_id_of fig_elem n) l)
    as (url & l' & Hu & Hl & Hurl).
  eexists _, l'. split; [exact (extract_figure_info_run net _ _ _ _ _ _ Hu)|].
  split; [exact Hl|].
  intros r Hr.
  destruct (truthy (_extract_figure_caption fig_elem) || truthy url) eqn:E;
    [|discriminate].
  injection Hr as <-. split; [|reflexivity].
  destruct (figure_label_nonempty fig_elem n) as [Hlab Hstrip].
  unfold well_formed. simpl.
  split; [apply fig_id_of_nonempty|]. split; [exact Hlab|].
  split; [exact Hstrip|]. split; [apply caption_trimmed|].
  destruct Hurl as [-> | [Hh Ha]].
  - simpl. split; [reflexivity|]. split; [reflexivity|].
    left. rewrite orb_false_r in E. now apply truthy_spec.
  - assert (Ht : truthy url = true) by (destruct url; [discriminate | reflexivity]).
    rewrite Ht. split; [exact Hh|]. split; [reflexivity|].
    right. now apply acceptable_classify.
Qed.

(** The loop over the figures with the scraper's own extraction. *)
Lemma collect_concrete (pmcid : string) (figures : list element) :
  forall (i : nat) (l : log),
  exists pages,
    snd (collect (_extract_figure_info net) pmcid figures i l)
    = (l ++ pages)%list
    /\ List.length pages <= List.length figures
    /\ Forall (fun u => startswith u (paper_url pmcid ++ "figure/") = true)
              pages
    /\ List.length (fst (collect (_extract_figure_info net) pmcid figures i l))
       <= List.length figures
    /\ Forall well_formed
         (fst (collect (_extract_figure_info net) pmcid figures i l))
    /\ subseq
         (map figure_id
            (fst (collect (_extract_figure_info net) pmcid figures i l)))
         (ids_from figures i).
Proof.
  induction figures as [|fig_elem rest IH]; intros i l.
  - exists []. simpl. rewrite app_nil_r. repeat split; constructor.
  - destruct (extract_figure_info_step fig_elem pmcid i l)
      as (out & l1 & Hrun & Hl & Hout).
    destruct (IH (S i) l1) as (pages & Hlog & Hlen & Hpages & Hn & Hwf & Hsub).
    assert (Hl1 : exists first,
               l1 = (l ++ first)%list /\ List.length first <= 1
               /\ Forall (fun u => startswith u (paper_url pmcid ++ "figure/")
                                   = true) first).
    { destruct Hl as [-> | ->].
      - exists []. rewrite app_nil_r. repeat split; [simpl; lia | constructor].
      - eexists [_]. repeat split; [simpl; lia|].
        constructor; [apply figure_page_under_article | constructor]. }
    destruct Hl1 as (first & -> & Hflen & Hfirst).
    exists (first ++ pages)%list.
    simpl collect. rewrite Hrun.
    destruct out as [r|].
    + destruct (Hout r eq_refl) as [Hr Hid].
      destruct (collect (_extract_figure_info net) pmcid rest (S i)
                  (l ++ first)%list) as [rs l2].
      simpl in *. rewrite Hlog, <- app_assoc, length_app.
      repeat split; try lia.
      * now apply Forall_app.
      * now constructor.
      * rewrite Hid. now constructor.
    + simpl in *. rewrite Hlog, <- app_assoc, length_app.
      repeat split; try lia.
      * now apply Forall_app.
      * exact Hwf.
      * now constructor.
Qed.

(** [scrape_figures] in one step, with the scraper's own extraction. *)
Lemma scrape_figures_run (pmcid : string) (l : log) :
  scrape_figures net pmcid l
  = (Ok (fst (collect (_extract_figure_info net) (_normalize_pmcid pmcid)
                (located_on net l (_normalize_pmcid pmcid)) 1
                (l ++ [paper_url (_normalize_pmcid pmcid)])%list)),
     snd (collect (_extract_figure_info net) (_normalize_pmcid pmcid)
                (located_on net l (_normalize_pmcid pmcid)) 1
                (l ++ [paper_url (_normalize_pmcid pmcid)])%list)).
Proof.
  unfold scrape_figures. rewrite scrape_figures_with_run. unfold located_on.
  destruct (net l (paper_url (_normalize_pmcid pmcid))) as [r|e];
    [|reflexivity].
  now destruct (error_status (status_code r)).
Qed.

Lemma ids_from_all_ids (figures : list element) :
  Forall (fun e => has_id e <> None) figures ->
  forall i, ids_from figures i = flat_map id_list figures.
Proof.
  induction 1 as [|f fs Hf _ IH]; intros i; [reflexivity|].
  simpl. rewrite IH. unfold fig_id_of, id_list.
  rewrite or_default_has_id. destruct (has_id f); [reflexivity | congruence].
Qed.

End RecordFacts.

(** X7.  The requests of [scrape_figures]: first the article page, then at
    most one request per located figure, each to a figure page under the
    article's own URL; nothing else is requested, and no figure page at all
    when the article request fails or answers with an error status.  There
    are at most as many records as located figures. *)
Theorem scrape_figures_requests :
  forall (net : network) (pmcid : string) (l : log),
  exists recs pages,
    scrape_figures net pmcid l
    = (Ok recs, (l ++ paper_url (_normalize_pmcid pmcid) :: pages)%list)
    /\ Forall
         (fun u =>
            startswith u (paper_url (_normalize_pmcid pmcid) ++ "figure/")
            = true)
         pages
    /\ List.length pages
       <= List.length (located_on net l (_normalize_pmcid pmcid))
    /\ List.length recs
       <= List.length (located_on net l (_normalize_pmcid pmcid)).
Proof.
  intros net pmcid l. rewrite scrape_figures_run.
  destruct (collect_concrete net (_normalize_pmcid pmcid)
              (located_on net l (_normalize_pmcid pmcid)) 1
              (l ++ [paper_url (_normalize_pmcid pmcid)])%list)
    as (pages & Hlog & Hlen & Hpages & Hn & _ & _).
  eexists _, pages. split.
  - rewrite Hlog, <- app_assoc. reflexivity.
  - now repeat split.
Qed.

(** X8.  Every record [scrape_figures] returns is well formed: its figure
    id and its label are not empty, label and caption carry no white space
    at their ends, its two links are equal and start with [http], and it
    has a caption or a link that is direct-asset or a repository image. *)
Theorem scraped_records_well_formed :
  forall (net : network) (pmcid : string) (l : log),
    Forall well_formed (records_of (scrape_figures net pmcid l)).
Proof.
  intros net pmcid l. unfold records_of. rewrite scrape_figures_run. simpl.
  destruct (collect_concrete net (_normalize_pmcid pmcid)
              (located_on net l (_normalize_pmcid pmcid)) 1
              (l ++ [paper_url (_normalize_pmcid pmcid)])%list)
    as (pages & _ & _ & _ & _ & Hwf & _).
  exact Hwf.
Qed.

(** X9.  The records come in the order of the located figures, each with
    the figure id of its element at its 1-based position ([id], or
    [figure_<position>] without one); when every located figure has an
    [id], the figure ids of the records are pairwise distinct. *)
Theorem scraped_ids_in_order :
  forall (net : network) (pmcid : string) (l : log),
    subseq (map figure_id (records_of (scrape_figures net pmcid l)))
           (ids_from (located_on net l (_normalize_pmcid pmcid)) 1)
    /\ (Forall (fun e => has_id e <> None)
               (located_on net l (_normalize_pmcid pmcid)) ->
        NoDup (map figure_id (records_of (scrape_figures net pmcid l)))).
Proof.
  intros net pmcid l. unfold records_of. rewrite scrape_figures_run. simpl.
  destruct (collect_concrete net (_normalize_pmcid pmcid)
              (located_on net l (_normalize_pmcid pmcid)) 1
              (l ++ [paper_url (_normalize_pmcid pmcid)])%list)
    as (pages & _ & _ & _ & _ & _ & Hsub).
  split; [exact Hsub|].
  intros Hall. apply (subseq_NoDup _ _ Hsub).
  rewrite ids_from_all_ids by exact Hall.
  unfold located_on.
  destruct (net l (paper_url (_normalize_pmcid pmcid))) as [r|e];
    [|constructor].
  destruct (error_status (status_code r)); [constructor|].
  destruct (find_figure_elements_inv (content r)) as (keys & _ & Hnd & Hk).
  now apply (keyed_ids_NoDup _ keys).
Qed.

(** *** The statistics and the direct-asset test *)

Section StatsFacts.



Lemma contains_trans (p q s : string) :
  contains p q = true -> contains q s = true -> contains p s = true.
Proof.
  rewrite !contains_spec. intros (a & b & ->) (c & d & ->).
  exists (c ++ a), (b ++ d). now rewrite !append_assoc.
Qed.

End StatsFacts.


(** X11.  The direct-asset test needs only the shorter path marker, since
    the longer one contains it: a URL passes exactly when it contains
    [ncbi.nlm.nih.gov/pmc/blobs/] and, in lower case, one of the image
    extensions.  A URL that passes names the repository host, so with one
    of the extensions [.jpg], [.jpeg], [.png] it also passes the
    repository-image test of the scan. *)
Theorem is_cdn_url_single_marker :
  forall url : string,
    _is_cdn_url url
    = contains "ncbi.nlm.nih.gov/pmc/blobs/" url
      && any_in image_extensions (lower url)
    /\ (_is_cdn_url url = true -> contains "ncbi.nlm.nih.gov" url = true)
    /\ (_is_cdn_url url = true ->
        any_in [".jpg"; ".jpeg"; ".png"] (lower url) = true ->
        is_ncbi_image url = true).
Proof.
  intros url.
  assert (H1 : _is_cdn_url url
               = contains "ncbi.nlm.nih.gov/pmc/blobs/" url
                 && any_in image_extensions (lower url)).
  { unfold _is_cdn_url. destruct url as [|c t]; [reflexivity|].
    cbn [truthy negb]. f_equal.
    unfold any_in, cdn_patterns. cbn [existsb]. rewrite orb_false_r.
    destruct (contains "cdn.ncbi.nlm.nih.gov/pmc/blobs/" (String c t)) eqn:E;
      [|reflexivity].
    symmetry. cbn [orb].
    apply (contains_trans _ "cdn.ncbi.nlm.nih.gov/pmc/blobs/"); [reflexivity|].
    exact E. }
  assert (H2 : _is_cdn_url url = true -> contains "ncbi.nlm.nih.gov" url = true).
  { rewrite H1. intros H. apply andb_true_iff in H as [H _].
    apply (contains_trans _ "ncbi.nlm.nih.gov/pmc/blobs/"); [reflexivity|].
    exact H. }
  repeat split; auto.
  intros Hc He. unfold is_ncbi_image. now rewrite (H2 Hc), He.
Qed.

(* ===================================================================== *)
(** ** The rows of the pipeline *)
(* ===================================================================== *)

Section DictFacts.

Import PyDict.

Lemma lookup_assign_eq (k : string) (v : value) (d : dict) :
  lookup k (assign k v d) = Some v.
Proof.
  induction d as [|[k' v'] d IH]; simpl.
  - now rewrite String.eqb_refl.
  - destruct (k' =? k) eqn:E; simpl; rewrite E; [reflexivity | exact IH].
Qed.

Lemma lookup_assign_neq (k k' : string) (v : value) (d : dict) :
  k <> k' -> lookup k (assign k' v d) = lookup k d.
Proof.
  intros Hne. induction d as [|[k0 v0] d IH]; simpl.
  - destruct (String.eqb_spec k' k); [congruence | reflexivity].
  - destruct (String.eqb_spec k0 k') as [->|Hk]; simpl.
    + destruct (String.eqb_spec k' k); [congruence | reflexivity].
    + destruct (k0 =? k); [reflexivity | exact IH].
Qed.

(** Updating leaves alone the keys the other dictionary does not have. *)
Lemma lookup_update_absent (k : string) (other : dict) :
  lookup k other = None ->
  forall d, lookup k (update d other) = lookup k d.
Proof.
  unfold update. induction other as [|[k' v'] other IH]; intros H d;
    [reflexivity|].
  simpl in H. destruct (String.eqb_spec k' k) as [->|Hk]; [discriminate|].
  simpl. rewrite (IH H). apply lookup_assign_neq. congruence.
Qed.

End DictFacts.

Section RowFacts.

Import PyDict Pipeline Utils RowShape.

Variable net : network.
Variable mcq_gen : option mcq_generator.

Lemma rows_from_length (srcs : list source) :
  forall built, List.length (rows_from mcq_gen built srcs) = List.length srcs.
Proof.
  induction srcs as [|[[p k] f] srcs IH]; intros built; simpl;
    [reflexivity | now rewrite IH].
Qed.

Lemma rows_from_app (s1 s2 : list source) :
  forall built,
    rows_from mcq_gen built (s1 ++ s2)
    = (rows_from mcq_gen built s1
       ++ rows_from mcq_gen (built + List.length s1) s2)%list.
Proof.
  induction s1 as [|[[p k] f] s1 IH]; intros built; simpl.
  - now rewrite Nat.add_0_r.
  - rewrite IH. do 3 f_equal. lia.
Qed.

(** The inner loop with its accumulator is [rows_from] on the numbered
    figures. *)
Lemma figures_loop_rows (paper : Paper) (figures : list FigureRecord) :
  forall fig_num figure_data,
    figures_loop mcq_gen paper figures fig_num figure_data
    = (figure_data
       ++ rows_from mcq_gen (List.length figure_data)
            (number_from paper fig_num figures))%list.
Proof.
  induction figures as [|f figures IH]; intros fig_num figure_data; simpl.
  - now rewrite app_nil_r.
  - rewrite IH, <- app_assoc, length_app. simpl.
    do 3 f_equal. lia.
Qed.

(** The outer loop never raises and is [rows_from] on [sources]. *)
Lemma papers_loop_rows (case_reports : list Paper) :
  forall figure_data l,
    papers_loop net mcq_gen case_reports figure_data l
    = (Ok (figure_data
           ++ rows_from mcq_gen (List.length figure_data)
                (fst (sources net case_reports l)))%list,
       snd (sources net case_reports l)).
Proof.
  induction case_reports as [|paper rest IH]; intros figure_data l.
  - simpl. unfold ret. now rewrite app_nil_r.
  - simpl papers_loop. unfold bind. simpl sources.
    rewrite scrape_figures_run.
    set (figures := fst (collect _ _ _ _ _)).
    set (l1 := snd (collect _ _ _ _ _)).
    rewrite IH, figures_loop_rows.
    destruct (sources net rest l1) as [more l2]. simpl.
    rewrite rows_from_app, <- app_assoc, length_app, rows_from_length.
    reflexivity.
Qed.

Lemma number_from_length (paper : Paper) (figures : list FigureRecord) :
  forall k, List.length (number_from paper k figures) = List.length figures.
Proof.
  induction figures as [|f fs IH]; intros k; simpl; [reflexivity|].
  now rewrite IH.
Qed.

(** Every source is a record of [scrape_figures], hence well formed. *)
Lemma sources_well_formed (case_reports : list Paper) :
  forall l,
    Forall (fun src : source => well_formed (snd src))
           (fst (sources net case_reports l)).
Proof.
  induction case_reports as [|paper rest IH]; intros l; simpl; [constructor|].
  rewrite scrape_figures_run.
  pose proof (collect_concrete net (_normalize_pmcid (p_pmcid paper))
                (located_on net l (_normalize_pmcid (p_pmcid paper))) 1
                (l ++ [paper_url (_normalize_pmcid (p_pmcid paper))])%list)
    as (pages & _ & _ & _ & _ & Hwf & _).
  set (figures := fst (collect _ _ _ _ _)) in *.
  set (l1 := snd (collect _ _ _ _ _)).
  specialize (IH l1). destruct (sources net rest l1) as [more l2]. simpl in *.
  apply Forall_app. split; [|exact IH].
  clear -Hwf. generalize 1.
  induction Hwf as [|f fs Hf _ IHf]; intros k; simpl; constructor; auto.
Qed.

(** [processed_row] spelled out. *)
Lemma process_row_eq (row : dict) :
  process_row row
  = [ ("pmcid", get_default "pmcid" (VStr "") row);
      ("title", get_default "title" (VStr "") row);
      ("journal", get_default "journal" (VStr "") row);
      ("abstract", get_default "abstract" (VStr "") row);
      ("Figure",
       get_default "figure_label"
         (VStr ("Figure "
                ++ str_of_value (get_default "figure_number" (VInt 1) row)))
         row);
      ("link to paper", get_default "paper_link" (VStr "") row);
      ("link to figure", get_default "figure_link" (VStr "") row);
      ("caption", get_default "caption" (VStr "") row);
      ("MCQ", get_default "mcq_question" (VStr "") row);
      ("optionA", get_default "option_a" (VStr "") row);
      ("optionB", get_default "option_b" (VStr "") row);
      ("optionC", get_default "option_c" (VStr "") row);
      ("optionD", get_default "option_d" (VStr "") row);
      ("optionE", get_default "option_e" (VStr "") row);
      ("answer", get_default "answer" (VStr "") row);
      ("commentary", get_default "commentary" (VStr "") row);
      ("subject", get_default "subject" (VStr "") row);
      ("hashtags", get_default "hashtags" (VStr "") row);
      ("difficulty_level", get_default "difficulty_level" (VStr "") row) ].
Proof. reflexivity. Qed.

Lemma combine_lookup_base
    (built : nat) (paper : Paper) (fig_num : nat) (figure : FigureRecord)
    (k : string) :
  keeps_base_keys mcq_gen ->
  In k base_keys ->
  lookup k (combine mcq_gen built paper fig_num figure)
  = lookup k (base_row paper fig_num figure).
Proof.
  intros Hgen Hk.
  assert (Hempty : lookup k empty_mcq_fields = None).
  { simpl in Hk.
    repeat (destruct Hk as [<-|Hk]; [reflexivity|]). destruct Hk. }
  unfold combine. destruct mcq_gen as [gen|].
  - destruct (truthy (caption figure)).
    + apply lookup_update_absent. now apply Hgen.
    + now apply lookup_update_absent.
  - now apply lookup_update_absent.
Qed.

Lemma combine_shows
    (built : nat) (paper : Paper) (fig_num : nat) (figure : FigureRecord) :
  keeps_base_keys mcq_gen ->
  row_shows (paper, fig_num, figure)
            (combine mcq_gen built paper fig_num figure).
Proof.
  intros Hgen. unfold row_shows. rewrite process_row_eq.
  cbn [lookup String.eqb Ascii.eqb Bool.eqb].
  unfold get_default.
  rewrite !combine_lookup_base by (exact Hgen || (simpl; tauto)).
  repeat split.
Qed.

End RowFacts.

(** X12.  Step 2 of main.py never raises and builds one row per record, in
    the order of the papers and, within a paper, of its records: the rows
    of a paper are numbered from 1, and the papers after it are scraped
    with the requests made so far. *)
Theorem collect_figure_data_rows :
  forall (net : network) (mcq_gen : option Pipeline.mcq_generator)
         (case_reports : list Pipeline.Paper) (l : log),
    Pipeline.collect_figure_data net mcq_gen case_reports l
    = (Ok (RowShape.rows_from mcq_gen 0
             (fst (RowShape.sources net case_reports l))),
       snd (RowShape.sources net case_reports l))
    /\ List.length
         (RowShape.rows_of
            (Pipeline.collect_figure_data net mcq_gen case_reports l))
       = List.length (fst (RowShape.sources net case_reports l))
    /\ (forall paper rest,
           case_reports = paper :: rest ->
           fst (RowShape.sources net case_reports l)
           = (RowShape.number_from paper 1
                (records_of (scrape_figures net (Pipeline.p_pmcid paper) l))
              ++ fst (RowShape.sources net rest
                        (snd (scrape_figures net (Pipeline.p_pmcid paper) l))))%list).
Proof.
  intros net mcq_gen case_reports l.
  assert (H : Pipeline.collect_figure_data net mcq_gen case_reports l
              = (Ok (RowShape.rows_from mcq_gen 0
                       (fst (RowShape.sources net case_reports l))),
                 snd (RowShape.sources net case_reports l))).
  { unfold Pipeline.collect_figure_data. now rewrite papers_loop_rows. }
  split; [exact H|]. split.
  - rewrite H. unfold RowShape.rows_of. simpl. apply rows_from_length.
  - intros paper rest ->. simpl RowShape.sources. unfold records_of.
    rewrite scrape_figures_run. simpl.
    now destruct (RowShape.sources net rest _).
Qed.

(** X13.  The rows [save_results_csv] hands to the CSV writer: an empty
    list of figures is refused with [ValueError]; otherwise there is one
    processed row per figure, and the keys of a processed row are exactly
    the writer's field names, in order, whatever keys the row has.  The
    [image_url] of a row is not written, and the [Figure] column is the
    figure label, or [Figure <figure_number>] without one, or [Figure 1]
    without either. *)
Theorem processed_rows_match_fieldnames :
  (forall row,
      PyDict.keys (Utils.process_row row) = Utils.fieldnames
      /\ PyDict.lookup "image_url" (Utils.process_row row) = None
      /\ PyDict.lookup "Figure" (Utils.process_row row)
         = Some
             match PyDict.lookup "figure_label" row with
             | Some v => v
             | None =>
                 PyDict.VStr
                   ("Figure "
                    ++ PyDict.str_of_value
                         match PyDict.lookup "figure_number" row with
                         | Some n => n
                         | None => PyDict.VInt 1
                         end)
             end)
  /\ Utils.save_results_csv [] = Utils.ValueError "No figure data to save"
  /\ (forall row rows,
         exists processed,
           Utils.save_results_csv (row :: rows) = Utils.Written processed
           /\ List.length processed = S (List.length rows)
           /\ Forall (fun pr => PyDict.keys pr = Utils.fieldnames) processed).
Proof.
  split; [|split; [reflexivity|]].
  - intros row. rewrite process_row_eq. repeat split.
  - intros row rows. eexists. split; [reflexivity|]. split.
    + simpl. now rewrite length_map.
    + apply Forall_forall. intros pr Hin.
      change (In pr (map Utils.process_row (row :: rows))) in Hin.
      apply in_map_iff in Hin as (r & <- & _). now rewrite process_row_eq.
Qed.

(** X14.  From the page to the CSV row.  When the MCQ generator leaves the
    paper and figure fields alone (or is switched off), every processed row
    shows its source: the paper's id and link, and the record's label,
    figure link and caption; so its [link to figure] starts with [http] and
    its [Figure] is not empty. *)
Theorem csv_rows_show_sources
    (net : network) (mcq_gen : option Pipeline.mcq_generator)
    (case_reports : list Pipeline.Paper) (l : log) :
  RowShape.keeps_base_keys mcq_gen ->
  Forall2 RowShape.row_shows
    (fst (RowShape.sources net case_reports l))
    (RowShape.rows_of (Pipeline.collect_figure_data net mcq_gen case_reports l))
  /\ Forall
       (fun row =>
          exists url lab,
            PyDict.lookup "link to figure" (Utils.process_row row)
            = Some (PyDict.VStr url)
            /\ startswith url "http" = true
            /\ PyDict.lookup "Figure" (Utils.process_row row)
               = Some (PyDict.VStr lab)
            /\ lab <> "")
       (RowShape.rows_of
          (Pipeline.collect_figure_data net mcq_gen case_reports l)).
Proof.
  intros Hgen.
  unfold Pipeline.collect_figure_data, RowShape.rows_of.
  rewrite papers_loop_rows. simpl.
  pose proof (sources_well_formed net case_reports l) as Hwf.
  revert Hwf. generalize (fst (RowShape.sources net case_reports l)).
  intros srcs Hwf. generalize 0.
  induction Hwf as [|[[p k] f] srcs Hf _ IH]; intros built; simpl.
  - split; constructor.
  - destruct (IH (S built)) as [H2 HF].
    pose proof (combine_shows mcq_gen built p k f Hgen) as Hs.
    split; constructor; auto.
    destruct Hs as (_ & _ & Hlab & Hlink & _).
    destruct Hf as (_ & Hne & _ & _ & Hh & Hfu & _). simpl in *.
    exists (figure_url f), (label f). rewrite Hfu. repeat split; auto.
    now rewrite <- Hfu.
Qed.

(** [csv_rows_show_sources] at one paper with two figures and a generator
    that skips every figure. *)
Lemma csv_rows_show_sources_witness :
  Forall2 RowShape.row_shows
    (fst (RowShape.sources (net_article "PMC1" 200 article_two_figures)
            [RowShape.paper_one] []))
    (RowShape.rows_of
       (Pipeline.collect_figure_data
          (net_article "PMC1" 200 article_two_figures)
          (Some RowShape.skipping_generator) [RowShape.paper_one] []))
  /\ Forall
       (fun row =>
          exists url lab,
            PyDict.lookup "link to figure" (Utils.process_row row)
            = Some (PyDict.VStr url)
            /\ startswith url "http" = true
            /\ PyDict.lookup "Figure" (Utils.process_row row)
               = Some (PyDict.VStr lab)
            /\ lab <> "")
       (RowShape.rows_of
          (Pipeline.collect_figure_data
             (net_article "PMC1" 200 article_two_figures)
             (Some RowShape.skipping_generator) [RowShape.paper_one] [])).
Proof.
  apply (csv_rows_show_sources
           (net_article "PMC1" 200 article_two_figures)
           (Some RowShape.skipping_generator) [RowShape.paper_one] []).
  intros built abstract caption title k Hk. simpl in Hk.
  repeat (destruct Hk as [<-|Hk]; [reflexivity|]). destruct Hk.
Defined.

(* ===================================================================== *)
(** ** [clean_text] *)
(* ===================================================================== *)

Section CleanTextFacts.

Import Utils.

Lemma collapse_in_run_lstrip (s : string) :
  collapse_from true s = collapse_from false (lstrip s).
Proof.
  induction s as [|c t IH]; [reflexivity|].
  simpl. destruct (is_space c) eqn:E; [exact IH|].
  simpl. now rewrite E.
Qed.

Lemma lstrip_all_space (s : string) : all_space s = true -> lstrip s = "".
Proof. unfold all_space. now destruct (lstrip s). Qed.

Lemma lstrip_rstrip_comm (s : string) : lstrip (rstrip s) = rstrip (lstrip s).
Proof.
  induction s as [|c t IH]; [reflexivity|].
  rewrite rstrip_cons. destruct (all_space (String c t)) eqn:Ea.
  - now rewrite (lstrip_all_space _ Ea).
  - destruct (is_space c) eqn:E.
    + simpl lstrip. now rewrite E.
    + rewrite !lstrip_nonspace by exact E.
      now rewrite rstrip_cons, Ea.
Qed.

Lemma split_from_all_space (s : string) :
  all_space s = true -> split_from "" s = [].
Proof.
  induction s as [|c t IH]; [reflexivity|].
  rewrite all_space_cons. simpl. destruct (is_space c); [exact IH | discriminate].
Qed.

Lemma split_from_nonempty (s : string) :
  forall w, w <> "" \/ all_space s = false -> split_from w s <> [].
Proof.
  induction s as [|c t IH]; intros w H; simpl.
  - destruct H as [H|H]; [|discriminate].
    destruct w; [congruence | discriminate].
  - rewrite all_space_cons in H. destruct (is_space c).
    + destruct (truthy w) eqn:Ew; [discriminate|].
      apply IH. right. destruct H as [H|H]; [|exact H].
      destruct w; [congruence | discriminate].
    + apply IH. left. now destruct w.
Qed.

Lemma join_cons (w : string) (rest : list string) :
  rest <> [] -> join " " (w :: rest) = w ++ " " ++ join " " rest.
Proof. destruct rest; [congruence | reflexivity]. Qed.

(** Splitting on white space and joining with single spaces is trimming
    and collapsing. *)
Lemma join_split_from (s : string) :
  (forall w, w <> "" ->
             join " " (split_from w s) = w ++ collapse_from false (rstrip s))
  /\ join " " (split_from "" s) = collapse_from false (rstrip (lstrip s)).
Proof.
  induction s as [|c t [IH1 IH2]].
  - split; [|reflexivity].
    intros w Hw. simpl. destruct w; [congruence|].
    simpl. now rewrite append_nil_r.
  - split.
    + intros w Hw. simpl split_from. destruct (is_space c) eqn:E.
      * assert (Ht : truthy w = true) by (destruct w; [congruence | reflexivity]).
        rewrite Ht, rstrip_cons, all_space_cons, E.
        destruct (all_space t) eqn:Ea.
        -- rewrite split_from_all_space by exact Ea. simpl.
           now rewrite append_nil_r.
        -- rewrite join_cons
             by (apply split_from_nonempty; now right).
           rewrite IH2. simpl collapse_from. rewrite E.
           now rewrite collapse_in_run_lstrip, lstrip_rstrip_comm.
      * rewrite IH1 by (now destruct w).
        rewrite rstrip_cons_nonspace by exact E.
        simpl collapse_from. rewrite E. now rewrite append_assoc.
    + simpl split_from. destruct (is_space c) eqn:E.
      * simpl. rewrite E. exact IH2.
      * rewrite lstrip_nonspace by exact E.
        rewrite rstrip_cons_nonspace by exact E.
        simpl append. rewrite IH1 by discriminate.
        simpl. now rewrite E.
Qed.

Lemma join_split (s : string) : join " " (split s) = collapse_ws (strip s).
Proof. apply join_split_from. Qed.

(** A text whose only white space is the space has no other white-space
    character to replace. *)
Lemma replace_char_single_spaced (old : ascii) (new s : string) :
  is_space old = true -> old <> " "%char ->
  single_spaced s = true -> replace_char old new s = s.
Proof.
  intros Hs Hne. induction s as [|c t IH]; [reflexivity|].
  intros H. simpl in H.
  apply andb_true_iff in H as [H Ht].
  apply andb_true_iff in H as [Hc _].
  simpl. destruct (Ascii.eqb_spec c old) as [->|Hco].
  - rewrite Hs in Hc. simpl in Hc. apply Ascii.eqb_eq in Hc. congruence.
  - now rewrite IH.
Qed.

Lemma take_length (n : nat) (s : string) :
  String.length (take n s) = Nat.min n (String.length s).
Proof.
  revert s. induction n as [|n IH]; intros [|c t]; simpl; auto.
Qed.

Lemma take_all (n : nat) (s : string) :
  String.length s <= n -> take n s = s.
Proof.
  revert s. induction n as [|n IH]; intros [|c t] H; simpl in *;
    try reflexivity; try lia.
  rewrite IH by lia. reflexivity.
Qed.

Lemma append_length (a b : string) :
  String.length (a ++ b) = String.length a + String.length b.
Proof. induction a as [|c a IH]; simpl; [reflexivity | now rewrite IH]. Qed.

(** [clean_text] before the truncation. *)
Lemma clean_text_cases (text : string) (max_length : option Z) :
  clean_text text max_length
  = if negb (truthy text) then ""
    else
      match max_length with
      | Some m =>
          if negb (m =? 0)%Z
             && (m <? Z.of_nat (String.length (collapse_ws (strip text))))%Z
          then slice_to (m - 3) (collapse_ws (strip text)) ++ "..."
          else collapse_ws (strip text)
      | None => collapse_ws (strip text)
      end.
Proof.
  unfold clean_text. destruct text as [|c t]; [reflexivity|].
  cbn [truthy negb]. rewrite join_split.
  assert (H : single_spaced (collapse_ws (strip (String c t))) = true)
    by apply single_spaced_collapse.
  rewrite (replace_char_single_spaced "010"%char " " _ eq_refl
             ltac:(discriminate) H).
  rewrite (replace_char_single_spaced "013"%char " " _ eq_refl
             ltac:(discriminate) H).
  rewrite (replace_char_single_spaced "009"%char " " _ eq_refl
             ltac:(discriminate) H).
  reflexivity.
Qed.

End CleanTextFacts.

(** X15.  [clean_text] trims the text and collapses every run of white
    space to one space, exactly as the caption extraction does, so its three
    replacements change nothing.  A text that fits in [max_length] is
    returned whole; a longer one, for a [max_length] of at least 3, is cut
    to its first [max_length - 3] characters followed by [...], so the
    result is never longer than [max_length]. *)
Theorem clean_text_spec :
  forall text : string,
    Utils.clean_text text None = collapse_ws (strip text)
    /\ Utils.join " " (Utils.split text) = collapse_ws (strip text)
    /\ (forall m : Z,
           (Z.of_nat (String.length (collapse_ws (strip text))) <= m)%Z ->
           Utils.clean_text text (Some m) = collapse_ws (strip text))
    /\ (forall m : Z,
           (3 <= m < Z.of_nat (String.length (collapse_ws (strip text))))%Z ->
           Utils.clean_text text (Some m)
           = Utils.take (Z.to_nat (m - 3)) (collapse_ws (strip text)) ++ "...")
    /\ (forall m : Z,
           (3 <= m)%Z ->
           (Z.of_nat (String.length (Utils.clean_text text (Some m))) <= m)%Z).
Proof.
  intros text.
  assert (Hfit : forall m : Z,
    (Z.of_nat (String.length (collapse_ws (strip text))) <= m)%Z ->
    Utils.clean_text text (Some m) = collapse_ws (strip text)).
  { intros m Hm. rewrite clean_text_cases.
    destruct text as [|c t]; [reflexivity|]. cbn [truthy negb].
    destruct (m <? Z.of_nat (String.length (collapse_ws (strip (String c t)))))%Z
      eqn:E; [apply Z.ltb_lt in E; lia|].
    now rewrite andb_false_r. }
  assert (Hcut : forall m : Z,
    (3 <= m < Z.of_nat (String.length (collapse_ws (strip text))))%Z ->
    Utils.clean_text text (Some m)
    = Utils.take (Z.to_nat (m - 3)) (collapse_ws (strip text)) ++ "...").
  { intros m [H3 Hm]. rewrite clean_text_cases.
    destruct text as [|c t]; [simpl in Hm; lia|]. cbn [truthy negb].
    set (text := String c t) in *.
    assert (E1 : (m =? 0)%Z = false) by (apply Z.eqb_neq; lia).
    assert (E2 : (m <? Z.of_nat (String.length (collapse_ws (strip text))))%Z
                 = true) by (apply Z.ltb_lt; lia).
    rewrite E1, E2. simpl. unfold Utils.slice_to.
    assert (E3 : (m - 3 <? 0)%Z = false) by (apply Z.ltb_ge; lia).
    now rewrite E3. }
  split; [rewrite clean_text_cases; now destruct text|].
  split; [apply join_split|].
  split; [exact Hfit|]. split; [exact Hcut|].
  intros m H3.
  destruct (Z_lt_le_dec m (Z.of_nat (String.length (collapse_ws (strip text)))))
    as [Hlt|Hle].
  - rewrite Hcut by lia. rewrite append_length, take_length. simpl. lia.
  - rewrite Hfit by lia. lia.
Qed.

(* ===================================================================== *)
(** ** The MCQ generator *)
(* ===================================================================== *)

Section McqFacts.

Import PyDict MCQGenerator McqShape.

Lemma lookup_assign (k k' : string) (v : value) (d : dict) :
  lookup k (assign k' v d) = if k' =? k then Some v else lookup k d.
Proof.
  destruct (String.eqb_spec k' k) as [->|Hne].
  - apply lookup_assign_eq.
  - apply lookup_assign_neq. congruence.
Qed.

Lemma lookup_setdefault (k k' : string) (v : value) (d : dict) :
  lookup k (setdefault k' v d)
  = match lookup k d with
    | Some x => Some x
    | None => if k' =? k then Some v else None
    end.
Proof.
  unfold setdefault. destruct (lookup k' d) as [x|] eqn:E.
  - destruct (lookup k d) eqn:Ek; [reflexivity|].
    destruct (String.eqb_spec k' k); [congruence | reflexivity].
  - rewrite lookup_assign. destruct (String.eqb_spec k' k) as [->|Hne].
    + now rewrite E.
    + now destruct (lookup k d).
Qed.

Lemma lookup_fold_setdefault (fields : list string) (v : value) :
  forall (d : dict) (k : string),
    lookup k (fold_left (fun d f => setdefault f v d) fields d)
    = match lookup k d with
      | Some x => Some x
      | None => if existsb (fun f => f =? k) fields then Some v else None
      end.
Proof.
  induction fields as [|f fs IH]; intros d k; simpl.
  - now destruct (lookup k d).
  - rewrite IH, lookup_setdefault. destruct (lookup k d); [reflexivity|].
    now destruct (f =? k).
Qed.

Lemma lookup_set_defaults (mcq : dict) (k : string) :
  lookup k (set_defaults mcq)
  = match lookup k mcq with
    | Some x => Some x
    | None =>
        if existsb (fun f => f =? k) required_fields
        then Some (VStr "") else None
    end.
Proof. apply lookup_fold_setdefault. Qed.

Lemma required_spec (k : string) :
  existsb (fun f => f =? k) required_fields = true <-> In k required_fields.
Proof.
  rewrite existsb_exists. split.
  - intros (f & Hin & Heq). apply String.eqb_eq in Heq. now subst.
  - intros Hin. exists k. split; [exact Hin | apply String.eqb_refl].
Qed.

Lemma continues_refl (d : dict) : continues d d.
Proof. split; auto. Qed.

Lemma continues_trans (d1 d2 d3 : dict) :
  continues d1 d2 -> continues d2 d3 -> continues d1 d3.
Proof.
  intros [A1 B1] [A2 B2]. split.
  - auto.
  - intros k Hk. now rewrite B2, B1.
Qed.

Lemma continues_assign (k : string) (v : value) (d : dict) :
  In k required_fields -> continues d (assign k v d).
Proof.
  intros Hk. split; intros k' H; rewrite lookup_assign.
  - destruct (k =? k'); [discriminate | exact H].
  - destruct (String.eqb_spec k k'); [congruence | reflexivity].
Qed.

Lemma continues_set_defaults (mcq : dict) : continues mcq (set_defaults mcq).
Proof.
  split; intros k H; rewrite lookup_set_defaults.
  - destruct (lookup k mcq); [discriminate | congruence].
  - destruct (lookup k mcq); [reflexivity|].
    destruct (existsb (fun f => f =? k) required_fields) eqn:E;
      [|reflexivity].
    apply required_spec in E. contradiction.
Qed.

Lemma continues_if (b : bool) (k : string) (v : value) (d : dict) :
  In k required_fields -> continues d (if b then assign k v d else d).
Proof.
  intros Hk. destruct b; [now apply continues_assign | apply continues_refl].
Qed.

Lemma subject_for_truthy (c : string) : truthy (subject_for c) = true.
Proof. unfold subject_for. repeat (destruct (any_in _ c); [reflexivity|]). reflexivity. Qed.

Lemma difficulty_for_level (c : string) :
  In (difficulty_for c) difficulty_levels.
Proof.
  unfold difficulty_for, difficulty_levels.
  destruct (any_in _ c); [simpl; tauto|].
  destruct (any_in _ c); simpl; tauto.
Qed.

Lemma is_one_of_spec (v : value) (words : list string) :
  is_one_of v words = true <-> exists s, v = VStr s /\ In s words.
Proof.
  unfold is_one_of. destruct v as [| | |s|]; try (split; [discriminate|]);
    try (intros (s' & H & _); discriminate).
  rewrite existsb_exists. split.
  - intros (w & Hin & Heq). apply String.eqb_eq in Heq. subst. now exists w.
  - intros (s' & [= <-] & Hin). exists s. split; [exact Hin|].
    apply String.eqb_refl.
Qed.

Lemma lookup_if_assign (b : bool) (k k' : string) (v : value) (d : dict) :
  lookup k (if b then assign k' v d else d)
  = if b && (k' =? k) then Some v else lookup k d.
Proof. destruct b; [apply lookup_assign | reflexivity]. Qed.

(** [_enhance_based_on_content] on a dictionary that has the three fields
    it reads. *)
Lemma enhance_done
    (tags : string -> string) (mcq : dict) (caption : string)
    (subject difficulty hashtags : value) :
  lookup "subject" mcq = Some subject ->
  lookup "difficulty_level" mcq = Some difficulty ->
  lookup "hashtags" mcq = Some hashtags ->
  exists d,
    _enhance_based_on_content tags mcq caption = Done d
    /\ continues mcq d
    /\ lookup "answer" d = lookup "answer" mcq
    /\ (exists s, lookup "difficulty_level" d = Some (VStr s)
                  /\ In s difficulty_levels)
    /\ (exists v, lookup "subject" d = Some v /\ truth v = true)
    /\ (exists v, lookup "hashtags" d = Some v
                  /\ (truth v = true \/ v = VStr (tags caption))).
Proof.
  intros Hs Hd Hh. unfold _enhance_based_on_content, item. rewrite Hs.
  set (d1 := if negb (truth subject) then _ else mcq).
  assert (Hd1 : lookup "difficulty_level" d1 = Some difficulty).
  { unfold d1. rewrite lookup_if_assign. simpl. now rewrite andb_false_r. }
  rewrite Hd1.
  set (d2 := if negb (is_one_of difficulty difficulty_levels) then _ else d1).
  assert (Hd2 : lookup "hashtags" d2 = Some hashtags).
  { unfold d2, d1. rewrite !lookup_if_assign. simpl.
    now rewrite !andb_false_r. }
  rewrite Hd2. eexists. split; [reflexivity|].
  set (d3 := if negb (truth hashtags) then _ else d2).
  assert (C : continues mcq d3).
  { apply (continues_trans _ d1); [apply continues_if; simpl; tauto|].
    apply (continues_trans _ d2); apply continues_if; simpl; tauto. }
  split; [exact C|]. split.
  { unfold d3, d2, d1. rewrite !lookup_if_assign. simpl.
    now rewrite !andb_false_r. }
  split.
  { unfold d3. rewrite lookup_if_assign. simpl. rewrite andb_false_r.
    unfold d2. rewrite lookup_if_assign. simpl. rewrite andb_true_r.
    destruct (is_one_of difficulty difficulty_levels) eqn:E; simpl.
    - apply is_one_of_spec in E as (s & -> & Hin). exists s. now rewrite Hd1.
    - eexists. split; [reflexivity | apply difficulty_for_level]. }
  split.
  { unfold d3, d2. rewrite !lookup_if_assign. simpl. rewrite !andb_false_r.
    unfold d1. rewrite lookup_if_assign. simpl. rewrite andb_true_r.
    destruct (truth subject) eqn:E; simpl.
    - exists subject. now split.
    - eexists. split; [reflexivity | apply subject_for_truthy]. }
  unfold d3. rewrite lookup_if_assign. simpl. rewrite andb_true_r.
  destruct (truth hashtags) eqn:E; simpl.
  - exists hashtags. rewrite Hd2. split; [reflexivity | now left].
  - eexists. split; [reflexivity | now right].
Qed.

(** [_validate_mcq] once the answer is known to be a string. *)
Lemma validate_tail
    (tags : string -> string) (mcq : dict) (caption a : string) :
  (forall f, In f required_fields -> lookup f (set_defaults mcq) <> None) ->
  lookup "answer" (set_defaults mcq)
  = Some match lookup "answer" mcq with
         | Some v => v
         | None => VStr ""
         end ->
  match lookup "answer" mcq with Some v => v | None => VStr "" end = VStr a ->
  exists d,
    _enhance_based_on_content tags
      (if negb (existsb (String.eqb (upper a)) answer_letters)
       then assign "answer" (VStr "A") (set_defaults mcq)
       else set_defaults mcq) caption = Done d
    /\ continues mcq d
    /\ validated tags caption d
    /\ (forall a', lookup "answer" mcq = Some (VStr a') ->
                   In (upper a') answer_letters ->
                   lookup "answer" d = Some (VStr a')).
Proof.
  intros Hdef Hans Ha. rewrite Ha in Hans.
  set (d0 := set_defaults mcq) in *.
  set (d1 := if negb (existsb (String.eqb (upper a)) answer_letters)
             then assign "answer" (VStr "A") d0 else d0).
  assert (C01 : continues d0 d1) by (apply continues_if; simpl; tauto).
  assert (Hget : forall f, In f required_fields -> f <> "answer" ->
                           lookup f d1 = lookup f d0).
  { intros f _ Hne. unfold d1. rewrite lookup_if_assign.
    destruct (String.eqb_spec "answer" f); [congruence|].
    now rewrite andb_false_r. }
  destruct (lookup "subject" d0) as [sv|] eqn:Es;
    [|exfalso; apply (Hdef "subject"); [simpl; tauto | exact Es]].
  destruct (lookup "difficulty_level" d0) as [dv|] eqn:Ed;
    [|exfalso; apply (Hdef "difficulty_level"); [simpl; tauto | exact Ed]].
  destruct (lookup "hashtags" d0) as [hv|] eqn:Eh;
    [|exfalso; apply (Hdef "hashtags"); [simpl; tauto | exact Eh]].
  destruct (enhance_done tags d1 caption sv dv hv)
    as (d & Hrun & C & Hanswer & Hdl & Hsub & Hhash).
  { rewrite Hget; [exact Es | simpl; tauto | discriminate]. }
  { rewrite Hget; [exact Ed | simpl; tauto | discriminate]. }
  { rewrite Hget; [exact Eh | simpl; tauto | discriminate]. }
  exists d. split; [exact Hrun|].
  assert (C0 : continues d0 d) by now apply (continues_trans _ d1).
  split; [apply (continues_trans _ d0); [apply continues_set_defaults | exact C0]|].
  assert (Hd1 : lookup "answer" d1
                = Some (VStr (if existsb (String.eqb (upper a)) answer_letters
                              then a else "A"))).
  { unfold d1. rewrite lookup_if_assign.
    destruct (existsb (String.eqb (upper a)) answer_letters);
      [exact Hans | reflexivity]. }
  split.
  - split; [intros f Hf; apply (proj1 C0); now apply Hdef|].
    split; [|now repeat split].
    rewrite Hanswer, Hd1. eexists. split; [reflexivity|].
    destruct (existsb (String.eqb (upper a)) answer_letters) eqn:E.
    + apply existsb_exists in E as (w & Hin & Heq).
      apply String.eqb_eq in Heq. now rewrite Heq.
    + simpl. tauto.
  - intros a' Ha' Hin. rewrite Ha' in Ha. injection Ha as ->.
    rewrite Hanswer, Hd1.
    assert (E : existsb (String.eqb (upper a)) answer_letters = true).
    { apply existsb_exists. exists (upper a). split; [exact Hin|].
      apply String.eqb_refl. }
    now rewrite E.
Qed.

(** [_validate_mcq], case by case. *)
Lemma validate_mcq_cases
    (tags : string -> string) (mcq : dict) (caption : string) :
  (exists v, lookup "answer" mcq = Some v
             /\ (forall a, v <> VStr a)
             /\ _validate_mcq tags mcq caption = Failed AttributeError)
  \/ (exists d,
        _validate_mcq tags mcq caption = Done d
        /\ continues mcq d
        /\ validated tags caption d
        /\ (forall a, lookup "answer" mcq = Some (VStr a) ->
                      In (upper a) answer_letters ->
                      lookup "answer" d = Some (VStr a))).
Proof.
  unfold _validate_mcq.
  assert (Hdef : forall f, In f required_fields ->
                           lookup f (set_defaults mcq) <> None).
  { intros f Hf. rewrite lookup_set_defaults.
    destruct (lookup f mcq); [discriminate|].
    apply required_spec in Hf. rewrite Hf. discriminate. }
  assert (Hans : lookup "answer" (set_defaults mcq)
                 = Some match lookup "answer" mcq with
                        | Some v => v
                        | None => VStr ""
                        end).
  { rewrite lookup_set_defaults. now destruct (lookup "answer" mcq). }
  unfold get_default. rewrite Hans.
  destruct (lookup "answer" mcq) as [v|] eqn:Ev.
  - destruct v as [| b | z | a | t sh];
      try (left; eexists;
           split; [reflexivity | split; [intros ? ?; discriminate | reflexivity]]).
    right. pose proof (validate_tail tags mcq caption a Hdef) as T.
    rewrite Ev in T. apply T; [exact Hans | reflexivity].
  - right. pose proof (validate_tail tags mcq caption "" Hdef) as T.
    rewrite Ev in T. apply T; [exact Hans | reflexivity].
Qed.

End McqFacts.


Section GenerateFacts.

Import PyDict MCQGenerator McqShape.

Lemma empty_mcq_fields_present (reason f : string) :
  In f required_fields -> lookup f (_get_empty_mcq reason) <> None.
Proof.
  intros Hf. simpl in Hf.
  repeat (destruct Hf as [<-|Hf]; [discriminate|]). destruct Hf.
Qed.

Lemma empty_mcq_not_validated
    (tags : string -> string) (caption reason : string) :
  ~ validated tags caption (_get_empty_mcq reason).
Proof.
  intros (_ & (a & Ha & Hin) & _). simpl in Ha. injection Ha as <-.
  simpl in Hin. repeat (destruct Hin as [Hin|Hin]; [discriminate|]).
  destruct Hin.
Qed.

Lemma handle_empty (e : exc) : exists reason, handle e = _get_empty_mcq reason.
Proof. unfold handle. destruct (is_json_decode_error e); eauto. Qed.

(** [generate_mcq], case by case: the empty MCQ with a reason, or the
    validated answer of the model. *)
Lemma generate_mcq_cases
    (g : Generator) (call : nat) (abstract caption title : string) :
  (exists reason,
      generate_mcq g call abstract caption title = _get_empty_mcq reason)
  \/ (client g = true
      /\ caption <> ""
      /\ (min_caption_length g <= Z.of_nat (String.length caption))%Z
      /\ exists content m,
           llm g call abstract caption title = Replied content
           /\ json_loads g (extract_payload (strip content)) = DecodedDict m
           /\ _validate_mcq (_extract_medical_tags g) m caption
              = Done (generate_mcq g call abstract caption title)).
Proof.
  unfold generate_mcq.
  destruct (negb (client g) || negb (truthy caption)
            || (Z.of_nat (String.length caption) <? min_caption_length g)%Z)
    eqn:Eskip; [left; eauto|].
  apply orb_false_iff in Eskip as [Eskip El].
  apply orb_false_iff in Eskip as [Ec Et].
  apply negb_false_iff in Ec, Et.
  destruct (llm g call abstract caption title) as [content|e] eqn:Ellm;
    [|left; apply handle_empty].
  destruct (json_loads g (extract_payload (strip content))) as [e|m|] eqn:Ej;
    [left; apply handle_empty | | left; apply handle_empty].
  destruct (_validate_mcq (_extract_medical_tags g) m caption) as [d|e] eqn:Ev;
    [|left; apply handle_empty].
  right. split; [exact Ec|]. split; [intros ->; discriminate|].
  split; [apply Z.ltb_ge; exact El|].
  exists content, m. now repeat split.
Qed.

End GenerateFacts.

Section PayloadFacts.

Import MCQGenerator.

Lemma find_char_split (c : ascii) (s : string) :
  forall i, find_char c s = Some i ->
    exists pre post,
      s = pre ++ String c post
      /\ String.length pre = i /\ find_char c pre = None.
Proof.
  induction s as [|d t IH]; intros i H; simpl in H; [discriminate|].
  destruct (Ascii.eqb d c) eqn:E.
  - apply Ascii.eqb_eq in E as ->. injection H as <-.
    exists "", t. now repeat split.
  - destruct (find_char c t) as [k|] eqn:Ek; [|discriminate].
    simpl in H. injection H as <-.
    destruct (IH k eq_refl) as (pre & post & -> & Hl & Hn).
    exists (String d pre), post. simpl. rewrite E, Hn, Hl. now repeat split.
Qed.

Lemma rfind_char_split (c : ascii) (s : string) :
  forall j, rfind_char c s = Some j ->
    exists pre post,
      s = pre ++ String c post
      /\ String.length pre = j /\ rfind_char c post = None.
Proof.
  induction s as [|d t IH]; intros j H; simpl in H; [discriminate|].
  destruct (rfind_char c t) as [k|] eqn:Ek.
  - injection H as <-.
    destruct (IH k eq_refl) as (pre & post & -> & Hl & Hn).
    exists (String d pre), post. simpl. rewrite Hl. now repeat split.
  - destruct (Ascii.eqb d c) eqn:E; [|discriminate].
    apply Ascii.eqb_eq in E as ->. injection H as <-.
    exists "", t. now repeat split.
Qed.

Lemma rfind_char_app (c : ascii) (pre t : string) :
  rfind_char c (pre ++ t)
  = match rfind_char c t with
    | Some k => Some (String.length pre + k)
    | None => rfind_char c pre
    end.
Proof.
  induction pre as [|d pre IH]; simpl.
  - now destruct (rfind_char c t).
  - rewrite IH. now destruct (rfind_char c t).
Qed.

Lemma rfind_char_lt (c : ascii) (s : string) :
  forall j, rfind_char c s = Some j -> j < String.length s.
Proof.
  induction s as [|d t IH]; intros j H; simpl in H; [discriminate|].
  destruct (rfind_char c t) as [k|].
  - injection H as <-. specialize (IH k eq_refl). simpl. lia.
  - destruct (Ascii.eqb d c); [|discriminate]. injection H as <-. simpl. lia.
Qed.

Lemma find_char_app_le (c : ascii) (pre rest : string) :
  exists i, find_char c (pre ++ String c rest) = Some i
            /\ i <= String.length pre.
Proof.
  induction pre as [|d pre (i & Hi & Hle)]; simpl.
  - rewrite Ascii.eqb_refl. now exists 0.
  - destruct (Ascii.eqb d c).
    + exists 0. split; [reflexivity | lia].
    + rewrite Hi. exists (S i). split; [reflexivity | lia].
Qed.

Lemma rfind_char_head (c : ascii) (post : string) :
  exists k, rfind_char c (String c post) = Some k.
Proof.
  simpl. destruct (rfind_char c post); [eauto|].
  rewrite Ascii.eqb_refl. eauto.
Qed.

Lemma substring_prefix (mid post : string) :
  String.substring 0 (String.length mid) (mid ++ post) = mid.
Proof.
  induction mid as [|c mid IH]; simpl.
  - now destruct post.
  - now rewrite IH.
Qed.

Lemma substring_mid (pre mid post : string) :
  String.substring (String.length pre) (String.length mid)
    (pre ++ mid ++ post) = mid.
Proof.
  induction pre as [|c pre IH]; simpl.
  - apply substring_prefix.
  - exact IH.
Qed.

(** A text with an opening brace before a closing one: where [find] and
    [rfind] land. *)
Lemma braces_found (text pre body post : string) :
  text = pre ++ String "{" (body ++ String "}" post) ->
  exists i j,
    find_char "{" text = Some i /\ rfind_char "}" text = Some j /\ i < j.
Proof.
  intros ->.
  destruct (find_char_app_le "{" pre (body ++ String "}" post))
    as (i & Hi & Hle).
  destruct (rfind_char_head "}" post) as (k & Hk).
  exists i, (String.length (pre ++ String "{" body) + k). split; [exact Hi|].
  split.
  - replace (pre ++ String "{" (body ++ String "}" post))
      with ((pre ++ String "{" body) ++ String "}" post)
      by (now rewrite append_assoc).
    rewrite rfind_char_app, Hk. reflexivity.
  - rewrite append_length. simpl. lia.
Qed.

End PayloadFacts.

Section ComposeFacts.

Import PyDict MCQGenerator McqShape Pipeline Utils RowShape.








Lemma base_not_required (k : string) :
  In k base_keys -> ~ In k required_fields.
Proof.
  intros Hk Hr. simpl in Hk.
  repeat (destruct Hk as [<-|Hk];
          [simpl in Hr; repeat (destruct Hr as [Hr|Hr]; [discriminate|]);
           destruct Hr|]).
  destruct Hk.
Qed.

Lemma empty_mcq_no_base (reason k : string) :
  In k base_keys -> lookup k (_get_empty_mcq reason) = None.
Proof.
  intros Hk. simpl in Hk.
  repeat (destruct Hk as [<-|Hk]; [reflexivity|]). destruct Hk.
Qed.

End ComposeFacts.

(** X17.  [generate_mcq] always returns a dictionary that has the eleven
    MCQ fields.  It is either the empty MCQ of [_get_empty_mcq] with a
    reason in [mcq_question], or a validated MCQ that continues the JSON
    object the model answered with; the two never coincide, since the empty
    MCQ has no valid answer.  Without a client, with an empty caption or
    with one shorter than the configured minimum it is the empty MCQ with
    the reason "MCQ generation skipped". *)
Theorem generate_mcq_shape :
  forall (g : MCQGenerator.Generator) (call : nat)
         (abstract caption title : string),
    (forall f, In f MCQGenerator.required_fields ->
               PyDict.lookup f
                 (MCQGenerator.generate_mcq g call abstract caption title)
               <> None)
    /\ ((exists reason,
            MCQGenerator.generate_mcq g call abstract caption title
            = MCQGenerator._get_empty_mcq reason)
        \/ (McqShape.validated (MCQGenerator._extract_medical_tags g) caption
              (MCQGenerator.generate_mcq g call abstract caption title)
            /\ exists content m,
                 MCQGenerator.llm g call abstract caption title
                 = MCQGenerator.Replied content
                 /\ MCQGenerator.json_loads g
                      (MCQGenerator.extract_payload (strip content))
                    = MCQGenerator.DecodedDict m
                 /\ McqShape.continues m
                      (MCQGenerator.generate_mcq g call abstract caption
                         title)))
    /\ (forall reason,
           ~ McqShape.validated (MCQGenerator._extract_medical_tags g) caption
               (MCQGenerator._get_empty_mcq reason))
    /\ (MCQGenerator.client g = false \/ caption = ""
        \/ (Z.of_nat (String.length caption)
            < MCQGenerator.min_caption_length g)%Z ->
        MCQGenerator.generate_mcq g call abstract caption title
        = MCQGenerator._get_empty_mcq "MCQ generation skipped").
Proof.
  intros g call abstract caption title.
  assert (Hcases := generate_mcq_cases g call abstract caption title).
  assert (Hval :
            (exists reason,
                MCQGenerator.generate_mcq g call abstract caption title
                = MCQGenerator._get_empty_mcq reason)
            \/ (McqShape.validated (MCQGenerator._extract_medical_tags g)
                  caption
                  (MCQGenerator.generate_mcq g call abstract caption title)
                /\ exists content m,
                     MCQGenerator.llm g call abstract caption title
                     = MCQGenerator.Replied content
                     /\ MCQGenerator.json_loads g
                          (MCQGenerator.extract_payload (strip content))
                        = MCQGenerator.DecodedDict m
                     /\ McqShape.continues m
                          (MCQGenerator.generate_mcq g call abstract caption
                             title))).
  { destruct Hcases as [He | (_ & _ & _ & content & m & Hl & Hj & Hv)];
      [now left|right].
    destruct (validate_mcq_cases (MCQGenerator._extract_medical_tags g) m
                caption) as [(v & _ & _ & Hf) | (d & Hd & C & V & _)];
      [congruence|].
    rewrite Hv in Hd. injection Hd as <-.
    split; [exact V|]. now exists content, m. }
  split; [|split; [exact Hval|split]].
  - intros f Hf. destruct Hval as [(reason & ->) | ((Hreq & _) & _)].
    + now apply empty_mcq_fields_present.
    + now apply Hreq.
  - intros reason. apply empty_mcq_not_validated.
  - intros Hskip. unfold MCQGenerator.generate_mcq.
    destruct Hskip as [-> | [-> | Hlt]]; [reflexivity | |].
    + simpl. now rewrite orb_true_r.
    + apply Z.ltb_lt in Hlt. rewrite Hlt. now rewrite orb_true_r.
Qed.

(** X18.  The payload [generate_mcq] hands to the JSON decoder.  When the
    answer of the model has an opening brace somewhere before a closing
    one, the payload runs from the first opening brace of the answer to its
    last closing brace, both included.  In every other case, also when the
    only closing braces come before the first opening one, the payload is
    the whole answer. *)
Theorem extract_payload_spec :
  forall text : string,
    (exists pre body post,
        text = pre ++ String "{" (body ++ String "}" post)
        /\ MCQGenerator.find_char "{" pre = None
        /\ MCQGenerator.rfind_char "}" post = None
        /\ MCQGenerator.extract_payload text = String "{" (body ++ "}"))
    \/ ((forall pre body post,
            text <> pre ++ String "{" (body ++ String "}" post))
        /\ MCQGenerator.extract_payload text = text).
Proof.
  intros text. unfold MCQGenerator.extract_payload.
  destruct (MCQGenerator.find_char "{" text) as [i|] eqn:Ef.
  2:{ right. split; [|reflexivity]. intros pre body post H.
      destruct (braces_found _ _ _ _ H) as (i & j & Hi & _). congruence. }
  destruct (MCQGenerator.rfind_char "}" text) as [j|] eqn:Er.
  2:{ right. split.
      - intros pre body post H.
        destruct (braces_found _ _ _ _ H) as (i' & j & _ & Hj & _). congruence.
      - cbn [MCQGenerator.index_or_minus_one].
        replace (Z.of_nat i <? -1 + 1)%Z with false
          by (symmetry; apply Z.ltb_ge; lia).
        now rewrite andb_false_r. }
  cbn [MCQGenerator.index_or_minus_one].
  destruct (Z.of_nat i <? Z.of_nat j + 1)%Z eqn:E.
  2:{ right. split.
      - intros pre body post H.
        destruct (braces_found _ _ _ _ H) as (i' & j' & Hi & Hj & Hlt).
        apply Z.ltb_ge in E.
        assert (i' = i) by congruence. assert (j' = j) by congruence. lia.
      - now rewrite andb_false_r. }
  left. apply Z.ltb_lt in E.
  destruct (find_char_split _ _ _ Ef) as (pre & post1 & Htext & Hl & Hn).
  rewrite Htext, rfind_char_app in Er. simpl in Er.
  destruct (MCQGenerator.rfind_char "}" post1) as [k|] eqn:Ek.
  - injection Er as Hj.
    destruct (rfind_char_split _ _ _ Ek) as (body & post & Hpost & Hb & Hp).
    exists pre, body, post. split; [now rewrite Htext, Hpost|].
    split; [exact Hn|]. split; [exact Hp|].
    replace (0 <=? Z.of_nat i)%Z with true by (symmetry; apply Z.leb_le; lia).
    cbn [andb].
    replace (Z.to_nat (Z.of_nat i)) with (String.length pre) by lia.
    replace (Z.to_nat (Z.of_nat j + 1 - Z.of_nat i))
      with (String.length (String "{" (body ++ "}"))).
    + rewrite Htext, Hpost.
      replace (pre ++ String "{" (body ++ String "}" post))
        with (pre ++ String "{" (body ++ "}") ++ post)
        by (simpl; now rewrite append_assoc).
      apply substring_mid.
    + simpl. rewrite append_length. simpl. lia.
  - apply rfind_char_lt in Er. lia.
Qed.



(** X20.  When the JSON decoder never yields a dictionary with one of the
    ten paper and figure keys of main.py, no result of [generate_mcq] has
    such a key, and every row built with the generator shows the paper's
    identifier and link and the figure's label, link and caption in its
    CSV row. *)
Theorem generated_rows_show_sources :
  forall g : MCQGenerator.Generator,
    (forall payload m k,
        MCQGenerator.json_loads g payload = MCQGenerator.DecodedDict m ->
        In k RowShape.base_keys -> PyDict.lookup k m = None) ->
    RowShape.keeps_base_keys (Some (MCQGenerator.generate_mcq g))
    /\ (forall built paper fig_num figure,
           RowShape.row_shows (paper, fig_num, figure)
             (Pipeline.combine (Some (MCQGenerator.generate_mcq g)) built
                paper fig_num figure)).
Proof.
  intros g Hjson.
  assert (Hkeep : RowShape.keeps_base_keys
                    (Some (MCQGenerator.generate_mcq g))).
  { intros call abstract caption title k Hk.
    destruct (generate_mcq_cases g call abstract caption title)
      as [(reason & ->) | (_ & _ & _ & content & m & _ & Hj & Hv)].
    - now apply empty_mcq_no_base.
    - destruct (validate_mcq_cases (MCQGenerator._extract_medical_tags g) m
                  caption) as [(v & _ & _ & Hf) | (d & Hd & [_ C] & _)];
        [congruence|].
      rewrite Hv in Hd. injection Hd as <-.
      rewrite (C k (base_not_required k Hk)).
      exact (Hjson _ _ _ Hj Hk). }
  split; [exact Hkeep|].
  intros built paper fig_num figure. now apply combine_shows.
Qed.

Lemma generated_rows_show_sources_witness :
  RowShape.keeps_base_keys (Some (MCQGenerator.generate_mcq McqShape.plain))
  /\ (forall built paper fig_num figure,
         RowShape.row_shows (paper, fig_num, figure)
           (Pipeline.combine (Some (MCQGenerator.generate_mcq McqShape.plain))
              built paper fig_num figure)).
Proof.
  apply (generated_rows_show_sources McqShape.plain).
  intros payload m k Hj Hk. injection Hj as <-.
  simpl in Hk. repeat (destruct Hk as [<-|Hk]; [reflexivity|]). destruct Hk.
Defined.

Section RetrieverFacts.

Import PyDict Pipeline Retriever.

Lemma substring_head_split (n : nat) :
  forall s, exists post, s = String.substring 0 n s ++ post.
Proof.
  induction n as [|n IH]; intros s.
  - exists s. now destruct s.
  - destruct s as [|c t]; [now exists ""|].
    destruct (IH t) as (post & Hpost). exists post. simpl. now rewrite <- Hpost.
Qed.

Lemma search_four_digits_none (s : string) :
  search_four_digits s = None ->
  forall pre ds post,
    s = pre ++ ds ++ post -> String.length ds = 4 -> all_digits ds = false.
Proof.
  induction s as [|c t IH]; intros Hs pre ds post Heq Hlen.
  - destruct pre; [|discriminate]. destruct ds; [discriminate|].
    discriminate.
  - cbn [search_four_digits] in Hs.
    destruct ((String.length (String.substring 0 4 (String c t)) =? 4)%nat
              && all_digits (String.substring 0 4 (String c t))) eqn:E;
      [discriminate|].
    destruct pre as [|c' pre].
    + cbn [append] in Heq. rewrite Heq, <- Hlen, substring_prefix in E.
      rewrite Nat.eqb_refl in E. exact E.
    + injection Heq as _ Heq. exact (IH Hs pre ds post Heq Hlen).
Qed.

Lemma search_four_digits_some (s ds : string) :
  search_four_digits s = Some ds ->
  exists pre post,
    s = pre ++ ds ++ post
    /\ String.length ds = 4
    /\ all_digits ds = true
    /\ forall pre' ds' post',
         s = pre' ++ ds' ++ post' ->
         String.length ds' = 4 -> all_digits ds' = true ->
         String.length pre <= String.length pre'.
Proof.
  revert ds. induction s as [|c t IH]; intros ds Hs; [discriminate|].
  cbn [search_four_digits] in Hs.
  destruct ((String.length (String.substring 0 4 (String c t)) =? 4)%nat
            && all_digits (String.substring 0 4 (String c t))) eqn:E.
  - injection Hs as <-. apply andb_true_iff in E as [El Ed].
    apply Nat.eqb_eq in El.
    destruct (substring_head_split 4 (String c t)) as (post & Hpost).
    exists "", post. split; [exact Hpost|].
    split; [exact El|]. split; [exact Ed|]. intros; simpl; lia.
  - destruct (IH ds Hs) as (pre & post & Heq & Hlen & Hd & Hmin).
    exists (String c pre), post. split; [simpl; now rewrite <- Heq|].
    split; [exact Hlen|]. split; [exact Hd|].
    intros pre' ds' post' Heq' Hlen' Hd'.
    destruct pre' as [|c' pre'].
    + cbn [append] in Heq'.
      rewrite Heq', <- Hlen', substring_prefix, Nat.eqb_refl, Hd' in E.
      discriminate.
    + injection Heq' as _ Heq'. simpl.
      specialize (Hmin pre' ds' post' Heq' Hlen' Hd'). lia.
Qed.

Lemma digit_value_bound (c : ascii) :
  is_digit c = true -> (0 <= Z.of_nat (nat_of_ascii c - 48) <= 9)%Z.
Proof.
  unfold is_digit. intros H. apply andb_true_iff in H as [H1 H2].
  apply Nat.leb_le in H1, H2. lia.
Qed.

Lemma int_of_four_digits (ds : string) :
  String.length ds = 4 -> all_digits ds = true ->
  (0 <= int_of_digits ds <= 9999)%Z.
Proof.
  intros Hlen Hd.
  destruct ds as [|a [|b [|c [|d [|e r]]]]]; try discriminate.
  cbn [all_digits] in Hd.
  repeat (apply andb_true_iff in Hd as [?H Hd]).
  unfold int_of_digits. cbn [int_from].
  repeat match goal with
         | H : is_digit _ = true |- _ => apply digit_value_bound in H
         end.
  lia.
Qed.

Lemma abstracts_loop_find (abstracts : list string) :
  abstracts_loop abstracts
  = option_map (fun t => collapse_ws (strip t))
      (List.find qualifies abstracts).
Proof.
  induction abstracts as [|a rest IH]; [reflexivity|].
  cbn [abstracts_loop List.find]. unfold qualifies at 1.
  destruct (50 <? String.length (strip a))%nat eqn:E.
  - assert (Ht : truthy (strip a) = true).
    { apply Nat.ltb_lt in E. destruct (strip a); [simpl in E; lia|reflexivity]. }
    now rewrite Ht.
  - rewrite andb_false_r. exact IH.
Qed.

Lemma patterns_loop_find (root : xml_root) (patterns : list string) :
  patterns_loop root patterns
  = match List.find qualifies (flat_map root patterns) with
    | Some t => collapse_ws (strip t)
    | None => "Abstract not available"
    end.
Proof.
  induction patterns as [|p ps IH]; [reflexivity|].
  cbn [patterns_loop flat_map]. rewrite find_app, abstracts_loop_find.
  destruct (List.find qualifies (root p)); [reflexivity | exact IH].
Qed.

Lemma collapse_nonempty (s : string) : s <> "" -> collapse_ws s <> "".
Proof.
  destruct s as [|c t]; [congruence|]. intros _. unfold collapse_ws. simpl.
  destruct (is_space c); discriminate.
Qed.

Lemma strip_PMC (pmcid : string) : strip ("PMC" ++ pmcid) = "PMC" ++ rstrip pmcid.
Proof.
  unfold strip. cbn [append]. rewrite lstrip_nonspace by reflexivity.
  now rewrite !rstrip_cons_nonspace by reflexivity.
Qed.

Lemma normalize_retrieved_pmcid (pmcid : string) :
  _normalize_pmcid ("PMC" ++ pmcid) = "PMC" ++ rstrip pmcid.
Proof.
  unfold _normalize_pmcid. rewrite strip_PMC.
  assert (H : startswith ("PMC" ++ rstrip pmcid) "PMC" = true)
    by (apply prefix_spec; now exists (rstrip pmcid)).
  now rewrite H.
Qed.

End RetrieverFacts.

(** X21.  [_extract_year_from_date] returns the number written by the
    leftmost four digits in a row of the date, whatever surrounds them, a
    number between 0 and 9999; it returns nothing exactly when the date has
    no four digits in a row (the empty date included). *)
Theorem extract_year_spec :
  forall pub_date : string,
    match Retriever._extract_year_from_date pub_date with
    | Some y =>
        exists pre ds post,
          pub_date = pre ++ ds ++ post
          /\ String.length ds = 4
          /\ Retriever.all_digits ds = true
          /\ y = Retriever.int_of_digits ds
          /\ (0 <= y <= 9999)%Z
          /\ (forall pre' ds' post',
                 pub_date = pre' ++ ds' ++ post' ->
                 String.length ds' = 4 ->
                 Retriever.all_digits ds' = true ->
                 String.length pre <= String.length pre')
    | None =>
        forall pre ds post,
          pub_date = pre ++ ds ++ post ->
          String.length ds = 4 -> Retriever.all_digits ds = false
    end.
Proof.
  intros pub_date. unfold Retriever._extract_year_from_date.
  destruct pub_date as [|c t] eqn:Ep.
  - cbn [truthy negb]. intros pre ds post Heq Hlen.
    destruct pre; [|discriminate]. destruct ds; discriminate.
  - cbn [truthy negb]. rewrite <- Ep.
    destruct (Retriever.search_four_digits pub_date) as [ds|] eqn:Es.
    + cbn [option_map].
      destruct (search_four_digits_some _ _ Es)
        as (pre & post & Heq & Hlen & Hd & Hmin).
      exists pre, ds, post. split; [exact Heq|]. split; [exact Hlen|].
      split; [exact Hd|]. split; [reflexivity|].
      split; [now apply int_of_four_digits | exact Hmin].
    + cbn [option_map]. now apply search_four_digits_none.
Qed.

(** X22.  [_extract_abstract] returns the text of the first element, in
    the order of the four paths and then of the document, whose trimmed
    text has more than 50 characters, trimmed and with every run of white
    space turned into one space; without such an element it returns
    "Abstract not available".  The abstract is never empty, has no white
    space at its ends and none inside but single spaces. *)
Theorem extract_abstract_spec :
  forall root : Retriever.xml_root,
    Retriever._extract_abstract root
    = match List.find Retriever.qualifies
              (flat_map root Retriever.abstract_patterns) with
      | Some t => collapse_ws (strip t)
      | None => "Abstract not available"
      end
    /\ Retriever._extract_abstract root <> ""
    /\ strip (Retriever._extract_abstract root)
       = Retriever._extract_abstract root
    /\ single_spaced (Retriever._extract_abstract root) = true.
Proof.
  intros root. unfold Retriever._extract_abstract.
  rewrite patterns_loop_find.
  split; [reflexivity|].
  destruct (List.find Retriever.qualifies
              (flat_map root Retriever.abstract_patterns)) as [t|] eqn:E.
  - apply find_some in E as [_ Hq]. unfold Retriever.qualifies in Hq.
    apply Nat.ltb_lt in Hq.
    split; [|split].
    + apply collapse_nonempty. destruct (strip t); [simpl in Hq; lia|].
      discriminate.
    + apply strip_collapse_strip.
    + apply single_spaced_collapse.
  - split; [discriminate|]. split; reflexivity.
Qed.

(** X23.  A case report the retriever builds for an id has pmcid "PMC"
    followed by the id and, as pmc_url, the article URL for that pmcid; the
    abstract is the one of the detailed metadata.  When main.py hands it to
    [scrape_figures], the scraper's first request goes to the article URL
    for "PMC" followed by the id without the white space at its end, and
    every other request to a figure page under that URL: for an id without
    white space at its end, the page scraped is the one the row gives as
    the link to the paper. *)
Theorem retrieved_paper_scraped_at_its_link :
  forall (net : network) (l : log) (pmcid : string) (s : Retriever.summary)
         (abstract : string),
  exists d paper recs pages,
    Retriever._get_paper_metadata (Some (Retriever.summary_data pmcid s))
      [("abstract", PyDict.VStr abstract)] = Some d
    /\ Retriever.paper_of d = Some paper
    /\ Pipeline.p_pmcid paper = "PMC" ++ pmcid
    /\ Pipeline.p_title paper = Retriever.s_title s
    /\ Pipeline.p_abstract paper = abstract
    /\ Pipeline.p_pmc_url paper = paper_url ("PMC" ++ pmcid)
    /\ scrape_figures net (Pipeline.p_pmcid paper) l
       = (Ok recs, (l ++ paper_url ("PMC" ++ rstrip pmcid) :: pages)%list)
    /\ Forall
         (fun u =>
            startswith u (paper_url ("PMC" ++ rstrip pmcid) ++ "figure/")
            = true)
         pages
    /\ (rstrip pmcid = pmcid ->
        paper_url ("PMC" ++ rstrip pmcid) = Pipeline.p_pmc_url paper).
Proof.
  intros net l pmcid s abstract.
  pose proof (scrape_figures_run net ("PMC" ++ pmcid) l) as Hrun.
  rewrite normalize_retrieved_pmcid in Hrun.
  destruct (collect_concrete net ("PMC" ++ rstrip pmcid)
              (located_on net l ("PMC" ++ rstrip pmcid)) 1
              (l ++ [paper_url ("PMC" ++ rstrip pmcid)])%list)
    as (pages & Hlog & _ & Hpages & _).
  eexists _, _, _, pages.
  split; [reflexivity|]. split; [reflexivity|].
  cbn [Pipeline.p_pmcid Pipeline.p_title Pipeline.p_abstract
       Pipeline.p_pmc_url].
  split; [reflexivity|]. split; [reflexivity|]. split; [reflexivity|].
  split; [reflexivity|]. split; [|split].
  - rewrite Hrun, Hlog, <- app_assoc. reflexivity.
  - exact Hpages.
  - intros ->. reflexivity.
Qed.

